(** * Soil and plant monitor: validation and scoring of sensor readings

    A shallow embedding of [config/settings.py], [src/models/soil_data.py]
    and [src/models/plant_data.py].

    - Python [float] is IEEE 754 binary64; it is modelled by the Standard
      Library's executable specification [spec_float] at precision 53 and
      maximal exponent 1024.
    - Python [int] is [Z], [str] is [string], [bool] is [bool].
    - A reading is a row of its table: a record with one field per column.
      What an instance holds before it is a row (an attribute that was
      never assigned, a value of another type than the column's) is
      modelled apart, in [Instance].
    - A method is a computation in a state-and-exception monad whose state
      is [self]; assigning a column goes through the validator that
      [@validates] registers for it.
    - Where a property depends on rounding ([get_npk_ratio]), the exact
      value of a double is a real number and the error of each operation
      is bounded from the definition of the operation. *)

From Stdlib Require Import ZArith Lia List String Bool DecimalString.
From Stdlib Require Import Reals Lra.
From Stdlib Require HexadecimalString HexadecimalZ.
From Stdlib Require Import Ascii.
From Stdlib Require Import Floats.SpecFloat.
From ExtLib Require Import Structures.Monad Structures.MonadState Structures.MonadExc.
From ExtLib Require Import Data.Monads.StateMonad Data.Monads.EitherMonad.
Import ListNotations.
Import MonadNotation.
Local Open Scope monad_scope.
Local Open Scope string_scope.
Local Open Scope Z_scope.

#[local] Existing Instance Monad_stateT.
#[local] Set Warnings "-register-all".

(** ** Python numbers *)

Module Py.

(** binary64 *)
Definition prec : Z := 53.
Definition emax : Z := 1024.

Definition float : Type := spec_float.

(** [m * 2^e], rounded to nearest even: how a decimal literal with a
    dyadic value is read. *)
Definition dyadic (m e : Z) : float := binary_normalize prec emax m e false.

(** [float(n)] for a Python [int]; also how an [int] operand is
    converted in mixed arithmetic. *)
Definition of_int (n : Z) : float := dyadic n 0.

Definition add : float -> float -> float := SFadd prec emax.
Definition sub : float -> float -> float := SFsub prec emax.
Definition mul : float -> float -> float := SFmul prec emax.
Definition div : float -> float -> float := SFdiv prec emax.

(** Comparisons; each is false as soon as one side is NaN. *)
Definition lt (x y : float) : bool := SFltb x y.
Definition le (x y : float) : bool := SFleb x y.
Definition gt (x y : float) : bool := SFltb y x.
Definition ge (x y : float) : bool := SFleb y x.
Definition eq (x y : float) : bool := SFeqb x y.

Definition is_nan (x : float) : bool :=
  match x with S754_nan => true | _ => false end.

Definition is_finite (x : float) : bool :=
  match x with S754_zero _ | S754_finite _ _ _ => true | _ => false end.

(** The builtins [min(a, b)] and [max(a, b)]: the first argument is
    kept unless the second compares strictly below (above) it. *)
Definition min (a b : float) : float := if lt b a then b else a.
Definition max (a b : float) : float := if gt b a then b else a.

Definition abs : float -> float := SFabs.

(** The double nearest to [n / d] (ties to even), with sign [s]: how a
    decimal numeral is read. *)
Definition of_ratio (s : bool) (n d : positive) : float :=
  let '(mz, ez, lz) := SFdiv_core_binary prec emax (Zpos n) 0 (Zpos d) 0 in
  binary_round_aux prec emax s mz ez lz.

(** The integer nearest to [m * 2^e] for [0 <= m], ties to even. *)
Definition nearest_integer (m e : Z) : Z :=
  match e with
  | Zneg p =>
      let d := 2 ^ Zpos p in
      let q := m / d in
      match (2 * (m mod d) ?= d) with
      | Lt => q
      | Eq => if Z.even q then q else q + 1
      | Gt => q + 1
      end
  | _ => m * 2 ^ e
  end.

Definition pow10 (ndigits : nat) : positive := Nat.iter ndigits (Pos.mul 10) 1%positive.

(** The double that stands for [n] units of the last of [ndigits]
    decimal places. *)
Definition decimal (s : bool) (n : Z) (ndigits : nat) : float :=
  match n with
  | Zpos p => of_ratio s p (pow10 ndigits)
  | _ => S754_zero s
  end.

(** [round(x, ndigits)] for [0 <= ndigits] small: the exact value of [x]
    is rounded to [ndigits] decimal places, ties to even, and the
    decimal numeral obtained is read back as a double.  Zeros,
    infinities and NaN round to themselves. *)
Definition round (x : float) (ndigits : nat) : float :=
  match x with
  | S754_finite s m e =>
      decimal s (nearest_integer (Zpos (m * pow10 ndigits)) e) ndigits
  | _ => x
  end.

(** Truth value of a [str]: true unless empty. *)
Definition truthy (s : string) : bool :=
  match s with EmptyString => false | _ => true end.

(** [s.split(sep)] for a separator of one character: every occurrence
    of [sep] ends a piece; empty pieces are kept. *)
Fixpoint split (sep : ascii) (s : string) : list string :=
  match s with
  | EmptyString => [EmptyString]
  | String c rest =>
      if Ascii.eqb c sep then EmptyString :: split sep rest
      else
        match split sep rest with
        | piece :: pieces => String c piece :: pieces
        | [] => [String c EmptyString]
        end
  end.

(** [s.count(sep)] for a separator of one character. *)
Fixpoint count (sep : ascii) (s : string) : nat :=
  match s with
  | EmptyString => 0
  | String c rest => (if Ascii.eqb c sep then 1 else 0) + count sep rest
  end.

(** [sep.join(pieces)] *)
Definition join (sep : string) (pieces : list string) : string := String.concat sep pieces.

(** [format(n, 'x')]: lower-case hexadecimal digits, [-] first when
    [n] is negative. *)
Definition hex (n : Z) : string :=
  HexadecimalString.NilZero.string_of_int (Z.to_hex_int n).

(** [format(n, '02x')]: the same, padded with zeros to two characters. *)
Definition format_02x (n : Z) : string :=
  let digits := hex n in
  if (String.length digits <? 2)%nat then "0" ++ digits else digits.

(** The values a [to_dict] holds. *)
Inductive value : Type :=
| VNone
| VInt (n : Z)
| VFloat (x : float)
| VStr (s : string)
| VBool (b : bool)
| VList (items : list value).

(** A [dict] with [str] keys, in insertion order. *)
Definition dict : Type := list (string * value).

Definition optional_int (n : option Z) : value :=
  match n with
  | Some n => VInt n
  | None => VNone
  end.

(** Exceptions raised by the models. *)
Inductive exn : Type :=
| ValueError (msg : string)
| ZeroDivisionError
| TypeError (msg : string).

(** Methods of an object of type [Self]. *)
Abbreviation method Self := (stateT Self (sum exn)).

(** [x / y]: true division raises on a zero divisor. *)
Definition truediv {Self : Type} (x y : float) : method Self float :=
  if eq y (of_int 0) then raise ZeroDivisionError else ret (div x y).

(** [m(self)]: either the exception raised, or the value returned
    together with [self] as the call leaves it. *)
Definition call {Self A} (m : method Self A) (self : Self) : exn + A * Self :=
  runStateT m self.

(** An outcome computed outside a method, raised or returned inside it. *)
Definition lift {Self A} (outcome : exn + A) : method Self A :=
  match outcome with
  | inl e => raise e
  | inr a => ret a
  end.

(** *** Operations on a value of any type

    Comparisons and [format] as they act on whatever an attribute holds. *)

(** [type(x).__name__] *)
Definition type_name (x : value) : string :=
  match x with
  | VNone => "NoneType"
  | VInt _ => "int"
  | VFloat _ => "float"
  | VStr _ => "str"
  | VBool _ => "bool"
  | VList _ => "list"
  end.

(** The order of an [int] and a [float]: exact, as CPython computes it,
    and undefined when the float is NaN. *)
Definition compare_int_float (n : Z) (y : float) : option comparison :=
  match y with
  | S754_nan => None
  | S754_infinity s => Some (if s then Gt else Lt)
  | S754_zero _ => Some (n ?= 0)
  | S754_finite s m e =>
      let v := cond_Zopp s (Zpos m) in
      Some (if 0 <=? e then n ?= v * 2 ^ e else n * 2 ^ (- e) ?= v)
  end.

(** The message of the [TypeError] of a comparison. *)
Definition not_supported (op : string) (x : value) (other : string) : exn :=
  TypeError ("'" ++ op ++ "' not supported between instances of '" ++ type_name x
             ++ "' and '" ++ other ++ "'").


Definition is_lt (c : option comparison) : bool :=
  match c with Some Lt => true | _ => false end.

Definition is_gt (c : option comparison) : bool :=
  match c with Some Gt => true | _ => false end.

Definition is_ge (c : option comparison) : bool :=
  match c with Some Gt | Some Eq => true | _ => false end.

(** [x < n] and [x > n] for an [int] [n]: numbers are compared by
    value, a [bool] counting as 0 or 1; anything else raises. *)
Definition lt_int (x : value) (n : Z) : exn + bool :=
  match x with
  | VInt a => inr (a <? n)
  | VBool b => inr ((if b then 1 else 0) <? n)
  | VFloat a => inr (is_gt (compare_int_float n a))
  | _ => inl (not_supported "<" x "int")
  end.

Definition gt_int (x : value) (n : Z) : exn + bool :=
  match x with
  | VInt a => inr (a >? n)
  | VBool b => inr ((if b then 1 else 0) >? n)
  | VFloat a => inr (is_lt (compare_int_float n a))
  | _ => inl (not_supported ">" x "int")
  end.

(** [x >= y] for a [float] [y]. *)
Definition ge_float (x : value) (y : float) : exn + bool :=
  match x with
  | VInt a => inr (is_ge (compare_int_float a y))
  | VBool b => inr (is_ge (compare_int_float (if b then 1 else 0) y))
  | VFloat a => inr (ge a y)
  | _ => inl (not_supported ">=" x "float")
  end.

(** [format(x, '02x')]: an [int] or [bool] is written in hexadecimal;
    the format code is unknown to [float] and [str], and [None] and
    [list] take no format string at all. *)
Definition format_value_02x (x : value) : exn + string :=
  match x with
  | VInt n => inr (format_02x n)
  | VBool b => inr (format_02x (if b then 1 else 0))
  | VFloat _ | VStr _ =>
      inl (ValueError ("Unknown format code 'x' for object of type '" ++ type_name x ++ "'"))
  | VNone | VList _ =>
      inl (TypeError ("unsupported format string passed to " ++ type_name x ++ ".__format__"))
  end.

End Py.

Arguments Py.dyadic : simpl never.
Arguments Py.of_int : simpl never.

Declare Scope float_scope.
Delimit Scope float_scope with float.
Notation "x <? y" := (Py.lt x y) : float_scope.
Notation "x >? y" := (Py.gt x y) : float_scope.
Notation "x >=? y" := (Py.ge x y) : float_scope.
Notation "x <=? y" := (Py.le x y) : float_scope.
Notation "x =? y" := (Py.eq x y) : float_scope.
Notation "x + y" := (Py.add x y) : float_scope.
Notation "x - y" := (Py.sub x y) : float_scope.
Notation "x * y" := (Py.mul x y) : float_scope.
Notation "x / y" := (Py.div x y) : float_scope.
Notation "# n" := (Py.of_int n) (at level 1, n at level 0, format "# n") : float_scope.

(** ** config/settings.py *)

Module Settings.

(** The alert thresholds of class [Config]; each is
    [float(os.getenv(NAME, default))]. *)
Record Config : Type := {
  SOIL_PH_MIN : Py.float;
  SOIL_PH_MAX : Py.float;
  SOIL_MOISTURE_MIN : Py.float;
  SOIL_MOISTURE_MAX : Py.float;
  SOIL_TEMP_MIN : Py.float;
  SOIL_TEMP_MAX : Py.float;
  NITROGEN_MIN : Py.float;
  NITROGEN_MAX : Py.float;
  PHOSPHORUS_MIN : Py.float;
  PHOSPHORUS_MAX : Py.float;
  POTASSIUM_MIN : Py.float;
  POTASSIUM_MAX : Py.float;
  PLANT_HEALTH_SCORE_MIN : Py.float;
  GROWTH_RATE_MIN : Py.float
}.

(** Class [Config] once its body has run: every attribute it binds,
    the thresholds gathered in [limits]; [recipients] is
    [ALERT_RECIPIENTS]. *)
Record Class : Type := {
  DATABASE_URL : string;
  SENSOR_READ_INTERVAL : Z;
  limits : Config;
  SMTP_SERVER : string;
  SMTP_PORT : Z;
  EMAIL_USER : string;
  EMAIL_PASSWORD : string;
  recipients : list string;
  DASHBOARD_HOST : string;
  DASHBOARD_PORT : Z;
  DATA_RETENTION_DAYS : Z
}.

(** The configuration when no environment variable is set. *)
Definition defaults : Config := {|
  SOIL_PH_MIN := #6;
  SOIL_PH_MAX := Py.dyadic 15 (-1);        (* 7.5 *)
  SOIL_MOISTURE_MIN := #30;
  SOIL_MOISTURE_MAX := #80;
  SOIL_TEMP_MIN := #15;
  SOIL_TEMP_MAX := #30;
  NITROGEN_MIN := #20;
  NITROGEN_MAX := #50;
  PHOSPHORUS_MIN := #10;
  PHOSPHORUS_MAX := #30;
  POTASSIUM_MIN := #15;
  POTASSIUM_MAX := #40;
  PLANT_HEALTH_SCORE_MIN := #70;
  GROWTH_RATE_MIN := Py.dyadic 1 (-1)      (* 0.5 *)
|}%float.

(** The process environment: the value of a variable, if it is set. *)
Definition environ : Type := string -> option string.

(** [os.getenv(name, default)]: the string found, or the default as it
    was passed. *)
Definition getenv {A : Type} (env : environ) (name : string) (default : A) : string + A :=
  match env name with
  | Some v => inl v
  | None => inr default
  end.

Section FromEnvironment.

(** [float(s)] for a [str]: the number read, or the [ValueError]
    raised.  The builtin is taken as given. *)
Variable float_of_str : string -> Py.exn + Py.float.

Variable env : environ.

(** [float(os.getenv(name, default))] for a [float] default. *)
Definition float_setting (name : string) (default : Py.float) : Py.exn + Py.float :=
  match getenv env name default with
  | inl s => float_of_str s
  | inr x => inr x
  end.

(** The alert thresholds, NPK ranges and plant health thresholds of the
    class body, evaluated in the order they are written. *)
Definition thresholds : Py.exn + Config :=
  ph_min <- float_setting "SOIL_PH_MIN" (#6)%float ;;
  ph_max <- float_setting "SOIL_PH_MAX" (Py.dyadic 15 (-1)) ;;
  moisture_min <- float_setting "SOIL_MOISTURE_MIN" (#30)%float ;;
  moisture_max <- float_setting "SOIL_MOISTURE_MAX" (#80)%float ;;
  temp_min <- float_setting "SOIL_TEMP_MIN" (#15)%float ;;
  temp_max <- float_setting "SOIL_TEMP_MAX" (#30)%float ;;
  nitrogen_min <- float_setting "NITROGEN_MIN" (#20)%float ;;
  nitrogen_max <- float_setting "NITROGEN_MAX" (#50)%float ;;
  phosphorus_min <- float_setting "PHOSPHORUS_MIN" (#10)%float ;;
  phosphorus_max <- float_setting "PHOSPHORUS_MAX" (#30)%float ;;
  potassium_min <- float_setting "POTASSIUM_MIN" (#15)%float ;;
  potassium_max <- float_setting "POTASSIUM_MAX" (#40)%float ;;
  health_min <- float_setting "PLANT_HEALTH_SCORE_MIN" (#70)%float ;;
  growth_min <- float_setting "GROWTH_RATE_MIN" (Py.dyadic 1 (-1)) ;;
  ret {|
    SOIL_PH_MIN := ph_min;
    SOIL_PH_MAX := ph_max;
    SOIL_MOISTURE_MIN := moisture_min;
    SOIL_MOISTURE_MAX := moisture_max;
    SOIL_TEMP_MIN := temp_min;
    SOIL_TEMP_MAX := temp_max;
    NITROGEN_MIN := nitrogen_min;
    NITROGEN_MAX := nitrogen_max;
    PHOSPHORUS_MIN := phosphorus_min;
    PHOSPHORUS_MAX := phosphorus_max;
    POTASSIUM_MIN := potassium_min;
    POTASSIUM_MAX := potassium_max;
    PLANT_HEALTH_SCORE_MIN := health_min;
    GROWTH_RATE_MIN := growth_min
  |}.

(** [ALERT_RECIPIENTS = os.getenv('ALERT_RECIPIENTS', '').split(',')] *)
Definition ALERT_RECIPIENTS : list string :=
  match getenv env "ALERT_RECIPIENTS" "" with
  | inl s => Py.split "," s
  | inr s => Py.split "," s
  end.

(** [int(s)] for a [str]: the number read, or the [ValueError] raised.
    The builtin is taken as given. *)
Variable int_of_str : string -> Py.exn + Z.

(** [int(os.getenv(name, default))] for an [int] default. *)
Definition int_setting (name : string) (default : Z) : Py.exn + Z :=
  match getenv env name default with
  | inl s => int_of_str s
  | inr n => inr n
  end.

(** [os.getenv(name, default)] for a [str] default. *)
Definition str_setting (name default : string) : string :=
  match getenv env name default with
  | inl s => s
  | inr s => s
  end.

(** The body of class [Config], top to bottom.  The first conversion
    that raises ends it: the class is then not defined at all, and
    importing the module fails. *)
Definition class_body : Py.exn + Class :=
  let database_url := str_setting "DATABASE_URL" "sqlite:///soil_monitor.db" in
  sensor_read_interval <- int_setting "SENSOR_READ_INTERVAL" 300 ;;
  alert_thresholds <- thresholds ;;
  let smtp_server := str_setting "SMTP_SERVER" "smtp.gmail.com" in
  smtp_port <- int_setting "SMTP_PORT" 587 ;;
  let email_user := str_setting "EMAIL_USER" "" in
  let email_password := str_setting "EMAIL_PASSWORD" "" in
  let alert_recipients := ALERT_RECIPIENTS in
  let dashboard_host := str_setting "DASHBOARD_HOST" "127.0.0.1" in
  dashboard_port <- int_setting "DASHBOARD_PORT" 8050 ;;
  data_retention_days <- int_setting "DATA_RETENTION_DAYS" 365 ;;
  ret {|
    DATABASE_URL := database_url;
    SENSOR_READ_INTERVAL := sensor_read_interval;
    limits := alert_thresholds;
    SMTP_SERVER := smtp_server;
    SMTP_PORT := smtp_port;
    EMAIL_USER := email_user;
    EMAIL_PASSWORD := email_password;
    recipients := alert_recipients;
    DASHBOARD_HOST := dashboard_host;
    DASHBOARD_PORT := dashboard_port;
    DATA_RETENTION_DAYS := data_retention_days
  |}.

End FromEnvironment.

(** The variables read by [thresholds], in the order they are read. *)
Definition threshold_names : list string :=
  ["SOIL_PH_MIN"; "SOIL_PH_MAX"; "SOIL_MOISTURE_MIN"; "SOIL_MOISTURE_MAX";
   "SOIL_TEMP_MIN"; "SOIL_TEMP_MAX"; "NITROGEN_MIN"; "NITROGEN_MAX";
   "PHOSPHORUS_MIN"; "PHOSPHORUS_MAX"; "POTASSIUM_MIN"; "POTASSIUM_MAX";
   "PLANT_HEALTH_SCORE_MIN"; "GROWTH_RATE_MIN"].

(** The variables the class body reads with [int]. *)
Definition int_names : list string :=
  ["SENSOR_READ_INTERVAL"; "SMTP_PORT"; "DASHBOARD_PORT"; "DATA_RETENTION_DAYS"].

End Settings.

(** ** src/models/soil_data.py *)

Module SoilData.

Record SoilReading : Type := {
  id : option Z;
  timestamp : Z;
  location : string;
  (* Soil nutrients (ppm) *)
  nitrogen : Py.float;
  phosphorus : Py.float;
  potassium : Py.float;
  (* Soil physical properties *)
  ph_level : Py.float;
  moisture_percent : Py.float;
  temperature_celsius : Py.float;
  electrical_conductivity : Py.float;
  (* Soil quality indicators *)
  organic_matter_percent : Py.float;
  salinity_level : Py.float;
  (* System fields *)
  sensor_id : string;
  is_valid : bool;
  notes : string
}.

Abbreviation method := (Py.method SoilReading).

(** The [Float] columns, by attribute name. *)
Inductive column : Type :=
| c_nitrogen | c_phosphorus | c_potassium
| c_ph_level | c_moisture_percent | c_temperature_celsius
| c_electrical_conductivity | c_organic_matter_percent | c_salinity_level.

Definition read (key : column) (self : SoilReading) : Py.float :=
  match key with
  | c_nitrogen => nitrogen self
  | c_phosphorus => phosphorus self
  | c_potassium => potassium self
  | c_ph_level => ph_level self
  | c_moisture_percent => moisture_percent self
  | c_temperature_celsius => temperature_celsius self
  | c_electrical_conductivity => electrical_conductivity self
  | c_organic_matter_percent => organic_matter_percent self
  | c_salinity_level => salinity_level self
  end.

(** The attribute name of a column. *)
Definition name (key : column) : string :=
  match key with
  | c_nitrogen => "nitrogen"
  | c_phosphorus => "phosphorus"
  | c_potassium => "potassium"
  | c_ph_level => "ph_level"
  | c_moisture_percent => "moisture_percent"
  | c_temperature_celsius => "temperature_celsius"
  | c_electrical_conductivity => "electrical_conductivity"
  | c_organic_matter_percent => "organic_matter_percent"
  | c_salinity_level => "salinity_level"
  end.

(** The plain store of a value in a column, all other columns kept. *)
Definition store (key : column) (v : Py.float) (self : SoilReading) : SoilReading :=
  let 'Build_SoilReading i ts loc n p k ph mo te ec om sa sid iv no := self in
  match key with
  | c_nitrogen => Build_SoilReading i ts loc v p k ph mo te ec om sa sid iv no
  | c_phosphorus => Build_SoilReading i ts loc n v k ph mo te ec om sa sid iv no
  | c_potassium => Build_SoilReading i ts loc n p v ph mo te ec om sa sid iv no
  | c_ph_level => Build_SoilReading i ts loc n p k v mo te ec om sa sid iv no
  | c_moisture_percent => Build_SoilReading i ts loc n p k ph v te ec om sa sid iv no
  | c_temperature_celsius => Build_SoilReading i ts loc n p k ph mo v ec om sa sid iv no
  | c_electrical_conductivity => Build_SoilReading i ts loc n p k ph mo te v om sa sid iv no
  | c_organic_matter_percent => Build_SoilReading i ts loc n p k ph mo te ec v sa sid iv no
  | c_salinity_level => Build_SoilReading i ts loc n p k ph mo te ec om v sid iv no
  end.

(** The value a [Float] column takes when a row is stored without
    one: the [default=] of its [Column]. *)
Definition column_default (key : column) : option Py.float :=
  match key with
  | c_organic_matter_percent => Some (#0)%float
  | c_salinity_level => Some (#0)%float
  | _ => None
  end.

(** *** Validators *)

Definition validate_ph (key : column) (ph : Py.float) : method Py.float :=
  if (ph <? #0)%float || (ph >? #14)%float
  then raise (Py.ValueError "pH must be between 0 and 14")
  else ret ph.

Definition validate_moisture (key : column) (moisture : Py.float) : method Py.float :=
  if (moisture <? #0)%float || (moisture >? #100)%float
  then raise (Py.ValueError "Moisture percentage must be between 0 and 100")
  else ret moisture.

Definition validate_temperature (key : column) (temp : Py.float) : method Py.float :=
  if (temp <? #(-50))%float || (temp >? #80)%float
  then raise (Py.ValueError "Temperature must be between -50 and 80 Celsius")
  else ret temp.

(** The validator that [@validates] registers for a column, if any. *)
Definition validates (key : column) : option (column -> Py.float -> method Py.float) :=
  match key with
  | c_ph_level => Some validate_ph
  | c_moisture_percent => Some validate_moisture
  | c_temperature_celsius => Some validate_temperature
  | _ => None
  end.

(** [self.key = value]: the registered validator, when there is one,
    receives the value first; what it returns is stored, and when it
    raises nothing is stored. *)
Definition setattr (key : column) (value : Py.float) : method unit :=
  v <- match validates key with
       | Some validator => validator key value
       | None => ret value
       end ;;
  self <- get ;;
  put (store key v self).

(** *** Methods *)

(** The three components of [get_npk_ratio] are [int] zeros on the
    short branch and [float]s otherwise. *)
Inductive number : Type :=
| Int (n : Z)
| Float (x : Py.float).

Section ToDict.

(** [datetime.isoformat], taken as given.  A stored row has a
    timestamp ([nullable=False]) and a [datetime] is always true, so
    [to_dict] takes the [isoformat()] branch of its conditional. *)
Variable isoformat : Z -> string.

Definition to_dict : method Py.dict :=
  self <- get ;;
  ret [("id", Py.optional_int (id self));
       ("timestamp", Py.VStr (isoformat (timestamp self)));
       ("location", Py.VStr (location self));
       ("nitrogen", Py.VFloat (nitrogen self));
       ("phosphorus", Py.VFloat (phosphorus self));
       ("potassium", Py.VFloat (potassium self));
       ("ph_level", Py.VFloat (ph_level self));
       ("moisture_percent", Py.VFloat (moisture_percent self));
       ("temperature_celsius", Py.VFloat (temperature_celsius self));
       ("electrical_conductivity", Py.VFloat (electrical_conductivity self));
       ("organic_matter_percent", Py.VFloat (organic_matter_percent self));
       ("salinity_level", Py.VFloat (salinity_level self));
       ("sensor_id", Py.VStr (sensor_id self));
       ("is_valid", Py.VBool (is_valid self));
       ("notes", Py.VStr (notes self))].

End ToDict.

Definition get_npk_ratio : method (number * number * number) :=
  self <- get ;;
  let total := (nitrogen self + phosphorus self + potassium self)%float in
  if (total =? #0)%float then ret (Int 0, Int 0, Int 0)
  else
    n <- Py.truediv (nitrogen self) total ;;
    let n := Py.round (n * #100)%float 1 in
    p <- Py.truediv (phosphorus self) total ;;
    let p := Py.round (p * #100)%float 1 in
    k <- Py.truediv (potassium self) total ;;
    let k := Py.round (k * #100)%float 1 in
    ret (Float n, Float p, Float k).

Definition is_nutrient_deficient (config : Settings.Config) : method (list string) :=
  self <- get ;;
  let deficiencies : list string := [] in
  let deficiencies :=
    if (nitrogen self <? Settings.NITROGEN_MIN config)%float
    then (deficiencies ++ ["nitrogen"])%list else deficiencies in
  let deficiencies :=
    if (phosphorus self <? Settings.PHOSPHORUS_MIN config)%float
    then (deficiencies ++ ["phosphorus"])%list else deficiencies in
  let deficiencies :=
    if (potassium self <? Settings.POTASSIUM_MIN config)%float
    then (deficiencies ++ ["potassium"])%list else deficiencies in
  ret deficiencies.

Definition get_soil_quality_score (config : Settings.Config) : method Z :=
  self <- get ;;
  let score := 100 in
  (* pH score *)
  let score :=
    if (ph_level self <? Settings.SOIL_PH_MIN config)%float
       || (ph_level self >? Settings.SOIL_PH_MAX config)%float
    then score - 20 else score in
  (* Moisture score *)
  let score :=
    if (moisture_percent self <? Settings.SOIL_MOISTURE_MIN config)%float
       || (moisture_percent self >? Settings.SOIL_MOISTURE_MAX config)%float
    then score - 15 else score in
  (* Temperature score *)
  let score :=
    if (temperature_celsius self <? Settings.SOIL_TEMP_MIN config)%float
       || (temperature_celsius self >? Settings.SOIL_TEMP_MAX config)%float
    then score - 10 else score in
  (* Nutrient scores *)
  let score :=
    if (nitrogen self <? Settings.NITROGEN_MIN config)%float
    then score - 15 else score in
  let score :=
    if (phosphorus self <? Settings.PHOSPHORUS_MIN config)%float
    then score - 15 else score in
  let score :=
    if (potassium self <? Settings.POTASSIUM_MIN config)%float
    then score - 15 else score in
  (* Salinity penalty *)
  let score :=
    if (salinity_level self >? #2)%float
    then score - 10 else score in
  ret (Z.max 0 score).

End SoilData.

(** ** src/models/plant_data.py *)

Module PlantData.

Record PlantReading : Type := {
  id : option Z;
  timestamp : Z;
  location : string;
  plant_type : string;
  plant_id : string;
  (* Growth measurements *)
  height_cm : Py.float;
  leaf_count : Z;
  stem_diameter_mm : Py.float;
  (* Leaf health indicators *)
  leaf_color_r : Z;
  leaf_color_g : Z;
  leaf_color_b : Z;
  leaf_chlorophyll_index : Py.float;
  (* Health indicators *)
  disease_symptoms : string;
  pest_presence : bool;
  water_stress_level : Py.float;
  nutrient_deficiency_signs : string;
  (* Environmental stress indicators *)
  heat_stress_score : Py.float;
  drought_stress_score : Py.float;
  (* Growth rate (calculated) *)
  growth_rate_cm_per_week : Py.float;
  (* Overall health score *)
  health_score : Py.float;
  (* System fields *)
  sensor_id : string;
  is_valid : bool;
  notes : string
}.

Abbreviation method := (Py.method PlantReading).

(** The [Float] columns and the [Integer] columns, by attribute name. *)
Inductive column : Type :=
| c_height_cm | c_stem_diameter_mm | c_leaf_chlorophyll_index
| c_water_stress_level | c_heat_stress_score | c_drought_stress_score
| c_growth_rate_cm_per_week | c_health_score.

Inductive int_column : Type :=
| c_leaf_count | c_leaf_color_r | c_leaf_color_g | c_leaf_color_b.

Definition read (key : column) (self : PlantReading) : Py.float :=
  match key with
  | c_height_cm => height_cm self
  | c_stem_diameter_mm => stem_diameter_mm self
  | c_leaf_chlorophyll_index => leaf_chlorophyll_index self
  | c_water_stress_level => water_stress_level self
  | c_heat_stress_score => heat_stress_score self
  | c_drought_stress_score => drought_stress_score self
  | c_growth_rate_cm_per_week => growth_rate_cm_per_week self
  | c_health_score => health_score self
  end.

Definition read_int (key : int_column) (self : PlantReading) : Z :=
  match key with
  | c_leaf_count => leaf_count self
  | c_leaf_color_r => leaf_color_r self
  | c_leaf_color_g => leaf_color_g self
  | c_leaf_color_b => leaf_color_b self
  end.

(** The attribute name of a column. *)
Definition name (key : column) : string :=
  match key with
  | c_height_cm => "height_cm"
  | c_stem_diameter_mm => "stem_diameter_mm"
  | c_leaf_chlorophyll_index => "leaf_chlorophyll_index"
  | c_water_stress_level => "water_stress_level"
  | c_heat_stress_score => "heat_stress_score"
  | c_drought_stress_score => "drought_stress_score"
  | c_growth_rate_cm_per_week => "growth_rate_cm_per_week"
  | c_health_score => "health_score"
  end.

Definition int_name (key : int_column) : string :=
  match key with
  | c_leaf_count => "leaf_count"
  | c_leaf_color_r => "leaf_color_r"
  | c_leaf_color_g => "leaf_color_g"
  | c_leaf_color_b => "leaf_color_b"
  end.

Definition store (key : column) (v : Py.float) (self : PlantReading) : PlantReading :=
  let 'Build_PlantReading i ts loc pt pid h lc sd cr cg cb chl dis pest ws nd hs ds gr sc
       sid iv no := self in
  match key with
  | c_height_cm =>
      Build_PlantReading i ts loc pt pid v lc sd cr cg cb chl dis pest ws nd hs ds gr sc sid iv no
  | c_stem_diameter_mm =>
      Build_PlantReading i ts loc pt pid h lc v cr cg cb chl dis pest ws nd hs ds gr sc sid iv no
  | c_leaf_chlorophyll_index =>
      Build_PlantReading i ts loc pt pid h lc sd cr cg cb v dis pest ws nd hs ds gr sc sid iv no
  | c_water_stress_level =>
      Build_PlantReading i ts loc pt pid h lc sd cr cg cb chl dis pest v nd hs ds gr sc sid iv no
  | c_heat_stress_score =>
      Build_PlantReading i ts loc pt pid h lc sd cr cg cb chl dis pest ws nd v ds gr sc sid iv no
  | c_drought_stress_score =>
      Build_PlantReading i ts loc pt pid h lc sd cr cg cb chl dis pest ws nd hs v gr sc sid iv no
  | c_growth_rate_cm_per_week =>
      Build_PlantReading i ts loc pt pid h lc sd cr cg cb chl dis pest ws nd hs ds v sc sid iv no
  | c_health_score =>
      Build_PlantReading i ts loc pt pid h lc sd cr cg cb chl dis pest ws nd hs ds gr v sid iv no
  end.

Definition store_int (key : int_column) (v : Z) (self : PlantReading) : PlantReading :=
  let 'Build_PlantReading i ts loc pt pid h lc sd cr cg cb chl dis pest ws nd hs ds gr sc
       sid iv no := self in
  match key with
  | c_leaf_count =>
      Build_PlantReading i ts loc pt pid h v sd cr cg cb chl dis pest ws nd hs ds gr sc sid iv no
  | c_leaf_color_r =>
      Build_PlantReading i ts loc pt pid h lc sd v cg cb chl dis pest ws nd hs ds gr sc sid iv no
  | c_leaf_color_g =>
      Build_PlantReading i ts loc pt pid h lc sd cr v cb chl dis pest ws nd hs ds gr sc sid iv no
  | c_leaf_color_b =>
      Build_PlantReading i ts loc pt pid h lc sd cr cg v chl dis pest ws nd hs ds gr sc sid iv no
  end.

(** The value a [Float] column takes when a row is stored without
    one: the [default=] of its [Column]. *)
Definition column_default (key : column) : option Py.float :=
  match key with
  | c_height_cm => None
  | c_stem_diameter_mm => Some (#0)%float
  | c_leaf_chlorophyll_index => Some (#0)%float
  | c_water_stress_level => Some (#0)%float
  | c_heat_stress_score => Some (#0)%float
  | c_drought_stress_score => Some (#0)%float
  | c_growth_rate_cm_per_week => Some (#0)%float
  | c_health_score => Some (#100)%float
  end.

(** *** Validators *)

Definition validate_height (key : column) (height : Py.float) : method Py.float :=
  if (height <? #0)%float || (height >? #1000)%float
  then raise (Py.ValueError "Height must be between 0 and 1000 cm")
  else ret height.

Definition validate_rgb (key : int_column) (value : Z) : method Z :=
  if (value <? 0) || (value >? 255)
  then raise (Py.ValueError "RGB values must be between 0 and 255")
  else ret value.

Definition validate_stress_scores (key : column) (score : Py.float) : method Py.float :=
  if (score <? #0)%float || (score >? #10)%float
  then raise (Py.ValueError "Stress scores must be between 0 and 10")
  else ret score.

Definition validate_health_score (key : column) (score : Py.float) : method Py.float :=
  if (score <? #0)%float || (score >? #100)%float
  then raise (Py.ValueError "Health score must be between 0 and 100")
  else ret score.

Definition validates (key : column) : option (column -> Py.float -> method Py.float) :=
  match key with
  | c_height_cm => Some validate_height
  | c_water_stress_level | c_heat_stress_score | c_drought_stress_score =>
      Some validate_stress_scores
  | c_health_score => Some validate_health_score
  | _ => None
  end.

Definition validates_int (key : int_column) : option (int_column -> Z -> method Z) :=
  match key with
  | c_leaf_color_r | c_leaf_color_g | c_leaf_color_b => Some validate_rgb
  | _ => None
  end.

(** [self.key = value], as for soil readings. *)
Definition setattr (key : column) (value : Py.float) : method unit :=
  v <- match validates key with
       | Some validator => validator key value
       | None => ret value
       end ;;
  self <- get ;;
  put (store key v self).

Definition setattr_int (key : int_column) (value : Z) : method unit :=
  v <- match validates_int key with
       | Some validator => validator key value
       | None => ret value
       end ;;
  self <- get ;;
  put (store_int key v self).

(** *** Methods *)

Section ToDict.

(** [datetime.isoformat], taken as given.  A stored row has a
    timestamp ([nullable=False]) and a [datetime] is always true, so
    [to_dict] takes the [isoformat()] branch of its conditional. *)
Variable isoformat : Z -> string.

Definition to_dict : method Py.dict :=
  self <- get ;;
  ret [("id", Py.optional_int (id self));
       ("timestamp", Py.VStr (isoformat (timestamp self)));
       ("location", Py.VStr (location self));
       ("plant_type", Py.VStr (plant_type self));
       ("plant_id", Py.VStr (plant_id self));
       ("height_cm", Py.VFloat (height_cm self));
       ("leaf_count", Py.VInt (leaf_count self));
       ("stem_diameter_mm", Py.VFloat (stem_diameter_mm self));
       ("leaf_color_rgb",
        Py.VList [Py.VInt (leaf_color_r self); Py.VInt (leaf_color_g self);
                  Py.VInt (leaf_color_b self)]);
       ("leaf_chlorophyll_index", Py.VFloat (leaf_chlorophyll_index self));
       ("disease_symptoms", Py.VStr (disease_symptoms self));
       ("pest_presence", Py.VBool (pest_presence self));
       ("water_stress_level", Py.VFloat (water_stress_level self));
       ("nutrient_deficiency_signs", Py.VStr (nutrient_deficiency_signs self));
       ("heat_stress_score", Py.VFloat (heat_stress_score self));
       ("drought_stress_score", Py.VFloat (drought_stress_score self));
       ("growth_rate_cm_per_week", Py.VFloat (growth_rate_cm_per_week self));
       ("health_score", Py.VFloat (health_score self));
       ("sensor_id", Py.VStr (sensor_id self));
       ("is_valid", Py.VBool (is_valid self));
       ("notes", Py.VStr (notes self))].

End ToDict.

Definition get_leaf_color_hex : method string :=
  self <- get ;;
  ret ("#" ++ Py.format_02x (leaf_color_r self) ++ Py.format_02x (leaf_color_g self)
           ++ Py.format_02x (leaf_color_b self)).

Definition calculate_health_score : method Py.float :=
  self <- get ;;
  let base_score := (#100)%float in
  (* Deduct points for stress factors *)
  let base_score := (base_score - water_stress_level self * #5)%float in
  let base_score := (base_score - heat_stress_score self * #3)%float in
  let base_score := (base_score - drought_stress_score self * #3)%float in
  (* Deduct points for diseases and pests *)
  let base_score :=
    if Py.truthy (disease_symptoms self) then (base_score - #20)%float else base_score in
  let base_score :=
    if pest_presence self then (base_score - #15)%float else base_score in
  (* Deduct points for nutrient deficiencies *)
  let base_score :=
    if Py.truthy (nutrient_deficiency_signs self) then (base_score - #15)%float
    else base_score in
  (* Chlorophyll index bonus/penalty *)
  let base_score :=
    if (leaf_chlorophyll_index self >? #40)%float then (base_score + #5)%float
    else if (leaf_chlorophyll_index self <? #20)%float then (base_score - #10)%float
    else base_score in
  (* Growth rate consideration *)
  let base_score :=
    if (growth_rate_cm_per_week self <? Py.dyadic 1 (-1))%float then (base_score - #10)%float
    else if (growth_rate_cm_per_week self >? #2)%float then (base_score + #5)%float
    else base_score in
  ret (Py.max (#0)%float (Py.min (#100)%float base_score)).

Definition is_healthy (threshold : Py.float) : method bool :=
  self <- get ;;
  ret (health_score self >=? threshold)%float.

(** The default of the keyword argument of [is_healthy]. *)
Definition is_healthy_default_threshold : Py.float := (#70)%float.

Definition get_stress_indicators : method (list string) :=
  self <- get ;;
  let indicators : list string := [] in
  let indicators :=
    if (water_stress_level self >? #5)%float
    then (indicators ++ ["High water stress"])%list else indicators in
  let indicators :=
    if (heat_stress_score self >? #5)%float
    then (indicators ++ ["Heat stress"])%list else indicators in
  let indicators :=
    if (drought_stress_score self >? #5)%float
    then (indicators ++ ["Drought stress"])%list else indicators in
  let indicators :=
    if Py.truthy (disease_symptoms self)
    then (indicators ++ ["Disease symptoms present"])%list else indicators in
  let indicators :=
    if pest_presence self
    then (indicators ++ ["Pest presence detected"])%list else indicators in
  let indicators :=
    if Py.truthy (nutrient_deficiency_signs self)
    then (indicators ++ ["Nutrient deficiency signs"])%list else indicators in
  let indicators :=
    if (leaf_chlorophyll_index self <? #20)%float
    then (indicators ++ ["Low chlorophyll levels"])%list else indicators in
  ret indicators.

Definition get_growth_status : method string :=
  self <- get ;;
  if (growth_rate_cm_per_week self >=? #2)%float then ret "Excellent growth"
  else if (growth_rate_cm_per_week self >=? #1)%float then ret "Good growth"
  else if (growth_rate_cm_per_week self >=? Py.dyadic 1 (-1))%float then ret "Moderate growth"
  else ret "Slow growth".

End PlantData.

(** ** A [PlantReading] before it is a row

    The record [PlantData.PlantReading] is a row: every column holds a
    value of its declared type.  A Python instance is looser.  The
    constructor assigns only the attributes it is given, and an
    attribute that was never assigned reads as [None]: the [default=]
    of a [Column] is filled in when the row is inserted, not before.
    And neither [Column(Integer)] nor a validator tests the type of
    what is assigned.  This module gives assignment and the methods
    [get_leaf_color_hex] and [is_healthy] on such an instance; on an
    instance that holds what a row holds they do what the methods of
    [PlantData] do. *)

Module Instance.

(** The attributes by name; [None] where nothing was assigned. *)
Definition PlantReading : Type := string -> Py.value.

Abbreviation method := (Py.method PlantReading).

(** [PlantReading()] *)
Definition blank : PlantReading := fun _ => Py.VNone.

Definition store (key : string) (value : Py.value) (self : PlantReading) : PlantReading :=
  fun attribute => if String.eqb attribute key then value else self attribute.

(** [value < lo or value > hi]; the second test runs when the first is
    false. *)
Definition below_or_above (value : Py.value) (lo hi : Z) : method bool :=
  below <- Py.lift (Py.lt_int value lo) ;;
  if below : bool then ret true else Py.lift (Py.gt_int value hi).

Definition validate_height (key : string) (height : Py.value) : method Py.value :=
  out <- below_or_above height 0 1000 ;;
  if out : bool
  then raise (Py.ValueError "Height must be between 0 and 1000 cm")
  else ret height.

Definition validate_rgb (key : string) (value : Py.value) : method Py.value :=
  out <- below_or_above value 0 255 ;;
  if out : bool
  then raise (Py.ValueError "RGB values must be between 0 and 255")
  else ret value.

Definition validate_stress_scores (key : string) (score : Py.value) : method Py.value :=
  out <- below_or_above score 0 10 ;;
  if out : bool
  then raise (Py.ValueError "Stress scores must be between 0 and 10")
  else ret score.

Definition validate_health_score (key : string) (score : Py.value) : method Py.value :=
  out <- below_or_above score 0 100 ;;
  if out : bool
  then raise (Py.ValueError "Health score must be between 0 and 100")
  else ret score.

(** The validator that [@validates] registers for an attribute name. *)
Definition validates (key : string) : option (string -> Py.value -> method Py.value) :=
  if String.eqb key "height_cm" then Some validate_height
  else if String.eqb key "leaf_color_r" || String.eqb key "leaf_color_g"
          || String.eqb key "leaf_color_b" then Some validate_rgb
  else if String.eqb key "water_stress_level" || String.eqb key "heat_stress_score"
          || String.eqb key "drought_stress_score" then Some validate_stress_scores
  else if String.eqb key "health_score" then Some validate_health_score
  else None.

(** [self.key = value] *)
Definition setattr (key : string) (value : Py.value) : method unit :=
  v <- match validates key with
       | Some validator => validator key value
       | None => ret value
       end ;;
  self <- get ;;
  put (store key v self).

Definition get_leaf_color_hex : method string :=
  self <- get ;;
  r <- Py.lift (Py.format_value_02x (self "leaf_color_r")) ;;
  g <- Py.lift (Py.format_value_02x (self "leaf_color_g")) ;;
  b <- Py.lift (Py.format_value_02x (self "leaf_color_b")) ;;
  ret ("#" ++ r ++ g ++ b).

Definition is_healthy (threshold : Py.float) : method bool :=
  self <- get ;;
  Py.lift (Py.ge_float (self "health_score") threshold).

End Instance.

(** ** Vocabulary of the specification *)

(** The reading validator's table of fixed bounds, and the penalty bands
  of the soil score, as the specification lists them.  The theorems
  below relate them to the validators and methods above. *)

Module Bounds.

(** Closed range [lo, hi] of a bounded field. *)
Definition soil (key : SoilData.column) : option (Z * Z) :=
  match key with
  | SoilData.c_ph_level => Some (0, 14)
  | SoilData.c_moisture_percent => Some (0, 100)
  | SoilData.c_temperature_celsius => Some (-50, 80)
  | _ => None
  end.

Definition plant (key : PlantData.column) : option (Z * Z) :=
  match key with
  | PlantData.c_height_cm => Some (0, 1000)
  | PlantData.c_water_stress_level
  | PlantData.c_heat_stress_score
  | PlantData.c_drought_stress_score => Some (0, 10)
  | PlantData.c_health_score => Some (0, 100)
  | _ => None
  end.

Definition plant_int (key : PlantData.int_column) : option (Z * Z) :=
  match key with
  | PlantData.c_leaf_color_r
  | PlantData.c_leaf_color_g
  | PlantData.c_leaf_color_b => Some (0, 255)
  | _ => None
  end.

(** The outcome of an assignment that raised. *)
Definition rejected {Self : Type} (outcome : Py.exn + unit * Self) : Prop :=
  exists e, outcome = inl e.

(** A value strictly outside the closed range [lo, hi]. *)
Definition outside (lo hi : Z) (v : Py.float) : Prop :=
  (v <? #lo)%float = true \/ (v >? #hi)%float = true.

Definition inside (lo hi : Z) (v : Py.float) : Prop :=
  (v >=? #lo)%float = true /\ (v <=? #hi)%float = true.

Definition outside_int (lo hi n : Z) : Prop := n < lo \/ hi < n.

Definition decimal (n : Z) : string := NilZero.string_of_int (Z.to_int n).

(** The shape shared by the messages of all validators. *)
Definition message (subject : string) (lo hi : Z) (unit_suffix : string) : string :=
  subject ++ " must be between " ++ decimal lo ++ " and " ++ decimal hi ++ unit_suffix.

(** The quantity that the message of a column's validator names, and
    the unit it puts after the range. *)
Definition soil_subject (key : SoilData.column) : string * string :=
  match key with
  | SoilData.c_ph_level => ("pH", "")
  | SoilData.c_moisture_percent => ("Moisture percentage", "")
  | SoilData.c_temperature_celsius => ("Temperature", " Celsius")
  | _ => ("", "")
  end.

Definition plant_subject (key : PlantData.column) : string * string :=
  match key with
  | PlantData.c_height_cm => ("Height", " cm")
  | PlantData.c_water_stress_level
  | PlantData.c_heat_stress_score
  | PlantData.c_drought_stress_score => ("Stress scores", "")
  | PlantData.c_health_score => ("Health score", "")
  | _ => ("", "")
  end.

Definition plant_int_subject (key : PlantData.int_column) : string * string :=
  match key with
  | PlantData.c_leaf_color_r
  | PlantData.c_leaf_color_g
  | PlantData.c_leaf_color_b => ("RGB values", "")
  | _ => ("", "")
  end.

(** The error of a rejected assignment, for the range and the subject
    of the column. *)
Definition error (range : Z * Z) (subject : string * string) : Py.exn :=
  Py.ValueError (message (fst subject) (fst range) (snd range) (snd subject)).

(** Whether [part] occurs somewhere in [s]. *)
Definition occurs (part s : string) : bool :=
  match String.index 0 part s with
  | Some _ => true
  | None => false
  end.

(** A plant reading all of whose bounded fields lie in their ranges. *)
Definition float_in_range (b : option (Z * Z)) (x : Py.float) : bool :=
  match b with
  | Some (lo, hi) => (x >=? #lo)%float && (x <=? #hi)%float
  | None => true
  end.

Definition int_in_range (b : option (Z * Z)) (n : Z) : bool :=
  match b with
  | Some (lo, hi) => (lo <=? n) && (n <=? hi)
  | None => true
  end.

Definition plant_columns : list PlantData.column :=
  [PlantData.c_height_cm; PlantData.c_stem_diameter_mm; PlantData.c_leaf_chlorophyll_index;
   PlantData.c_water_stress_level; PlantData.c_heat_stress_score;
   PlantData.c_drought_stress_score; PlantData.c_growth_rate_cm_per_week;
   PlantData.c_health_score].

Definition plant_int_columns : list PlantData.int_column :=
  [PlantData.c_leaf_count; PlantData.c_leaf_color_r; PlantData.c_leaf_color_g;
   PlantData.c_leaf_color_b].

Definition plant_valid (self : PlantData.PlantReading) : bool :=
  forallb (fun key => float_in_range (plant key) (PlantData.read key self)) plant_columns
  && forallb (fun key => int_in_range (plant_int key) (PlantData.read_int key self))
       plant_int_columns.

Definition soil_columns : list SoilData.column :=
  [SoilData.c_nitrogen; SoilData.c_phosphorus; SoilData.c_potassium; SoilData.c_ph_level;
   SoilData.c_moisture_percent; SoilData.c_temperature_celsius;
   SoilData.c_electrical_conductivity; SoilData.c_organic_matter_percent;
   SoilData.c_salinity_level].

(** A soil reading all of whose bounded fields lie in their ranges. *)
Definition soil_valid (self : SoilData.SoilReading) : bool :=
  forallb (fun key => float_in_range (soil key) (SoilData.read key self)) soil_columns.

End Bounds.

(** Reading a colour back from [#rrggbb]. *)

Module Colour.

Definition parse_channel (digits : string) : option Z :=
  option_map Z.of_hex_int (HexadecimalString.NilZero.int_of_string digits).

Definition parse (s : string) : option (Z * Z * Z) :=
  match s with
  | String "#"
      (String r1 (String r2 (String g1 (String g2 (String b1 (String b2 EmptyString)))))) =>
      match parse_channel (String r1 (String r2 EmptyString)),
            parse_channel (String g1 (String g2 EmptyString)),
            parse_channel (String b1 (String b2 EmptyString)) with
      | Some r, Some g, Some b => Some (r, g, b)
      | _, _, _ => None
      end
  | _ => None
  end.

End Colour.

Module Bands.

(** The threshold bands whose violation the soil score penalises. *)
Inductive band : Type :=
| b_ph | b_moisture | b_temperature
| b_nitrogen | b_phosphorus | b_potassium | b_salinity.

Definition all : list band :=
  [b_ph; b_moisture; b_temperature; b_nitrogen; b_phosphorus; b_potassium; b_salinity].

Definition penalty (b : band) : Z :=
  match b with
  | b_ph => 20
  | b_moisture => 15
  | b_temperature => 10
  | b_nitrogen | b_phosphorus | b_potassium => 15
  | b_salinity => 10
  end.

Definition violates (config : Settings.Config) (self : SoilData.SoilReading) (b : band) : bool :=
  match b with
  | b_ph =>
      (SoilData.ph_level self <? Settings.SOIL_PH_MIN config)%float
      || (SoilData.ph_level self >? Settings.SOIL_PH_MAX config)%float
  | b_moisture =>
      (SoilData.moisture_percent self <? Settings.SOIL_MOISTURE_MIN config)%float
      || (SoilData.moisture_percent self >? Settings.SOIL_MOISTURE_MAX config)%float
  | b_temperature =>
      (SoilData.temperature_celsius self <? Settings.SOIL_TEMP_MIN config)%float
      || (SoilData.temperature_celsius self >? Settings.SOIL_TEMP_MAX config)%float
  | b_nitrogen => (SoilData.nitrogen self <? Settings.NITROGEN_MIN config)%float
  | b_phosphorus => (SoilData.phosphorus self <? Settings.PHOSPHORUS_MIN config)%float
  | b_potassium => (SoilData.potassium self <? Settings.POTASSIUM_MIN config)%float
  | b_salinity => (SoilData.salinity_level self >? #2)%float
  end.

Definition total_penalty (config : Settings.Config) (self : SoilData.SoilReading) : Z :=
  fold_right (fun b acc => (if violates config self b then penalty b else 0) + acc) 0 all.

End Bands.

(** ** Exact values *)

(** The real number a float stands for; 0 for infinities and NaN. *)

Module Points.

(** The points [calculate_health_score] adds or deducts apart from the
    stress levels, as integers. *)
Definition symptoms (disease pest deficiency : bool) : Z :=
  (if disease then 20 else 0) + (if pest then 15 else 0) + (if deficiency then 15 else 0).

Definition chlorophyll (above_40 below_20 : bool) : Z :=
  if above_40 then 5 else if below_20 then -10 else 0.

Definition growth (below_half above_2 : bool) : Z :=
  if below_half then -10 else if above_2 then 5 else 0.

(** The health score in integer arithmetic, for integer stress levels
    [w], [h] and [d] and the flags and index bands of the reading. *)
Definition score (w h d : Z) (r : PlantData.PlantReading) : Z :=
  Z.max 0
    (Z.min 100
       (100 - w * 5 - h * 3 - d * 3
        - symptoms (Py.truthy (PlantData.disease_symptoms r)) (PlantData.pest_presence r)
            (Py.truthy (PlantData.nutrient_deficiency_signs r))
        + chlorophyll (PlantData.leaf_chlorophyll_index r >? #40)%float
            (PlantData.leaf_chlorophyll_index r <? #20)%float
        + growth (PlantData.growth_rate_cm_per_week r <? Py.dyadic 1 (-1))%float
            (PlantData.growth_rate_cm_per_week r >? #2)%float)).

(** The integers from [lo] to [lo + n - 1]. *)
Definition range (lo : Z) (n : nat) : list Z := map (fun i => lo + Z.of_nat i) (seq 0 n).

(** Structural equality of doubles. *)
Definition same (x y : Py.float) : bool :=
  match x, y with
  | S754_zero s, S754_zero s' => Bool.eqb s s'
  | S754_infinity s, S754_infinity s' => Bool.eqb s s'
  | S754_nan, S754_nan => true
  | S754_finite s m e, S754_finite s' m' e' => Bool.eqb s s' && Pos.eqb m m' && Z.eqb e e'
  | _, _ => false
  end.

End Points.

Module Exact.

Definition bpow (e : Z) : R := powerRZ 2 e.

Definition F2R (m e : Z) : R := (IZR m * bpow e)%R.

Definition value (x : Py.float) : R :=
  match x with
  | S754_finite s m e => F2R (cond_Zopp s (Zpos m)) e
  | _ => 0%R
  end.

(** Relative and absolute rounding error bounds of binary64. *)
Definition u : R := bpow (-52).
Definition eta : R := bpow (-1074).

(** Finite and not negative: [+0.0] or a positive canonical double. *)
Definition nonneg (x : Py.float) : bool :=
  match x with
  | S754_zero false => true
  | S754_finite false m e => valid_binary Py.prec Py.emax x
  | _ => false
  end.

(** Finite, sign bit clear, exponent not below the least one. *)
Definition nonneg_finite (x : Py.float) : Prop :=
  match x with
  | S754_zero false => True
  | S754_finite false _ e => -1074 <= e
  | _ => False
  end.

End Exact.

(** ** Sample readings *)

Module Samples.

(** nitrogen=10, phosphorus=10, potassium=10, ph_level=7.0,
    moisture_percent=50, temperature_celsius=20; the other columns at
    their defaults. *)
Definition soil : SoilData.SoilReading := {|
  SoilData.id := None;
  SoilData.timestamp := 0;
  SoilData.location := "default";
  SoilData.nitrogen := (#10)%float;
  SoilData.phosphorus := (#10)%float;
  SoilData.potassium := (#10)%float;
  SoilData.ph_level := (#7)%float;
  SoilData.moisture_percent := (#50)%float;
  SoilData.temperature_celsius := (#20)%float;
  SoilData.electrical_conductivity := (#1)%float;
  SoilData.organic_matter_percent := (#0)%float;
  SoilData.salinity_level := (#0)%float;
  SoilData.sensor_id := "soil-1";
  SoilData.is_valid := true;
  SoilData.notes := ""
|}.

(** The same reading after salinity rose to 3.0 and the pH to 9.0. *)
Definition salty_soil : SoilData.SoilReading :=
  SoilData.store SoilData.c_ph_level (#9)%float
    (SoilData.store SoilData.c_salinity_level (#3)%float soil).

(** A soil reading without any nutrient. *)
Definition barren_soil : SoilData.SoilReading :=
  SoilData.store SoilData.c_nitrogen (#0)%float
    (SoilData.store SoilData.c_phosphorus (#0)%float
       (SoilData.store SoilData.c_potassium (#0)%float soil)).

(** A soil reading whose nutrient values are each 2^1023. *)
Definition huge_soil : SoilData.SoilReading :=
  SoilData.store SoilData.c_nitrogen (Py.dyadic 1 1023)
    (SoilData.store SoilData.c_phosphorus (Py.dyadic 1 1023)
       (SoilData.store SoilData.c_potassium (Py.dyadic 1 1023) soil)).

(** A plant under maximal stress whose stored [health_score] is still
    the column default. *)
Definition stressed_plant : PlantData.PlantReading := {|
  PlantData.id := None;
  PlantData.timestamp := 0;
  PlantData.location := "default";
  PlantData.plant_type := "tomato";
  PlantData.plant_id := "plant-1";
  PlantData.height_cm := (#50)%float;
  PlantData.leaf_count := 0;
  PlantData.stem_diameter_mm := (#0)%float;
  PlantData.leaf_color_r := 0;
  PlantData.leaf_color_g := 0;
  PlantData.leaf_color_b := 0;
  PlantData.leaf_chlorophyll_index := (#10)%float;
  PlantData.disease_symptoms := "blight";
  PlantData.pest_presence := true;
  PlantData.water_stress_level := (#10)%float;
  PlantData.nutrient_deficiency_signs := "chlorosis";
  PlantData.heat_stress_score := (#10)%float;
  PlantData.drought_stress_score := (#10)%float;
  PlantData.growth_rate_cm_per_week := (#0)%float;
  PlantData.health_score := (#100)%float;
  PlantData.sensor_id := "plant-sensor-1";
  PlantData.is_valid := true;
  PlantData.notes := ""
|}.

(** A soil reading whose sensors all delivered NaN. *)
Definition nan_soil : SoilData.SoilReading :=
  fold_right (fun key => SoilData.store key S754_nan) soil
    [SoilData.c_nitrogen; SoilData.c_phosphorus; SoilData.c_potassium; SoilData.c_ph_level;
     SoilData.c_moisture_percent; SoilData.c_temperature_celsius; SoilData.c_salinity_level].

(** The stressed plant with its water stress level replaced by NaN. *)
Definition nan_plant : PlantData.PlantReading :=
  PlantData.store PlantData.c_water_stress_level S754_nan stressed_plant.

(** The stressed plant with leaf colour (255, 0, 128). *)
Definition magenta_plant : PlantData.PlantReading :=
  PlantData.store_int PlantData.c_leaf_color_r 255
    (PlantData.store_int PlantData.c_leaf_color_b 128 stressed_plant).

(** The stressed plant, growing at exactly 2.0 cm per week. *)
Definition growing_plant : PlantData.PlantReading :=
  PlantData.store PlantData.c_growth_rate_cm_per_week (#2)%float stressed_plant.

(** The sample soil with phosphorus and potassium at 0.0. *)
Definition nitrogen_only_soil : SoilData.SoilReading :=
  SoilData.store SoilData.c_phosphorus (#0)%float
    (SoilData.store SoilData.c_potassium (#0)%float soil).

(** [PlantReading()] with a pest found and water stress 10.0 assigned,
    and no [health_score]. *)
Definition new_plant : Instance.PlantReading :=
  Instance.store "pest_presence" (Py.VBool true)
    (Instance.store "water_stress_level" (Py.VFloat (#10)%float) Instance.blank).

End Samples.

(** * Properties *)

(** Runs the monadic plumbing of a method body. *)
Ltac run_method :=
  cbn [runStateT bind ret get Monad_stateT MonadState_stateT Monad_either].

(** ** The order on floats *)

Lemma compare_cont_opp (p q : positive) :
  Pos.compare_cont Eq q p = CompOpp (Pos.compare_cont Eq p q).
Proof. rewrite (Pos.compare_cont_antisym p q Eq). reflexivity. Qed.

Lemma SFcompare_antisym (x y : Py.float) :
  SFcompare y x = option_map CompOpp (SFcompare x y).
Proof.
  destruct x as [sx|sx| |sx mx ex], y as [sy|sy| |sy my ey]; simpl;
    try reflexivity; try (destruct sx; reflexivity); try (destruct sy; reflexivity);
    try (destruct sx, sy; reflexivity).
  f_equal. rewrite (Z.compare_antisym ex ey), (compare_cont_opp mx my).
  destruct sx, sy, (ex ?= ey), (Pos.compare_cont Eq mx my); reflexivity.
Qed.

Lemma lt_le (x y : Py.float) : Py.lt x y = true -> Py.le x y = true.
Proof.
  unfold Py.lt, Py.le, SFltb, SFleb.
  destruct (SFcompare x y) as [[]|]; congruence.
Qed.

Lemma lt_not_ge (x y : Py.float) : Py.lt x y = true -> Py.ge x y = false.
Proof.
  unfold Py.lt, Py.ge, SFltb, SFleb. rewrite (SFcompare_antisym x y).
  destruct (SFcompare x y) as [[]|]; simpl; congruence.
Qed.

(** Away from NaN the order is total: [x < y] fails exactly when
    [x >= y]. *)
Lemma lt_negb_ge (x y : Py.float) :
  Py.is_nan x = false -> Py.is_nan y = false -> Py.lt x y = negb (Py.ge x y).
Proof.
  intros Hx Hy. unfold Py.lt, Py.ge, SFltb, SFleb. rewrite (SFcompare_antisym x y).
  destruct x, y; try discriminate; simpl;
    repeat match goal with |- context [if ?b then _ else _] => destruct b end;
    try reflexivity;
    repeat match goal with |- context [match ?c with Eq => _ | Lt => _ | Gt => _ end] =>
      destruct c; simpl end; reflexivity.
Qed.

(** ** Soil example against the default thresholds *)

(** C1, as stated, fails: on the sample reading the deficiency list is
    not [['nitrogen']] and the score is not 85, because potassium 10 is
    also below [POTASSIUM_MIN = 15.0]. *)
Lemma soil_example_not_85 :
  Py.call (SoilData.is_nutrient_deficient Settings.defaults) Samples.soil
    <> inr (["nitrogen"], Samples.soil)
  /\ Py.call (SoilData.get_soil_quality_score Settings.defaults) Samples.soil
    <> inr (85, Samples.soil).
Proof. split; vm_compute; discriminate. Qed.

(** C1 (amended): for every reading with nitrogen=10, phosphorus=10,
    potassium=10, ph_level=7.0, moisture_percent=50,
    temperature_celsius=20 and salinity_level at its default 0.0, under
    the default thresholds [is_nutrient_deficient] returns
    [['nitrogen', 'potassium']] and [get_soil_quality_score] returns 70. *)
Theorem soil_example_score (r : SoilData.SoilReading) :
  SoilData.nitrogen r = (#10)%float ->
  SoilData.phosphorus r = (#10)%float ->
  SoilData.potassium r = (#10)%float ->
  SoilData.ph_level r = (#7)%float ->
  SoilData.moisture_percent r = (#50)%float ->
  SoilData.temperature_celsius r = (#20)%float ->
  SoilData.salinity_level r = (#0)%float ->
  Py.call (SoilData.is_nutrient_deficient Settings.defaults) r
    = inr (["nitrogen"; "potassium"], r)
  /\ Py.call (SoilData.get_soil_quality_score Settings.defaults) r = inr (70, r).
Proof.
  intros Hn Hp Hk Hph Hm Ht Hs.
  unfold Py.call, SoilData.is_nutrient_deficient, SoilData.get_soil_quality_score.
  run_method.
  rewrite Hn, Hp, Hk, Hph, Hm, Ht, Hs. split; reflexivity.
Qed.

Lemma soil_example_score_witness :
  Py.call (SoilData.is_nutrient_deficient Settings.defaults) Samples.soil
    = inr (["nitrogen"; "potassium"], Samples.soil)
  /\ Py.call (SoilData.get_soil_quality_score Settings.defaults) Samples.soil
    = inr (70, Samples.soil).
Proof. apply (soil_example_score Samples.soil); reflexivity. Defined.

(** ** Assignment and validation *)

Lemma soil_store_read (key : SoilData.column) (v : Py.float) (r : SoilData.SoilReading) :
  SoilData.read key (SoilData.store key v r) = v.
Proof. destruct r, key; reflexivity. Qed.

Lemma plant_store_read (key : PlantData.column) (v : Py.float) (r : PlantData.PlantReading) :
  PlantData.read key (PlantData.store key v r) = v.
Proof. destruct r, key; reflexivity. Qed.

Lemma plant_store_int_read (key : PlantData.int_column) (v : Z) (r : PlantData.PlantReading) :
  PlantData.read_int key (PlantData.store_int key v r) = v.
Proof. destruct r, key; reflexivity. Qed.

(** C2, as stated, fails: assigning -1 to [nitrogen] is accepted and the
    stored reading has a negative nitrogen value. *)
Lemma negative_nitrogen_stored :
  exists r',
    Py.call (SoilData.setattr SoilData.c_nitrogen (#(-1))%float) Samples.soil = inr (tt, r')
    /\ (SoilData.nitrogen r' <? #0)%float = true.
Proof. eexists. split; reflexivity. Qed.

(** C2 (amended): no validator is registered for [nitrogen],
    [phosphorus] or [potassium]; assigning any value to one of them, a
    negative one included, succeeds and stores the value unchanged.  Of
    the [Float] columns of a soil reading exactly [ph_level],
    [moisture_percent] and [temperature_celsius] have a validator, and
    each of the three rejects some value; every other [Float] column
    stores whatever it is assigned. *)
Theorem nutrients_not_validated :
  let validated :=
    [SoilData.c_ph_level; SoilData.c_moisture_percent; SoilData.c_temperature_celsius] in
  (forall key v r,
      In key [SoilData.c_nitrogen; SoilData.c_phosphorus; SoilData.c_potassium] ->
      SoilData.validates key = None
      /\ Py.call (SoilData.setattr key v) r = inr (tt, SoilData.store key v r)
      /\ SoilData.read key (SoilData.store key v r) = v)
  /\ (forall key, SoilData.validates key <> None <-> In key validated)
  /\ (forall key, In key validated ->
      exists v, forall r, exists e, Py.call (SoilData.setattr key v) r = inl e)
  /\ (forall key v r,
      ~ In key validated ->
      Py.call (SoilData.setattr key v) r = inr (tt, SoilData.store key v r)
      /\ SoilData.read key (SoilData.store key v r) = v).
Proof.
  intros validated. unfold validated. split; [|split; [|split]].
  - intros key v r Hkey. split; [|split].
    + simpl in Hkey. destruct Hkey as [<-|[<-|[<-|[]]]]; reflexivity.
    + simpl in Hkey. destruct Hkey as [<-|[<-|[<-|[]]]]; reflexivity.
    + apply soil_store_read.
  - intros key. split.
    + intros H. destruct key; simpl; auto; exfalso; apply H; reflexivity.
    + intros H. simpl in H. destruct H as [<-|[<-|[<-|[]]]]; discriminate.
  - intros key H. exists (#1000)%float. intros r.
    simpl in H. destruct H as [<-|[<-|[<-|[]]]]; eexists; reflexivity.
  - intros key v r H. split; [|apply soil_store_read].
    destruct key; try reflexivity; exfalso; apply H; simpl; auto.
Qed.

Lemma nutrients_not_validated_witness :
  SoilData.validates SoilData.c_nitrogen = None
  /\ Py.call (SoilData.setattr SoilData.c_nitrogen (#(-1))%float) Samples.soil
     = inr (tt, SoilData.store SoilData.c_nitrogen (#(-1))%float Samples.soil)
  /\ SoilData.read SoilData.c_nitrogen
       (SoilData.store SoilData.c_nitrogen (#(-1))%float Samples.soil) = (#(-1))%float.
Proof.
  apply (proj1 nutrients_not_validated SoilData.c_nitrogen (#(-1))%float Samples.soil).
  simpl. left. reflexivity.
Defined.

(** What assigning a bounded column does, validator by validator. *)
Lemma soil_setattr_bounded (key : SoilData.column) (lo hi : Z) :
  Bounds.soil key = Some (lo, hi) ->
  exists subject unit_suffix, forall v r,
    Py.call (SoilData.setattr key v) r =
      if (v <? #lo)%float || (v >? #hi)%float
      then inl (Py.ValueError (Bounds.message subject lo hi unit_suffix))
      else inr (tt, SoilData.store key v r).
Proof.
  destruct key; simpl; intros H; inversion H; subst;
    [ exists "pH", "" | exists "Moisture percentage", "" | exists "Temperature", " Celsius" ];
    intros v r;
    unfold Py.call, SoilData.setattr, SoilData.validates, SoilData.validate_ph,
      SoilData.validate_moisture, SoilData.validate_temperature;
    match goal with |- context [if ?c then raise _ else _] => destruct c end; reflexivity.
Qed.

Lemma plant_setattr_bounded (key : PlantData.column) (lo hi : Z) :
  Bounds.plant key = Some (lo, hi) ->
  exists subject unit_suffix, forall v r,
    Py.call (PlantData.setattr key v) r =
      if (v <? #lo)%float || (v >? #hi)%float
      then inl (Py.ValueError (Bounds.message subject lo hi unit_suffix))
      else inr (tt, PlantData.store key v r).
Proof.
  destruct key; simpl; intros H; inversion H; subst;
    [ exists "Height", " cm" | exists "Stress scores", "" | exists "Stress scores", ""
    | exists "Stress scores", "" | exists "Health score", "" ];
    intros v r;
    unfold Py.call, PlantData.setattr, PlantData.validates, PlantData.validate_height,
      PlantData.validate_stress_scores, PlantData.validate_health_score;
    match goal with |- context [if ?c then raise _ else _] => destruct c end; reflexivity.
Qed.

Lemma plant_setattr_int_bounded (key : PlantData.int_column) (lo hi : Z) :
  Bounds.plant_int key = Some (lo, hi) ->
  exists subject unit_suffix, forall v r,
    Py.call (PlantData.setattr_int key v) r =
      if (v <? lo) || (v >? hi)
      then inl (Py.ValueError (Bounds.message subject lo hi unit_suffix))
      else inr (tt, PlantData.store_int key v r).
Proof.
  destruct key; simpl; intros H; inversion H; subst;
    exists "RGB values", ""; intros v r;
    unfold Py.call, PlantData.setattr_int, PlantData.validates_int, PlantData.validate_rgb;
    match goal with |- context [if ?c then raise _ else _] => destruct c end; reflexivity.
Qed.

Lemma outside_iff_test (lo hi : Z) (v : Py.float) :
  Bounds.outside lo hi v <-> (v <? #lo)%float || (v >? #hi)%float = true.
Proof.
  unfold Bounds.outside. rewrite orb_true_iff. reflexivity.
Qed.

Lemma outside_int_iff_test (lo hi v : Z) :
  Bounds.outside_int lo hi v <-> (v <? lo) || (v >? hi) = true.
Proof.
  unfold Bounds.outside_int. rewrite orb_true_iff, Z.ltb_lt, Z.gtb_ltb, Z.ltb_lt. reflexivity.
Qed.

(** C3, as stated, fails: pH -1 and pH 15 are rejected with one and the
    same error, so the error does not carry the rejected value; and the
    red and the green channel are rejected with one and the same error,
    so it does not carry the field name either. *)
Lemma error_lacks_value_and_field :
  Py.call (SoilData.setattr SoilData.c_ph_level (#(-1))%float) Samples.soil
    = inl (Py.ValueError "pH must be between 0 and 14")
  /\ Py.call (SoilData.setattr SoilData.c_ph_level (#15)%float) Samples.soil
    = inl (Py.ValueError "pH must be between 0 and 14")
  /\ ~ (exists value_of : Py.exn -> Py.float, forall v e,
          Py.call (SoilData.setattr SoilData.c_ph_level v) Samples.soil = inl e ->
          value_of e = v)
  /\ Py.call (PlantData.setattr_int PlantData.c_leaf_color_r 256) Samples.stressed_plant
    = inl (Py.ValueError "RGB values must be between 0 and 255")
  /\ Py.call (PlantData.setattr_int PlantData.c_leaf_color_g 256) Samples.stressed_plant
    = inl (Py.ValueError "RGB values must be between 0 and 255").
Proof.
  repeat split; try reflexivity.
  intros [value_of H].
  pose proof (H (#(-1))%float _ eq_refl) as H1.
  pose proof (H (#15)%float _ eq_refl) as H2.
  rewrite H1 in H2. vm_compute in H2. discriminate.
Qed.

(** The error a rejected assignment raises, validator by validator. *)
Lemma soil_setattr_error (key : SoilData.column) (range : Z * Z) :
  Bounds.soil key = Some range ->
  forall v r,
    Py.call (SoilData.setattr key v) r =
      if (v <? #(fst range))%float || (v >? #(snd range))%float
      then inl (Bounds.error range (Bounds.soil_subject key))
      else inr (tt, SoilData.store key v r).
Proof.
  destruct key; simpl; intros H; inversion H; subst; intros v r;
    unfold Py.call, SoilData.setattr, SoilData.validates, SoilData.validate_ph,
      SoilData.validate_moisture, SoilData.validate_temperature; cbn [fst snd];
    match goal with |- context [if ?c then raise _ else _] => destruct c end; reflexivity.
Qed.

Lemma plant_setattr_error (key : PlantData.column) (range : Z * Z) :
  Bounds.plant key = Some range ->
  forall v r,
    Py.call (PlantData.setattr key v) r =
      if (v <? #(fst range))%float || (v >? #(snd range))%float
      then inl (Bounds.error range (Bounds.plant_subject key))
      else inr (tt, PlantData.store key v r).
Proof.
  destruct key; simpl; intros H; inversion H; subst; intros v r;
    unfold Py.call, PlantData.setattr, PlantData.validates, PlantData.validate_height,
      PlantData.validate_stress_scores, PlantData.validate_health_score; cbn [fst snd];
    match goal with |- context [if ?c then raise _ else _] => destruct c end; reflexivity.
Qed.

Lemma plant_setattr_int_error (key : PlantData.int_column) (range : Z * Z) :
  Bounds.plant_int key = Some range ->
  forall v r,
    Py.call (PlantData.setattr_int key v) r =
      if (v <? fst range) || (v >? snd range)
      then inl (Bounds.error range (Bounds.plant_int_subject key))
      else inr (tt, PlantData.store_int key v r).
Proof.
  destruct key; simpl; intros H; inversion H; subst; intros v r;
    unfold Py.call, PlantData.setattr_int, PlantData.validates_int, PlantData.validate_rgb;
    cbn [fst snd];
    match goal with |- context [if ?c then raise _ else _] => destruct c end; reflexivity.
Qed.

(** C3 (amended): a rejected assignment to a bounded column raises the
    [ValueError] fixed for the validator of the column.  Its message is
    one of the seven literals below; it is built from the quantity the
    validator names, the allowed range and a unit.  The error depends
    on the column alone, so it is the same whatever value was rejected,
    and it is the same for all columns that share a validator; the
    attribute name of the column occurs nowhere in it. *)
Theorem error_names_range :
  (forall key range v r e,
      Bounds.soil key = Some range ->
      Py.call (SoilData.setattr key v) r = inl e ->
      e = Bounds.error range (Bounds.soil_subject key)
      /\ forall msg, e = Py.ValueError msg -> Bounds.occurs (SoilData.name key) msg = false)
  /\ (forall key range v r e,
      Bounds.plant key = Some range ->
      Py.call (PlantData.setattr key v) r = inl e ->
      e = Bounds.error range (Bounds.plant_subject key)
      /\ forall msg, e = Py.ValueError msg -> Bounds.occurs (PlantData.name key) msg = false)
  /\ (forall key range v r e,
      Bounds.plant_int key = Some range ->
      Py.call (PlantData.setattr_int key v) r = inl e ->
      e = Bounds.error range (Bounds.plant_int_subject key)
      /\ forall msg, e = Py.ValueError msg ->
         Bounds.occurs (PlantData.int_name key) msg = false)
  /\ (forall key1 key2 v1 v2 r1 r2 e1 e2,
      In key1 [PlantData.c_leaf_color_r; PlantData.c_leaf_color_g; PlantData.c_leaf_color_b] ->
      In key2 [PlantData.c_leaf_color_r; PlantData.c_leaf_color_g; PlantData.c_leaf_color_b] ->
      Py.call (PlantData.setattr_int key1 v1) r1 = inl e1 ->
      Py.call (PlantData.setattr_int key2 v2) r2 = inl e2 ->
      e1 = e2)
  /\ (forall key1 key2 v1 v2 r1 r2 e1 e2,
      In key1 [PlantData.c_water_stress_level; PlantData.c_heat_stress_score;
               PlantData.c_drought_stress_score] ->
      In key2 [PlantData.c_water_stress_level; PlantData.c_heat_stress_score;
               PlantData.c_drought_stress_score] ->
      Py.call (PlantData.setattr key1 v1) r1 = inl e1 ->
      Py.call (PlantData.setattr key2 v2) r2 = inl e2 ->
      e1 = e2)
  /\ [Bounds.error (0, 14) (Bounds.soil_subject SoilData.c_ph_level);
      Bounds.error (0, 100) (Bounds.soil_subject SoilData.c_moisture_percent);
      Bounds.error (-50, 80) (Bounds.soil_subject SoilData.c_temperature_celsius);
      Bounds.error (0, 1000) (Bounds.plant_subject PlantData.c_height_cm);
      Bounds.error (0, 255) (Bounds.plant_int_subject PlantData.c_leaf_color_r);
      Bounds.error (0, 10) (Bounds.plant_subject PlantData.c_water_stress_level);
      Bounds.error (0, 100) (Bounds.plant_subject PlantData.c_health_score)]
     = map Py.ValueError
         ["pH must be between 0 and 14";
          "Moisture percentage must be between 0 and 100";
          "Temperature must be between -50 and 80 Celsius";
          "Height must be between 0 and 1000 cm";
          "RGB values must be between 0 and 255";
          "Stress scores must be between 0 and 10";
          "Health score must be between 0 and 100"].
Proof.
  split; [|split; [|split; [|split; [|split]]]].
  - intros key range v r e Hb H. rewrite (soil_setattr_error key range Hb) in H.
    destruct (_ || _); [|discriminate]. injection H as <-. split; [reflexivity|].
    intros msg [= <-]. destruct key; inversion Hb; subst; reflexivity.
  - intros key range v r e Hb H. rewrite (plant_setattr_error key range Hb) in H.
    destruct (_ || _); [|discriminate]. injection H as <-. split; [reflexivity|].
    intros msg [= <-]. destruct key; inversion Hb; subst; reflexivity.
  - intros key range v r e Hb H. rewrite (plant_setattr_int_error key range Hb) in H.
    destruct (_ || _); [|discriminate]. injection H as <-. split; [reflexivity|].
    intros msg [= <-]. destruct key; inversion Hb; subst; reflexivity.
  - intros key1 key2 v1 v2 r1 r2 e1 e2 H1 H2 E1 E2.
    assert (Hb : forall key,
               In key [PlantData.c_leaf_color_r; PlantData.c_leaf_color_g;
                       PlantData.c_leaf_color_b] ->
               Bounds.plant_int key = Some (0, 255)
               /\ Bounds.plant_int_subject key = ("RGB values", "")).
    { intros key H. simpl in H. destruct H as [<-|[<-|[<-|[]]]]; split; reflexivity. }
    destruct (Hb key1 H1) as [B1 S1]. destruct (Hb key2 H2) as [B2 S2].
    rewrite (plant_setattr_int_error key1 _ B1) in E1.
    rewrite (plant_setattr_int_error key2 _ B2) in E2.
    destruct (_ || _) in E1; [|discriminate]. destruct (_ || _) in E2; [|discriminate].
    congruence.
  - intros key1 key2 v1 v2 r1 r2 e1 e2 H1 H2 E1 E2.
    assert (Hb : forall key,
               In key [PlantData.c_water_stress_level; PlantData.c_heat_stress_score;
                       PlantData.c_drought_stress_score] ->
               Bounds.plant key = Some (0, 10)
               /\ Bounds.plant_subject key = ("Stress scores", "")).
    { intros key H. simpl in H. destruct H as [<-|[<-|[<-|[]]]]; split; reflexivity. }
    destruct (Hb key1 H1) as [B1 S1]. destruct (Hb key2 H2) as [B2 S2].
    rewrite (plant_setattr_error key1 _ B1) in E1.
    rewrite (plant_setattr_error key2 _ B2) in E2.
    destruct (_ || _) in E1; [|discriminate]. destruct (_ || _) in E2; [|discriminate].
    congruence.
  - reflexivity.
Qed.

Lemma error_names_range_witness :
  Py.ValueError "pH must be between 0 and 14"
  = Bounds.error (0, 14) (Bounds.soil_subject SoilData.c_ph_level)
  /\ Bounds.occurs "ph_level" "pH must be between 0 and 14" = false
  /\ Py.ValueError "RGB values must be between 0 and 255"
     = Bounds.error (0, 255) (Bounds.plant_int_subject PlantData.c_leaf_color_g).
Proof.
  destruct error_names_range as (Hsoil & _ & Hint & _).
  destruct (Hsoil SoilData.c_ph_level (0, 14) (#15)%float Samples.soil _ eq_refl eq_refl)
    as [He Hname].
  split; [exact He|]. split; [exact (Hname _ eq_refl)|].
  exact (proj1 (Hint PlantData.c_leaf_color_g (0, 255) 256 Samples.stressed_plant _
                  eq_refl eq_refl)).
Defined.

(** Away from NaN, "strictly outside [lo, hi]" is the complement of
    "inside [lo, hi]". *)
Lemma outside_not_inside (lo hi : Z) (v : Py.float) :
  Py.is_nan (#lo)%float = false -> Py.is_nan (#hi)%float = false ->
  Py.is_nan v = false ->
  (Bounds.outside lo hi v <-> ~ Bounds.inside lo hi v).
Proof.
  intros Hlo Hhi Hv. unfold Bounds.outside, Bounds.inside.
  rewrite (lt_negb_ge v (#lo)%float Hv Hlo).
  change (v >? #hi)%float with (#hi <? v)%float.
  rewrite (lt_negb_ge (#hi)%float v Hhi Hv).
  unfold Py.ge, Py.le.
  destruct (SFleb (#lo)%float v), (SFleb v (#hi)%float); simpl; intuition congruence.
Qed.

(** C4: for every row of the bound table, an assignment is rejected
    exactly when the value lies strictly outside the closed range;
    otherwise, and in particular at both bounds, the value is stored
    unchanged. *)
Theorem bounded_assignment :
  (forall key lo hi v r,
      Bounds.soil key = Some (lo, hi) ->
      (Bounds.rejected (Py.call (SoilData.setattr key v) r) <-> Bounds.outside lo hi v)
      /\ (~ Bounds.outside lo hi v ->
          Py.call (SoilData.setattr key v) r = inr (tt, SoilData.store key v r)
          /\ SoilData.read key (SoilData.store key v r) = v)
      /\ (Py.is_nan v = false -> (Bounds.outside lo hi v <-> ~ Bounds.inside lo hi v))
      /\ Py.call (SoilData.setattr key (#lo)%float) r
         = inr (tt, SoilData.store key (#lo)%float r)
      /\ Py.call (SoilData.setattr key (#hi)%float) r
         = inr (tt, SoilData.store key (#hi)%float r))
  /\ (forall key lo hi v r,
      Bounds.plant key = Some (lo, hi) ->
      (Bounds.rejected (Py.call (PlantData.setattr key v) r) <-> Bounds.outside lo hi v)
      /\ (~ Bounds.outside lo hi v ->
          Py.call (PlantData.setattr key v) r = inr (tt, PlantData.store key v r)
          /\ PlantData.read key (PlantData.store key v r) = v)
      /\ (Py.is_nan v = false -> (Bounds.outside lo hi v <-> ~ Bounds.inside lo hi v))
      /\ Py.call (PlantData.setattr key (#lo)%float) r
         = inr (tt, PlantData.store key (#lo)%float r)
      /\ Py.call (PlantData.setattr key (#hi)%float) r
         = inr (tt, PlantData.store key (#hi)%float r))
  /\ (forall key lo hi v r,
      Bounds.plant_int key = Some (lo, hi) ->
      (Bounds.rejected (Py.call (PlantData.setattr_int key v) r)
       <-> Bounds.outside_int lo hi v)
      /\ (lo <= v <= hi ->
          Py.call (PlantData.setattr_int key v) r = inr (tt, PlantData.store_int key v r)
          /\ PlantData.read_int key (PlantData.store_int key v r) = v)
      /\ Py.call (PlantData.setattr_int key lo) r = inr (tt, PlantData.store_int key lo r)
      /\ Py.call (PlantData.setattr_int key hi) r = inr (tt, PlantData.store_int key hi r)).
Proof.
  split; [|split]; intros key lo hi v r Hb.
  - destruct (soil_setattr_bounded key lo hi Hb) as (subject & unit_suffix & Hset).
    repeat split.
    + intros [e He]. apply outside_iff_test. rewrite Hset in He.
      destruct (_ || _); [reflexivity | discriminate].
    + intros Ho. apply outside_iff_test in Ho. rewrite Hset, Ho. eexists; reflexivity.
    + rewrite Hset. destruct (_ || _) eqn:E; [|reflexivity].
      exfalso. match goal with Hn : ~ Bounds.outside _ _ _ |- _ => apply Hn end.
      apply outside_iff_test, E.
    + apply soil_store_read.
    + apply outside_not_inside; try assumption;
        destruct key; inversion Hb; reflexivity.
    + apply outside_not_inside; try assumption;
        destruct key; inversion Hb; reflexivity.
    + rewrite Hset. destruct key; inversion Hb; reflexivity.
    + rewrite Hset. destruct key; inversion Hb; reflexivity.
  - destruct (plant_setattr_bounded key lo hi Hb) as (subject & unit_suffix & Hset).
    repeat split.
    + intros [e He]. apply outside_iff_test. rewrite Hset in He.
      destruct (_ || _); [reflexivity | discriminate].
    + intros Ho. apply outside_iff_test in Ho. rewrite Hset, Ho. eexists; reflexivity.
    + rewrite Hset. destruct (_ || _) eqn:E; [|reflexivity].
      exfalso. match goal with Hn : ~ Bounds.outside _ _ _ |- _ => apply Hn end.
      apply outside_iff_test, E.
    + apply plant_store_read.
    + apply outside_not_inside; try assumption;
        destruct key; inversion Hb; reflexivity.
    + apply outside_not_inside; try assumption;
        destruct key; inversion Hb; reflexivity.
    + rewrite Hset. destruct key; inversion Hb; reflexivity.
    + rewrite Hset. destruct key; inversion Hb; reflexivity.
  - destruct (plant_setattr_int_bounded key lo hi Hb) as (subject & unit_suffix & Hset).
    repeat split.
    + intros [e He]. apply outside_int_iff_test. rewrite Hset in He.
      destruct (_ || _); [reflexivity | discriminate].
    + intros Ho. apply outside_int_iff_test in Ho. rewrite Hset, Ho. eexists; reflexivity.
    + rewrite Hset. destruct (_ || _) eqn:E; [|reflexivity].
      apply outside_int_iff_test in E. unfold Bounds.outside_int in E. lia.
    + apply plant_store_int_read.
    + rewrite Hset. destruct key; inversion Hb; reflexivity.
    + rewrite Hset. destruct key; inversion Hb; reflexivity.
Qed.

Lemma bounded_assignment_witness :
  (Bounds.rejected (Py.call (SoilData.setattr SoilData.c_ph_level (#15)%float) Samples.soil)
   <-> Bounds.outside 0 14 (#15)%float)
  /\ (Bounds.rejected
        (Py.call (PlantData.setattr PlantData.c_health_score (#101)%float)
           Samples.stressed_plant)
      <-> Bounds.outside 0 100 (#101)%float)
  /\ (Bounds.rejected
        (Py.call (PlantData.setattr_int PlantData.c_leaf_color_b 256) Samples.stressed_plant)
      <-> Bounds.outside_int 0 255 256).
Proof.
  destruct bounded_assignment as (Hsoil & Hplant & Hint).
  split; [|split].
  - apply (Hsoil SoilData.c_ph_level 0 14 (#15)%float Samples.soil). reflexivity.
  - apply (Hplant PlantData.c_health_score 0 100 (#101)%float Samples.stressed_plant).
    reflexivity.
  - apply (Hint PlantData.c_leaf_color_b 0 255 256 Samples.stressed_plant). reflexivity.
Defined.

(** ** Plant health score *)

Lemma clamp_range (b : Py.float) :
  (#0 <=? Py.max #0 (Py.min #100 b))%float = true
  /\ (Py.max #0 (Py.min #100 b) <=? #100)%float = true.
Proof.
  assert (Hmin : (Py.min #100 b <=? #100)%float = true).
  { unfold Py.min. destruct (b <? #100)%float eqn:E; [apply lt_le, E | reflexivity]. }
  unfold Py.max, Py.gt.
  change (SFltb (#0)%float (Py.min (#100)%float b)) with (#0 <? Py.min #100 b)%float.
  destruct (#0 <? Py.min #100 b)%float eqn:E.
  - split; [apply lt_le, E | exact Hmin].
  - split; reflexivity.
Qed.

Lemma below_20_not_above_40 (x : Py.float) :
  (x <? #20)%float = true -> (x >? #40)%float = false.
Proof.
  unfold Py.gt, Py.lt, SFltb.
  let c := eval vm_compute in (#20)%float in change (#20)%float with c.
  let c := eval vm_compute in (#40)%float in change (#40)%float with c.
  destruct x as [s|s| |s m e]; cbn [SFcompare]; intros H;
    try discriminate H; try reflexivity; destruct s; try discriminate H; try reflexivity.
  destruct (Z.compare_spec e (-48)); destruct (Z.compare_spec (-47) e);
    try lia; try discriminate H; try reflexivity.
Qed.

(** C5: for every plant reading whose bounded fields lie in their
    ranges, [calculate_health_score] returns a score between 0.0 and
    100.0; under maximal stress (the three stress scores at 10, disease
    symptoms and deficiency signs present, pests present, chlorophyll
    index below 20, growth rate below 0.5) the score is exactly 0.0. *)
Theorem health_score_clamped (r : PlantData.PlantReading) :
  Bounds.plant_valid r = true ->
  exists score,
    Py.call PlantData.calculate_health_score r = inr (score, r)
    /\ (#0 <=? score)%float = true
    /\ (score <=? #100)%float = true
    /\ (PlantData.water_stress_level r = (#10)%float ->
        PlantData.heat_stress_score r = (#10)%float ->
        PlantData.drought_stress_score r = (#10)%float ->
        PlantData.disease_symptoms r <> "" ->
        PlantData.pest_presence r = true ->
        PlantData.nutrient_deficiency_signs r <> "" ->
        (PlantData.leaf_chlorophyll_index r <? #20)%float = true ->
        (PlantData.growth_rate_cm_per_week r <? Py.dyadic 1 (-1))%float = true ->
        score = (#0)%float).
Proof.
  intros _. eexists. split; [reflexivity|].
  split; [apply clamp_range|]. split; [apply clamp_range|].
  intros Hw Hh Hd Hdis Hpest Hdef Hchl Hgr.
  rewrite Hw, Hh, Hd, Hpest, Hchl, Hgr, (below_20_not_above_40 _ Hchl).
  destruct (PlantData.disease_symptoms r); [congruence|].
  destruct (PlantData.nutrient_deficiency_signs r); [congruence|].
  reflexivity.
Qed.

Lemma health_score_clamped_witness :
  exists score,
    Py.call PlantData.calculate_health_score Samples.stressed_plant
      = inr (score, Samples.stressed_plant)
    /\ (#0 <=? score)%float = true
    /\ (score <=? #100)%float = true
    /\ score = (#0)%float.
Proof.
  destruct (health_score_clamped Samples.stressed_plant eq_refl)
    as (score & Hcall & Hlo & Hhi & Hzero).
  exists score. repeat split; try assumption.
  apply Hzero; try reflexivity; discriminate.
Defined.
Lemma SFcompare_lt_trans (x y z : Py.float) :
  SFcompare x y = Some Lt -> SFcompare y z = Some Lt -> SFcompare x z = Some Lt.
Proof.
  destruct x as [sx|sx| |sx mx ex], y as [sy|sy| |sy my ey], z as [sz|sz| |sz mz ez];
    cbn [SFcompare]; try discriminate;
    try (destruct sx; discriminate); try (destruct sy; discriminate);
    try (destruct sz; discriminate);
    try (destruct sx, sy; discriminate); try (destruct sy, sz; discriminate);
    try (destruct sx, sy, sz; (discriminate || reflexivity)).
  all: try (destruct sx, sz; (discriminate || reflexivity)).
  all: try (destruct sx, sy, sz; try discriminate; try reflexivity).
  all: change (Pos.compare_cont Eq) with Pos.compare;
    intros H1 H2; f_equal;
    destruct (Z.compare_spec ex ey), (Z.compare_spec ey ez), (Z.compare_spec ex ez);
    try discriminate; try lia; try reflexivity;
    destruct (Pos.compare_spec mx my), (Pos.compare_spec my mz), (Pos.compare_spec mx mz);
    try discriminate; try lia; try reflexivity.
Qed.

Lemma lt_trans (x y z : Py.float) :
  Py.lt x y = true -> Py.lt y z = true -> Py.lt x z = true.
Proof.
  unfold Py.lt, SFltb. intros H1 H2.
  rewrite (SFcompare_lt_trans x y z); [reflexivity | |].
  - destruct (SFcompare x y) as [[]|]; congruence.
  - destruct (SFcompare y z) as [[]|]; congruence.
Qed.

Lemma SFcompare_refl (x : Py.float) : Py.is_nan x = false -> SFcompare x x = Some Eq.
Proof.
  destruct x as [s|s| |s m e]; intros H; try discriminate H; cbn [SFcompare];
    try (destruct s; reflexivity).
  change (Pos.compare_cont Eq) with Pos.compare.
  rewrite Z.compare_refl, Pos.compare_refl. destruct s; reflexivity.
Qed.

Lemma ge_refl (x : Py.float) : Py.is_nan x = false -> Py.ge x x = true.
Proof. intros H. unfold Py.ge, SFleb. rewrite (SFcompare_refl x H). reflexivity. Qed.

(** ** Soil quality score *)

(** The score is 100 less the penalties of the violated bands, floored
    at 0. *)
Lemma soil_score_total_penalty (config : Settings.Config) (r : SoilData.SoilReading) :
  Py.call (SoilData.get_soil_quality_score config) r
  = inr (Z.max 0 (100 - Bands.total_penalty config r), r).
Proof.
  unfold Py.call, SoilData.get_soil_quality_score, Bands.total_penalty, Bands.all,
    fold_right, Bands.violates, Bands.penalty.
  run_method.
  repeat match goal with |- context [if ?c then _ else _] => destruct c end; reflexivity.
Qed.

Lemma total_penalty_monotone (config : Settings.Config) (r1 r2 : SoilData.SoilReading) :
  (forall b, Bands.violates config r1 b = true -> Bands.violates config r2 b = true) ->
  Bands.total_penalty config r1 <= Bands.total_penalty config r2.
Proof.
  intros H. unfold Bands.total_penalty.
  induction Bands.all as [|b bs IH]; simpl; [lia|].
  specialize (H b).
  assert (0 <= Bands.penalty b) by (destruct b; simpl; lia).
  destruct (Bands.violates config r1 b), (Bands.violates config r2 b);
    try (specialize (H eq_refl); discriminate); lia.
Qed.

(** C6: the soil score is never negative, and a reading that violates
    every band another reading violates (under the same configuration)
    scores no higher than that other reading. *)
Theorem soil_score_monotone :
  (forall config r,
      exists s, Py.call (SoilData.get_soil_quality_score config) r = inr (s, r) /\ 0 <= s)
  /\ (forall config r1 r2 s1 s2,
      (forall b, Bands.violates config r1 b = true -> Bands.violates config r2 b = true) ->
      Py.call (SoilData.get_soil_quality_score config) r1 = inr (s1, r1) ->
      Py.call (SoilData.get_soil_quality_score config) r2 = inr (s2, r2) ->
      s2 <= s1).
Proof.
  split.
  - intros config r. eexists. rewrite soil_score_total_penalty.
    split; [reflexivity|]. lia.
  - intros config r1 r2 s1 s2 H H1 H2.
    pose proof (total_penalty_monotone config r1 r2 H).
    rewrite soil_score_total_penalty in H1, H2.
    assert (E1 : Z.max 0 (100 - Bands.total_penalty config r1) = s1) by congruence.
    assert (E2 : Z.max 0 (100 - Bands.total_penalty config r2) = s2) by congruence.
    lia.
Qed.

Lemma soil_score_monotone_witness :
  (exists s,
      Py.call (SoilData.get_soil_quality_score Settings.defaults) Samples.salty_soil
      = inr (s, Samples.salty_soil) /\ 0 <= s)
  /\ 40 <= 70.
Proof.
  destruct soil_score_monotone as [Hfloor Hmono]. split.
  - apply Hfloor.
  - apply (Hmono Settings.defaults Samples.soil Samples.salty_soil 70 40).
    + intros b; destruct b; vm_compute; congruence.
    + reflexivity.
    + reflexivity.
Defined.

(** ** Methods of a plant reading *)

Lemma calculate_health_score_returns (r : PlantData.PlantReading) :
  exists score, Py.call PlantData.calculate_health_score r = inr (score, r).
Proof. eexists. reflexivity. Qed.

(** Running [m] and then [k] on its result. *)
Lemma call_bind {Self A B : Type} (m : Py.method Self A) (k : A -> Py.method Self B)
    (self : Self) :
  Py.call (bind m k) self =
    match Py.call m self with
    | inl e => inl e
    | inr (v, self') => Py.call (k v) self'
    end.
Proof.
  unfold Py.call. cbn [runStateT bind Monad_stateT Monad_either].
  destruct (runStateT m self) as [e|[v self']]; reflexivity.
Qed.

(** C8: [calculate_health_score] returns a score and leaves the reading
    as it was; in particular the stored [health_score] reads after the
    call as it did before. *)
Theorem calculate_health_score_frame (r : PlantData.PlantReading) :
  (exists score, Py.call PlantData.calculate_health_score r = inr (score, r))
  /\ Py.call (_ <- PlantData.calculate_health_score ;; gets PlantData.health_score) r
     = inr (PlantData.health_score r, r).
Proof.
  destruct (calculate_health_score_returns r) as [score Hscore].
  split; [exists score; exact Hscore|].
  rewrite call_bind, Hscore. reflexivity.
Qed.

(** C9, as stated, fails: at a growth rate of exactly 2.0 the label
    returned is not ["Excellent"]. *)
Lemma growth_label_not_bare :
  (PlantData.growth_rate_cm_per_week Samples.growing_plant >=? #2)%float = true
  /\ Py.call PlantData.get_growth_status Samples.growing_plant
     <> inr ("Excellent", Samples.growing_plant).
Proof. split; [reflexivity | vm_compute; discriminate]. Qed.

Lemma lt_below_ge (x a b : Py.float) :
  Py.lt x a = true -> Py.lt a b = true -> Py.ge x b = false.
Proof. intros H1 H2. apply lt_not_ge, (lt_trans x a b H1 H2). Qed.

(** C9 (amended): [get_growth_status] returns one of the four labels
    ["Excellent growth"], ["Good growth"], ["Moderate growth"] and
    ["Slow growth"], chosen by the band of [growth_rate_cm_per_week]:
    at least 2.0; at least 1.0 and below 2.0; at least 0.5 and below
    1.0; below 0.5 or, as for NaN, in none of the bands above.  The
    bounds 2.0, 1.0 and 0.5 belong to the higher band. *)
Theorem growth_status_bands (r : PlantData.PlantReading) :
  exists label,
    Py.call PlantData.get_growth_status r = inr (label, r)
    /\ In label ["Excellent growth"; "Good growth"; "Moderate growth"; "Slow growth"]
    /\ ((PlantData.growth_rate_cm_per_week r >=? #2)%float = true ->
        label = "Excellent growth")
    /\ ((PlantData.growth_rate_cm_per_week r >=? #1)%float = true ->
        (PlantData.growth_rate_cm_per_week r <? #2)%float = true ->
        label = "Good growth")
    /\ ((PlantData.growth_rate_cm_per_week r >=? Py.dyadic 1 (-1))%float = true ->
        (PlantData.growth_rate_cm_per_week r <? #1)%float = true ->
        label = "Moderate growth")
    /\ ((PlantData.growth_rate_cm_per_week r <? Py.dyadic 1 (-1))%float = true ->
        label = "Slow growth")
    /\ ((PlantData.growth_rate_cm_per_week r >=? #2)%float = false ->
        (PlantData.growth_rate_cm_per_week r >=? #1)%float = false ->
        (PlantData.growth_rate_cm_per_week r >=? Py.dyadic 1 (-1))%float = false ->
        label = "Slow growth").
Proof.
  unfold Py.call, PlantData.get_growth_status.
  run_method.
  set (g := PlantData.growth_rate_cm_per_week r).
  pose proof (lt_not_ge g (#2)%float) as H2.
  pose proof (lt_not_ge g (#1)%float) as H1.
  pose proof (lt_not_ge g (Py.dyadic 1 (-1))) as Hh.
  assert (H12 : (g <? #1)%float = true -> (g >=? #2)%float = false)
    by (intros H; apply (lt_below_ge g (#1)%float); [exact H | vm_compute; reflexivity]).
  assert (Hh1 : (g <? Py.dyadic 1 (-1))%float = true -> (g >=? #1)%float = false)
    by (intros H; apply (lt_below_ge g (Py.dyadic 1 (-1))); [exact H | vm_compute; reflexivity]).
  assert (Hh2 : (g <? Py.dyadic 1 (-1))%float = true -> (g >=? #2)%float = false)
    by (intros H; apply (lt_below_ge g (Py.dyadic 1 (-1))); [exact H | vm_compute; reflexivity]).
  destruct (g >=? #2)%float eqn:E2; [|destruct (g >=? #1)%float eqn:E1;
    [|destruct (g >=? Py.dyadic 1 (-1))%float eqn:Eh]];
    eexists; (split; [reflexivity|]); (split; [simpl; auto 6|]);
    repeat split; intros; try reflexivity; exfalso;
    repeat match goal with
    | Hlt : (g <? #2)%float = true |- _ => pose proof (H2 Hlt); clear Hlt
    | Hlt : (g <? #1)%float = true |- _ =>
        pose proof (H1 Hlt); pose proof (H12 Hlt); clear Hlt
    | Hlt : (g <? Py.dyadic 1 (-1))%float = true |- _ =>
        pose proof (Hh Hlt); pose proof (Hh1 Hlt); pose proof (Hh2 Hlt);
        clear Hlt
    end; congruence.
Qed.

Lemma growth_status_bands_witness :
  exists label,
    Py.call PlantData.get_growth_status Samples.growing_plant
      = inr (label, Samples.growing_plant)
    /\ label = "Excellent growth".
Proof.
  destruct (growth_status_bands Samples.growing_plant) as (label & Hcall & _ & Hex & _).
  exists label. split; [exact Hcall|]. apply Hex. reflexivity.
Defined.

(** C10, as stated, fails: a reading that was constructed without a
    [health_score] and never inserted holds [None] there, not the
    column default, and [is_healthy()] raises [TypeError] instead of
    returning [True]. *)
Lemma unset_health_score_raises :
  Samples.new_plant "health_score" = Py.VNone
  /\ Py.call (Instance.is_healthy PlantData.is_healthy_default_threshold) Samples.new_plant
     = inl (Py.TypeError "'>=' not supported between instances of 'NoneType' and 'float'")
  /\ forall self, Py.call (Instance.is_healthy PlantData.is_healthy_default_threshold)
                    Samples.new_plant <> inr (true, self).
Proof. split; [reflexivity|]. split; [reflexivity|]. intros self. discriminate. Qed.

(** C10 (amended): [is_healthy] tests the stored [health_score] against
    the threshold with [>=], so a stored score equal to the threshold
    is healthy; a reading whose stored score is the column default
    100.0 is healthy at the default threshold 70.0, also right after
    [calculate_health_score] has been called on it, whatever score that
    call returned.  On an instance the method does the same when
    [health_score] holds a float; when it holds [None], as it does
    until the row is inserted if the constructor was given none, the
    method raises [TypeError] for every threshold. *)
Theorem is_healthy_reads_stored_score
    (r : PlantData.PlantReading) (threshold : Py.float) :
  Py.call (PlantData.is_healthy threshold) r
    = inr ((PlantData.health_score r >=? threshold)%float, r)
  /\ (Py.is_nan threshold = false ->
      PlantData.health_score r = threshold ->
      Py.call (PlantData.is_healthy threshold) r = inr (true, r))
  /\ (Some (PlantData.health_score r) = PlantData.column_default PlantData.c_health_score ->
      Py.call (PlantData.is_healthy PlantData.is_healthy_default_threshold) r = inr (true, r)
      /\ Py.call (_ <- PlantData.calculate_health_score ;;
                  PlantData.is_healthy PlantData.is_healthy_default_threshold) r
         = inr (true, r))
  /\ (forall self : Instance.PlantReading,
      self "health_score" = Py.VFloat (PlantData.health_score r) ->
      Py.call (Instance.is_healthy threshold) self
      = inr ((PlantData.health_score r >=? threshold)%float, self))
  /\ (forall self : Instance.PlantReading,
      self "health_score" = Py.VNone ->
      Py.call (Instance.is_healthy threshold) self
      = inl (Py.TypeError "'>=' not supported between instances of 'NoneType' and 'float'")).
Proof.
  assert (Hrun : forall t,
             Py.call (PlantData.is_healthy t) r = inr ((PlantData.health_score r >=? t)%float, r))
    by reflexivity.
  split; [apply Hrun|]. split; [|split; [|split]].
  - intros Hnan Heq. rewrite Hrun, Heq, (ge_refl threshold Hnan). reflexivity.
  - intros Hdefault. simpl in Hdefault. injection Hdefault as Hdefault.
    assert (Hhealthy :
              Py.call (PlantData.is_healthy PlantData.is_healthy_default_threshold) r
              = inr (true, r)).
    { rewrite Hrun, Hdefault. reflexivity. }
    split; [exact Hhealthy|].
    destruct (calculate_health_score_returns r) as [score Hscore].
    rewrite call_bind, Hscore. exact Hhealthy.
  - intros self Hself. unfold Py.call, Instance.is_healthy. run_method.
    rewrite Hself. reflexivity.
  - intros self Hself. unfold Py.call, Instance.is_healthy. run_method.
    rewrite Hself. reflexivity.
Qed.

Lemma is_healthy_reads_stored_score_witness :
  Py.call (PlantData.is_healthy (#100)%float) Samples.stressed_plant
    = inr (true, Samples.stressed_plant)
  /\ Py.call PlantData.calculate_health_score Samples.stressed_plant
     = inr ((#0)%float, Samples.stressed_plant)
  /\ Py.call (_ <- PlantData.calculate_health_score ;;
              PlantData.is_healthy PlantData.is_healthy_default_threshold)
       Samples.stressed_plant
     = inr (true, Samples.stressed_plant)
  /\ Py.call (Instance.is_healthy (#100)%float) Samples.new_plant
     = inl (Py.TypeError "'>=' not supported between instances of 'NoneType' and 'float'").
Proof.
  destruct (is_healthy_reads_stored_score Samples.stressed_plant (#100)%float)
    as (_ & Heq & Hdefault & _ & Hnone).
  split; [apply Heq; reflexivity|]. split; [reflexivity|].
  split; [apply Hdefault; reflexivity|].
  apply Hnone. reflexivity.
Defined.

(** ** Exact values of floats *)

Lemma digits2_pos_bounds (p : positive) :
  2 ^ (Zpos (digits2_pos p) - 1) <= Zpos p < 2 ^ Zpos (digits2_pos p).
Proof.
  induction p as [p IH|p IH|]; cbn [digits2_pos].
  - rewrite Pos2Z.inj_succ.
    replace (Z.succ (Zpos (digits2_pos p)) - 1) with (Z.succ (Zpos (digits2_pos p) - 1)) by lia.
    rewrite !Z.pow_succ_r by lia. lia.
  - rewrite Pos2Z.inj_succ.
    replace (Z.succ (Zpos (digits2_pos p)) - 1) with (Z.succ (Zpos (digits2_pos p) - 1)) by lia.
    rewrite !Z.pow_succ_r by lia. lia.
  - simpl. lia.
Qed.

Lemma Zdigits2_nonneg (m : Z) : 0 <= Zdigits2 m.
Proof. destruct m; simpl; lia. Qed.

Lemma Zdigits2_bounds (m : Z) :
  0 < m -> 2 ^ (Zdigits2 m - 1) <= m < 2 ^ Zdigits2 m.
Proof. destruct m; try lia. intros _. apply digits2_pos_bounds. Qed.

Lemma Zdigits2_unique (m d : Z) :
  2 ^ (d - 1) <= m < 2 ^ d -> 0 < m -> Zdigits2 m = d.
Proof.
  intros [Hlo Hhi] Hm.
  destruct (Zdigits2_bounds m Hm) as [Hlo' Hhi'].
  pose proof (Zdigits2_nonneg m) as Hd.
  assert (0 <= d).
  { destruct (Z.ltb_spec d 0); [|lia]. rewrite Z.pow_neg_r in Hhi by lia. lia. }
  destruct (Z.lt_trichotomy (Zdigits2 m) d) as [Hlt|[Heq|Hgt]]; [|exact Heq|].
  - assert (2 ^ Zdigits2 m <= 2 ^ (d - 1)) by (apply Z.pow_le_mono_r; lia). lia.
  - assert (2 ^ d <= 2 ^ (Zdigits2 m - 1)) by (apply Z.pow_le_mono_r; lia). lia.
Qed.

Lemma Zdigits2_small (m n : Z) : 0 <= m -> 0 <= n -> Zdigits2 m <= n -> m < 2 ^ n.
Proof.
  intros Hm Hn Hd. destruct (Z.eq_dec m 0) as [->|Hne].
  - apply Z.pow_pos_nonneg; lia.
  - destruct (Zdigits2_bounds m) as [_ Hhi]; [lia|].
    assert (2 ^ Zdigits2 m <= 2 ^ n) by (apply Z.pow_le_mono_r; lia). lia.
Qed.

(** Dropping [n] low bits drops [n] digits. *)
Lemma Zdigits2_div_pow2 (m n : Z) :
  0 <= m -> 0 <= n -> Zdigits2 (m / 2 ^ n) = Z.max 0 (Zdigits2 m - n).
Proof.
  intros Hm Hn.
  assert (Hp : 0 < 2 ^ n) by (apply Z.pow_pos_nonneg; lia).
  destruct (Z.eq_dec m 0) as [->|Hne].
  { rewrite Z.div_0_l by lia. simpl. lia. }
  destruct (Zdigits2_bounds m) as [Hlo Hhi]; [lia|].
  pose proof (Zdigits2_nonneg m) as Hd.
  destruct (Z.le_gt_cases (Zdigits2 m) n) as [Hle|Hgt].
  - rewrite Z.div_small; [simpl; lia|]. split; [lia|].
    apply Zdigits2_small; lia.
  - rewrite Z.max_r by lia. apply Zdigits2_unique.
    + split.
      * apply Z.div_le_lower_bound; [lia|]. rewrite <- Z.pow_add_r by lia.
        replace (n + (Zdigits2 m - n - 1)) with (Zdigits2 m - 1) by lia. exact Hlo.
      * apply Z.div_lt_upper_bound; [lia|]. rewrite <- Z.pow_add_r by lia.
        replace (n + (Zdigits2 m - n)) with (Zdigits2 m) by lia. exact Hhi.
    + apply Z.div_str_pos. split; [lia|].
      assert (2 ^ n <= 2 ^ (Zdigits2 m - 1)) by (apply Z.pow_le_mono_r; lia). lia.
Qed.

(** *** Right shifts *)

Lemma shr_1_m (mrs : shr_record) : 0 <= shr_m mrs -> shr_m (shr_1 mrs) = shr_m mrs / 2.
Proof.
  destruct mrs as [m r s]. cbn [shr_m shr_1]. intros Hm.
  destruct m as [|[p|p|]|p]; try lia; cbn [shr_m].
  - reflexivity.
  - apply (Z.div_unique (Zpos p~1) 2 (Zpos p) 1); lia.
  - apply (Z.div_unique (Zpos p~0) 2 (Zpos p) 0); lia.
  - reflexivity.
Qed.

Lemma iter_shr_1_m (p : positive) (mrs : shr_record) :
  0 <= shr_m mrs -> shr_m (SpecFloat.iter_pos shr_1 p mrs) = shr_m mrs / 2 ^ Zpos p.
Proof.
  revert mrs. induction p as [p IH|p IH|]; intros mrs Hm; cbn [SpecFloat.iter_pos].
  - assert (H1 : 0 <= shr_m (shr_1 mrs)).
    { rewrite shr_1_m by exact Hm. apply Z.div_pos; lia. }
    assert (H2 : 0 <= shr_m (SpecFloat.iter_pos shr_1 p (shr_1 mrs))).
    { rewrite IH by exact H1. apply Z.div_pos; [lia|]. apply Z.pow_pos_nonneg; lia. }
    rewrite IH by exact H2. rewrite IH by exact H1. rewrite shr_1_m by exact Hm.
    rewrite !Z.div_div by (try apply Z.pow_pos_nonneg; lia).
    f_equal. replace (Zpos p~1) with (1 + Zpos p + Zpos p) by lia.
    rewrite !Z.pow_add_r by lia. lia.
  - assert (H2 : 0 <= shr_m (SpecFloat.iter_pos shr_1 p mrs)).
    { rewrite IH by exact Hm. apply Z.div_pos; [lia|]. apply Z.pow_pos_nonneg; lia. }
    rewrite IH by exact H2. rewrite IH by exact Hm.
    rewrite !Z.div_div by (try apply Z.pow_pos_nonneg; lia).
    f_equal. replace (Zpos p~0) with (Zpos p + Zpos p) by lia.
    rewrite !Z.pow_add_r by lia. lia.
  - rewrite shr_1_m by exact Hm. reflexivity.
Qed.

(** *** Rounding a located mantissa *)

Lemma fexp_eq (e : Z) : fexp Py.prec Py.emax e = Z.max (e - 53) (-1074).
Proof. reflexivity. Qed.

Lemma Zdigits2_succ (m : Z) :
  0 <= m ->
  Zdigits2 (m + 1) = Zdigits2 m
  \/ (Zdigits2 (m + 1) = Zdigits2 m + 1 /\ m + 1 = 2 ^ Zdigits2 m).
Proof.
  intros Hm. destruct (Z.eq_dec m 0) as [->|Hne].
  { right. split; reflexivity. }
  destruct (Zdigits2_bounds m) as [Hlo Hhi]; [lia|].
  pose proof (Zdigits2_nonneg m) as Hd.
  destruct (Z.eq_dec (m + 1) (2 ^ Zdigits2 m)) as [Heq|Hneq].
  - right. split; [|exact Heq]. apply Zdigits2_unique; [|lia].
    replace (Zdigits2 m + 1 - 1) with (Zdigits2 m) by lia.
    rewrite Z.pow_add_r by lia. lia.
  - left. apply Zdigits2_unique; lia.
Qed.

Lemma shr_fexp_spec (m e : Z) (l : location) :
  0 <= m -> e <= fexp Py.prec Py.emax (Zdigits2 m + e) ->
  exists mrs,
    shr_fexp Py.prec Py.emax m e l = (mrs, fexp Py.prec Py.emax (Zdigits2 m + e))
    /\ shr_m mrs = m / 2 ^ (fexp Py.prec Py.emax (Zdigits2 m + e) - e)
    /\ (fexp Py.prec Py.emax (Zdigits2 m + e) = e -> mrs = shr_record_of_loc m l).
Proof.
  intros Hm He. unfold shr_fexp, shr.
  set (e' := fexp Py.prec Py.emax (Zdigits2 m + e)) in *.
  assert (Hrec : shr_m (shr_record_of_loc m l) = m) by (destruct l as [|[]]; reflexivity).
  destruct (e' - e) as [|p|p] eqn:En; try lia.
  - exists (shr_record_of_loc m l). replace e' with e by lia.
    split; [reflexivity|]. split; [|reflexivity].
    rewrite Hrec. simpl. rewrite Z.div_1_r. reflexivity.
  - eexists. split; [|split].
    + f_equal. lia.
    + rewrite iter_shr_1_m by (rewrite Hrec; exact Hm). rewrite Hrec. reflexivity.
    + intros Heq. lia.
Qed.

Lemma round_nearest_even_cases (m : Z) (l : location) :
  round_nearest_even m l = m \/ round_nearest_even m l = m + 1.
Proof.
  destruct l as [|[]]; simpl; auto. destruct (Z.even m); auto.
Qed.

Lemma loc_of_shr_record_of_loc (m : Z) (l : location) :
  loc_of_shr_record (shr_record_of_loc m l) = l.
Proof. destruct l as [|[]]; reflexivity. Qed.

(** The mantissa [mx] at exponent [ex], fine enough to be rounded at
    its canonical exponent [e1], is truncated to [m1], rounded to [m1]
    or [m1 + 1], and renormalised without loss. *)
Lemma binary_round_aux_spec (s : bool) (mx ex : Z) (lx : location) :
  0 <= mx -> ex <= fexp Py.prec Py.emax (Zdigits2 mx + ex) ->
  let e1 := fexp Py.prec Py.emax (Zdigits2 mx + ex) in
  let m1 := mx / 2 ^ (e1 - ex) in
  exists mr m2 e2,
    (mr = m1 \/ mr = m1 + 1)
    /\ (lx = loc_Exact -> e1 = ex -> mr = m1)
    /\ m2 * 2 ^ (e2 - e1) = mr
    /\ e1 <= e2
    /\ 0 <= m2
    /\ (2 ^ 52 <= m1 \/ e1 = -1074)
    /\ binary_round_aux Py.prec Py.emax s mx ex lx =
       match m2 with
       | 0 => S754_zero s
       | Zpos p => if e2 <=? Py.emax - Py.prec then S754_finite s p e2 else S754_infinity s
       | Zneg _ => S754_nan
       end.
Proof.
  intros Hmx Hex e1 m1.
  assert (Hm1 : 0 <= m1) by (apply Z.div_pos; [lia | apply Z.pow_pos_nonneg; lia]).
  assert (Hd1 : Zdigits2 m1 = Z.max 0 (Zdigits2 mx - (e1 - ex)))
    by (apply Zdigits2_div_pow2; lia).
  pose proof (Zdigits2_nonneg mx) as Hdx.
  assert (Hcanon : fexp Py.prec Py.emax (Zdigits2 m1 + e1) = e1).
  { rewrite Hd1. unfold e1 in *. rewrite !fexp_eq in *. lia. }
  assert (Hnormal : 2 ^ 52 <= m1 \/ e1 = -1074).
  { destruct (Z.eq_dec e1 (-1074)) as [|Hne]; [right; assumption|left].
    assert (Hd : Zdigits2 m1 = 53) by (rewrite Hd1; unfold e1 in *; rewrite fexp_eq in *; lia).
    assert (0 < m1) by (destruct m1; simpl in Hd; lia).
    destruct (Zdigits2_bounds m1) as [Hlo _]; [assumption|].
    rewrite Hd in Hlo. exact Hlo. }
  unfold binary_round_aux.
  destruct (shr_fexp_spec mx ex lx Hmx Hex) as (mrs & -> & Hmrs & Hexact).
  fold e1 in Hmrs, Hexact. fold m1 in Hmrs.
  set (mr := round_nearest_even (shr_m mrs) (loc_of_shr_record mrs)).
  assert (Hmr : mr = m1 \/ mr = m1 + 1).
  { unfold mr. rewrite <- Hmrs. apply round_nearest_even_cases. }
  assert (Hmr0 : 0 <= mr) by lia.
  assert (Hdr : Zdigits2 mr = Zdigits2 m1
                \/ (Zdigits2 mr = Zdigits2 m1 + 1 /\ mr = 2 ^ Zdigits2 m1)).
  { destruct Hmr as [->| ->]; [left; reflexivity|]. apply Zdigits2_succ, Hm1. }
  assert (Hex2 : e1 <= fexp Py.prec Py.emax (Zdigits2 mr + e1)).
  { rewrite fexp_eq in *. lia. }
  destruct (shr_fexp_spec mr e1 loc_Exact Hmr0 Hex2) as (mrs2 & Heq2 & Hmrs2 & _).
  fold e1. rewrite Heq2.
  set (e2 := fexp Py.prec Py.emax (Zdigits2 mr + e1)) in *.
  exists mr, (shr_m mrs2), e2.
  split; [exact Hmr|]. split.
  { intros -> He. unfold mr. rewrite (Hexact He), loc_of_shr_record_of_loc.
    simpl. unfold m1. replace (e1 - ex) with 0 by lia.
    simpl. rewrite Z.div_1_r. reflexivity. }
  split.
  { rewrite Hmrs2.
    assert (He2 : e2 - e1 = 0 \/ (e2 - e1 = 1 /\ mr = 2 ^ Zdigits2 m1 /\ 1 <= Zdigits2 m1)).
    { unfold e2. rewrite fexp_eq in *. pose proof (Zdigits2_nonneg m1). lia. }
    destruct He2 as [->|(-> & Hpow & Hd)].
    - simpl. rewrite Z.div_1_r. lia.
    - assert (Hmr2 : mr = 2 ^ (Zdigits2 m1 - 1) * 2).
      { rewrite Hpow. rewrite Z.mul_comm, <- Z.pow_succ_r by lia. f_equal. lia. }
      change (2 ^ 1) with 2. rewrite Hmr2, Z.div_mul by lia. reflexivity. }
  split; [exact Hex2|]. split.
  { rewrite Hmrs2. apply Z.div_pos; [lia | apply Z.pow_pos_nonneg; lia]. }
  split; [exact Hnormal|]. reflexivity.
Qed.

(** *** Powers of two *)

Import Exact.

Lemma bpow_gt_0 (e : Z) : (0 < bpow e)%R.
Proof. apply powerRZ_lt. lra. Qed.

Lemma bpow_add (a b : Z) : bpow (a + b) = (bpow a * bpow b)%R.
Proof. apply powerRZ_add. lra. Qed.

Lemma bpow_nonneg_exp (n : Z) : 0 <= n -> bpow n = IZR (2 ^ n).
Proof.
  intros Hn. unfold bpow. rewrite <- (Z2Nat.id n Hn) at 1.
  rewrite <- pow_powerRZ. rewrite pow_IZR. rewrite Z2Nat.id by exact Hn. reflexivity.
Qed.

Lemma bpow_le (a b : Z) : a <= b -> (bpow a <= bpow b)%R.
Proof.
  intros H. replace b with (a + (b - a)) by lia. rewrite bpow_add.
  rewrite (bpow_nonneg_exp (b - a)) by lia.
  assert (H0 : 1 <= 2 ^ (b - a)) by (pose proof (Z.pow_pos_nonneg 2 (b - a)); lia).
  apply IZR_le in H0. pose proof (bpow_gt_0 a). nra.
Qed.

Lemma F2R_shift (m e n : Z) : 0 <= n -> F2R (m * 2 ^ n) e = F2R m (e + n).
Proof.
  intros Hn. unfold F2R. rewrite mult_IZR, <- bpow_nonneg_exp by exact Hn.
  rewrite bpow_add. ring.
Qed.

Lemma F2R_le (m1 m2 e : Z) : m1 <= m2 -> (F2R m1 e <= F2R m2 e)%R.
Proof.
  intros H. unfold F2R. apply IZR_le in H. pose proof (bpow_gt_0 e). nra.
Qed.

Lemma F2R_succ (m e : Z) : F2R (m + 1) e = (F2R m e + bpow e)%R.
Proof. unfold F2R. rewrite plus_IZR. ring. Qed.

(** *** Rounding error *)

Lemma Rabs_le_bounds (a b : R) : (Rabs a <= b)%R -> (- b <= a <= b)%R.
Proof. unfold Rabs. destruct (Rcase_abs a); lra. Qed.

Lemma Rabs_le_between (v x lo hi d : R) :
  (lo <= x <= hi)%R -> (v = lo \/ v = hi)%R -> (hi - lo <= d)%R ->
  (Rabs (v - x) <= d)%R.
Proof.
  intros Hx Hv Hd. apply Rabs_le. destruct Hv; subst; lra.
Qed.

(** A real [x] located by the mantissa [mx] at exponent [ex] rounds,
    at its canonical exponent [e1], to a double within [2^e1] of it;
    away from the subnormal range that is a relative error of [u]. *)
Lemma round_located (mx ex : Z) (lx : location) (x : R) :
  0 <= mx -> ex <= fexp Py.prec Py.emax (Zdigits2 mx + ex) ->
  (F2R mx ex <= x <= F2R (mx + 1) ex)%R ->
  (lx = loc_Exact -> x = F2R mx ex) ->
  let e1 := fexp Py.prec Py.emax (Zdigits2 mx + ex) in
  let r := binary_round_aux Py.prec Py.emax false mx ex lx in
  (r = S754_infinity false /\ (bpow 971 <= x)%R)
  \/ (nonneg_finite r
      /\ (Rabs (value r - x) <= bpow e1)%R
      /\ (e1 <> -1074 -> (Rabs (value r - x) <= u * x)%R)
      /\ (lx = loc_Exact -> e1 = ex -> value r = x)).
Proof.
  intros Hmx Hex Hx Hexact e1 r.
  destruct (binary_round_aux_spec false mx ex lx Hmx Hex)
    as (mr & m2 & e2 & Hmr & Hmr_exact & Hm2 & He12 & Hm2pos & Hnormal & Hr).
  fold e1 in Hmr, Hmr_exact, Hm2, He12, Hnormal. fold r in Hr.
  set (m1 := mx / 2 ^ (e1 - ex)) in *.
  assert (Hp : 0 < 2 ^ (e1 - ex)) by (apply Z.pow_pos_nonneg; lia).
  assert (Hm1 : 0 <= m1) by (apply Z.div_pos; lia).
  (* the truncated mantissa brackets the located one *)
  assert (Hdiv : m1 * 2 ^ (e1 - ex) <= mx /\ mx + 1 <= (m1 + 1) * 2 ^ (e1 - ex)).
  { unfold m1. pose proof (Z.div_mod mx (2 ^ (e1 - ex))) as Hdm.
    pose proof (Z.mod_pos_bound mx (2 ^ (e1 - ex)) Hp). nia. }
  assert (Hlo : (F2R m1 e1 <= x)%R).
  { replace e1 with (ex + (e1 - ex)) at 1 by lia. rewrite <- F2R_shift by lia.
    apply Rle_trans with (F2R mx ex); [apply F2R_le; lia | lra]. }
  assert (Hhi : (x <= F2R (m1 + 1) e1)%R).
  { replace e1 with (ex + (e1 - ex)) by lia. rewrite <- F2R_shift by lia.
    apply Rle_trans with (F2R (mx + 1) ex); [lra | apply F2R_le; lia]. }
  (* the value of the result *)
  assert (Hv : F2R m2 e2 = F2R mr e1).
  { rewrite <- Hm2. rewrite F2R_shift by lia. f_equal. lia. }
  assert (Hvr : (F2R mr e1 = F2R m1 e1 \/ F2R mr e1 = F2R (m1 + 1) e1)%R).
  { destruct Hmr as [->| ->]; auto. }
  assert (Herr : (Rabs (F2R mr e1 - x) <= bpow e1)%R).
  { apply (Rabs_le_between _ _ (F2R m1 e1) (F2R (m1 + 1) e1)); [lra | exact Hvr|].
    rewrite F2R_succ. lra. }
  assert (Hrel : 2 ^ 52 <= m1 -> (bpow e1 <= u * F2R m1 e1)%R).
  { intros H. unfold u, F2R. apply IZR_le in H. rewrite <- bpow_nonneg_exp in H by lia.
    pose proof (bpow_gt_0 e1). pose proof (bpow_gt_0 (-52)).
    assert (Hone : (bpow (-52) * bpow 52 = 1)%R).
    { rewrite <- bpow_add. reflexivity. }
    apply Rle_trans with (bpow (-52) * bpow 52 * bpow e1)%R; [rewrite Hone; lra|].
    rewrite !Rmult_assoc. apply Rmult_le_compat_l; [lra|].
    apply Rmult_le_compat_r; lra. }
  assert (Hu1 : (u <= 1)%R).
  { unfold u. change 1%R with (bpow 0). apply bpow_le. lia. }
  assert (Hx0 : (0 <= F2R m1 e1)%R).
  { unfold F2R. apply Rmult_le_pos; [apply IZR_le; lia | apply Rlt_le, bpow_gt_0]. }
  destruct m2 as [|p|p]; try lia.
  - (* zero *)
    right. rewrite Hr. cbn [nonneg_finite value].
    assert (Hz : F2R mr e1 = 0%R) by (rewrite <- Hv; unfold F2R; simpl; ring).
    rewrite Hz in Herr, Hvr.
    split; [exact I|]. split; [exact Herr|]. split.
    + intros Hne. destruct Hnormal as [Hn|]; [|contradiction].
      specialize (Hrel Hn). apply Rle_trans with (bpow e1); [exact Herr|].
      apply Rle_trans with (u * F2R m1 e1)%R; [exact Hrel|].
      apply Rmult_le_compat_l; [unfold u; apply Rlt_le, bpow_gt_0 | exact Hlo].
    + intros Hl He. rewrite (Hmr_exact Hl He) in Hz. unfold m1 in Hz.
      replace (e1 - ex) with 0 in Hz by lia. simpl in Hz. rewrite Z.div_1_r in Hz.
      rewrite (Hexact Hl). rewrite He in Hz. symmetry. exact Hz.
  - destruct (e2 <=? Py.emax - Py.prec) eqn:Ee2.
    + (* finite *)
      right. rewrite Hr. cbn [nonneg_finite value cond_Zopp].
      rewrite Hv. apply Z.leb_le in Ee2.
      split; [unfold e1 in *; rewrite fexp_eq in *; lia|].
      split; [exact Herr|]. split.
      * intros Hne. destruct Hnormal as [Hn|]; [|contradiction].
        specialize (Hrel Hn). apply Rle_trans with (bpow e1); [exact Herr|].
        apply Rle_trans with (u * F2R m1 e1)%R; [exact Hrel|].
        apply Rmult_le_compat_l; [unfold u; apply Rlt_le, bpow_gt_0 | exact Hlo].
      * intros Hl He. rewrite (Hmr_exact Hl He). unfold m1.
        replace (e1 - ex) with 0 by lia. simpl. rewrite Z.div_1_r.
        rewrite (Hexact Hl), He. reflexivity.
    + (* overflow *)
      left. split; [exact Hr|]. apply Z.leb_gt in Ee2.
      change (Py.emax - Py.prec) with 971 in Ee2.
      assert (Hbig : (bpow 972 <= F2R (Zpos p) e2)%R).
      { unfold F2R. apply Rle_trans with (1 * bpow e2)%R.
        - rewrite Rmult_1_l. apply bpow_le. lia.
        - apply Rmult_le_compat_r; [apply Rlt_le, bpow_gt_0 | apply IZR_le; lia]. }
      rewrite Hv in Hbig.
      assert (H972 : bpow 972 = (2 * bpow 971)%R).
      { replace 972 with (1 + 971) by lia. rewrite bpow_add. f_equal.
        unfold bpow. simpl. lra. }
      assert (Hle : (F2R mr e1 <= F2R m1 e1 + bpow e1)%R).
      { destruct Hvr as [-> | ->]; [pose proof (bpow_gt_0 e1); lra | rewrite F2R_succ; lra]. }
      destruct Hnormal as [Hn|He].
      * specialize (Hrel Hn).
        assert ((u * F2R m1 e1 <= F2R m1 e1)%R) by nra. lra.
      * exfalso. destruct (Z.le_gt_cases (2 ^ 52) m1) as [Hn|Hsmall].
        { specialize (Hrel Hn). assert ((u * F2R m1 e1 <= F2R m1 e1)%R) by nra.
          assert (Hx971 : (bpow 971 <= F2R m1 e1)%R) by lra.
          (* then the first exponent would be large *)
          assert (Hm1up : m1 < 2 ^ 53).
          { apply Zdigits2_small; try lia.
            unfold m1. rewrite Zdigits2_div_pow2 by lia.
            unfold e1 in *. rewrite fexp_eq in *. pose proof (Zdigits2_nonneg mx). lia. }
          assert (Hc : (F2R m1 e1 < bpow 971)%R).
          { unfold F2R. rewrite He. apply IZR_lt in Hm1up.
            rewrite <- bpow_nonneg_exp in Hm1up by lia.
            apply Rlt_le_trans with (bpow 53 * bpow (-1074))%R.
            - apply Rmult_lt_compat_r; [apply bpow_gt_0 | exact Hm1up].
            - rewrite <- bpow_add. apply bpow_le. lia. }
          lra. }
        { assert (Hc : (F2R m1 e1 + bpow e1 <= bpow 971)%R).
          { rewrite <- F2R_succ. unfold F2R. rewrite He.
            assert (Hs : m1 + 1 <= 2 ^ 52) by lia. apply IZR_le in Hs.
            rewrite <- bpow_nonneg_exp in Hs by lia.
            apply Rle_trans with (bpow 52 * bpow (-1074))%R.
            - apply Rmult_le_compat_r; [apply Rlt_le, bpow_gt_0 | exact Hs].
            - rewrite <- bpow_add. apply bpow_le. lia. }
          pose proof (bpow_gt_0 971). lra. }
Qed.

(** *** Alignment *)

Lemma iter_xO (m d : positive) : Zpos (Pos.iter xO m d) = Zpos m * 2 ^ Zpos d.
Proof.
  induction d as [|d IH] using Pos.peano_ind.
  - simpl. lia.
  - rewrite Pos.iter_succ, Pos2Z.inj_xO, IH, Pos2Z.inj_succ, Z.pow_succ_r by lia. lia.
Qed.

Lemma shl_align_spec (mx : positive) (ex ex' : Z) :
  let '(mz, ez) := shl_align mx ex ex' in
  ez = Z.min ex ex' /\ Zpos mz = Zpos mx * 2 ^ (ex - ez).
Proof.
  unfold shl_align. destruct (ex' - ex) as [|d|d] eqn:E.
  - split; [lia|]. rewrite Z.sub_diag. simpl. lia.
  - split; [lia|]. rewrite Z.sub_diag. simpl. lia.
  - split; [lia|]. rewrite iter_xO. f_equal. f_equal. lia.
Qed.

Lemma Zdigits2_mul_pow2 (m n : Z) :
  0 < m -> 0 <= n -> Zdigits2 (m * 2 ^ n) = Zdigits2 m + n.
Proof.
  intros Hm Hn. destruct (Zdigits2_bounds m Hm) as [Hlo Hhi].
  assert (Hp : 0 < 2 ^ n) by (apply Z.pow_pos_nonneg; lia).
  assert (Hd : 1 <= Zdigits2 m) by (destruct m; simpl; lia).
  apply Zdigits2_unique; [|nia].
  replace (Zdigits2 m + n - 1) with (Zdigits2 m - 1 + n) by lia.
  rewrite !Z.pow_add_r by lia. nia.
Qed.

Lemma F2R_nonneg (m e : Z) : 0 <= m -> (0 <= F2R m e)%R.
Proof.
  intros H. unfold F2R. apply Rmult_le_pos; [apply IZR_le; exact H | apply Rlt_le, bpow_gt_0].
Qed.

Lemma F2R_pos (m e : Z) : 0 < m -> (0 < F2R m e)%R.
Proof.
  intros H. unfold F2R. apply Rmult_lt_0_compat; [apply IZR_lt; exact H | apply bpow_gt_0].
Qed.

Lemma u_bounds : (0 < u <= 1 / 1000000)%R.
Proof.
  unfold u. split; [apply bpow_gt_0|].
  apply Rle_trans with (bpow (-20)); [apply bpow_le; lia|].
  unfold bpow. simpl. lra.
Qed.

Lemma eta_bounds : (0 < eta <= 1 / 1000000)%R.
Proof.
  unfold eta. split; [apply bpow_gt_0|].
  apply Rle_trans with (bpow (-20)); [apply bpow_le; lia|].
  unfold bpow. simpl. lra.
Qed.

(** Rounding a mantissa whose exponent is not below the least one is
    exact or has relative error at most [u]. *)
Lemma binary_round_error (m : positive) (e : Z) :
  -1074 <= e ->
  let r := binary_round Py.prec Py.emax false m e in
  r = S754_infinity false
  \/ (nonneg_finite r /\ (Rabs (value r - F2R (Zpos m) e) <= u * F2R (Zpos m) e)%R).
Proof.
  intros He r. unfold binary_round in r.
  pose proof (shl_align_spec m e (fexp Py.prec Py.emax (Zpos (digits2_pos m) + e))) as Hal.
  destruct (shl_align m e _) as [mz ez]. destruct Hal as [Hez Hmz].
  change (Zpos (digits2_pos m)) with (Zdigits2 (Zpos m)) in Hez.
  assert (Hdig : Zdigits2 (Zpos mz) + ez = Zdigits2 (Zpos m) + e).
  { rewrite Hmz, Zdigits2_mul_pow2 by lia. lia. }
  assert (Hval : F2R (Zpos mz) ez = F2R (Zpos m) e).
  { rewrite Hmz, F2R_shift by lia. f_equal. lia. }
  assert (Hpre : ez <= fexp Py.prec Py.emax (Zdigits2 (Zpos mz) + ez)).
  { rewrite Hdig. lia. }
  destruct (round_located (Zpos mz) ez loc_Exact (F2R (Zpos mz) ez))
    as [[Hinf _]|(Hfin & _ & Hrel & Hexact)]; try assumption; try lia.
  - split; [lra|]. rewrite F2R_succ. pose proof (bpow_gt_0 ez). lra.
  - reflexivity.
  - left. exact Hinf.
  - right. fold r in Hfin, Hrel, Hexact. split; [exact Hfin|].
    rewrite <- Hval. rewrite Hdig in Hrel, Hexact.
    destruct (Z.le_gt_cases (fexp Py.prec Py.emax (Zdigits2 (Zpos m) + e)) e) as [Hle|Hgt].
    + rewrite Hexact by (try reflexivity; lia).
      rewrite Rminus_diag, Rabs_R0.
      apply Rmult_le_pos; [apply Rlt_le, u_bounds | apply F2R_nonneg; lia].
    + apply Hrel. lia.
Qed.

(** *** Addition, multiplication and division of non-negative doubles *)

Lemma value_nonneg (x : Py.float) : nonneg_finite x -> (0 <= value x)%R.
Proof.
  destruct x as [[]|[]| |[] m e]; simpl; try contradiction; intros _; try lra.
  apply F2R_nonneg. lia.
Qed.

Lemma add_error (x y : Py.float) :
  nonneg_finite x -> nonneg_finite y ->
  (x + y)%float = S754_infinity false
  \/ (nonneg_finite (x + y)%float
      /\ (Rabs (value (x + y)%float - (value x + value y)) <= u * (value x + value y))%R).
Proof.
  intros Hx Hy.
  destruct x as [[]|[]| |[] mx ex], y as [[]|[]| |[] my ey]; simpl in Hx, Hy;
    try contradiction; unfold Py.add; cbn [SFadd].
  - right. split; [exact I|]. simpl. rewrite Rplus_0_l, Rminus_diag, Rabs_R0. lra.
  - right. split; [exact Hy|]. cbn [value]. rewrite Rplus_0_l, Rminus_diag, Rabs_R0.
    apply Rmult_le_pos; [apply Rlt_le, u_bounds | apply F2R_nonneg; simpl; lia].
  - right. split; [exact Hx|]. cbn [value]. rewrite Rplus_0_r, Rminus_diag, Rabs_R0.
    apply Rmult_le_pos; [apply Rlt_le, u_bounds | apply F2R_nonneg; simpl; lia].
  - cbn [cond_Zopp value].
    pose proof (shl_align_spec mx ex (Z.min ex ey)) as Hax.
    pose proof (shl_align_spec my ey (Z.min ex ey)) as Hay.
    destruct (shl_align mx ex (Z.min ex ey)) as [mx' ex'].
    destruct (shl_align my ey (Z.min ex ey)) as [my' ey'].
    destruct Hax as [Hex' Hmx'], Hay as [Hey' Hmy']. cbn [fst].
    change (Zpos mx' + Zpos my') with (Zpos (mx' + my')). cbn [binary_normalize].
    assert (Hsum : F2R (Zpos (mx' + my')) (Z.min ex ey)
                   = (F2R (Zpos mx) ex + F2R (Zpos my) ey)%R).
    { rewrite Pos2Z.inj_add. unfold F2R at 1. rewrite plus_IZR, Rmult_plus_distr_r.
      fold (F2R (Zpos mx') (Z.min ex ey)). fold (F2R (Zpos my') (Z.min ex ey)).
      rewrite Hmx', Hmy', !F2R_shift by lia. f_equal; f_equal; lia. }
    rewrite <- Hsum. apply binary_round_error. lia.
Qed.

(** The bound used when the result may be subnormal. *)
Lemma round_located_error (mx ex : Z) (lx : location) (x : R) :
  0 <= mx -> ex <= fexp Py.prec Py.emax (Zdigits2 mx + ex) ->
  (F2R mx ex <= x <= F2R (mx + 1) ex)%R ->
  (lx = loc_Exact -> x = F2R mx ex) ->
  let r := binary_round_aux Py.prec Py.emax false mx ex lx in
  (r = S754_infinity false /\ (bpow 971 <= x)%R)
  \/ (nonneg_finite r /\ (Rabs (value r - x) <= u * x + eta)%R).
Proof.
  intros Hmx Hex Hx Hexact r.
  assert (Hx0 : (0 <= x)%R).
  { apply Rle_trans with (F2R mx ex); [apply F2R_nonneg; exact Hmx | apply Hx]. }
  destruct (round_located mx ex lx x Hmx Hex Hx Hexact) as [H|(Hfin & Habs & Hrel & _)];
    [left; exact H|right].
  split; [exact Hfin|]. fold r in Habs, Hrel.
  pose proof u_bounds. pose proof eta_bounds.
  destruct (Z.eq_dec (fexp Py.prec Py.emax (Zdigits2 mx + ex)) (-1074)) as [He|Hne].
  - rewrite He in Habs. fold eta in Habs. nra.
  - specialize (Hrel Hne). lra.
Qed.

Lemma mul_100_error (q : Py.float) :
  nonneg_finite q ->
  ((q * #100)%float = S754_infinity false /\ (bpow 971 <= 100 * value q)%R)
  \/ (nonneg_finite (q * #100)%float
      /\ (Rabs (value (q * #100)%float - 100 * value q) <= u * (100 * value q) + eta)%R).
Proof.
  intros Hq. unfold Py.mul.
  let c := eval vm_compute in (#100)%float in change (#100)%float with c.
  destruct q as [[]|[]| |[] m e]; simpl in Hq; try contradiction; cbn [SFmul xorb].
  - right. split; [exact I|]. simpl. rewrite Rmult_0_r, Rminus_diag, Rabs_R0.
    pose proof eta_bounds. pose proof u_bounds. nra.
  - cbn [value cond_Zopp].
    assert (Hx : F2R (Zpos (m * 7036874417766400)) (e + -46) = (100 * F2R (Zpos m) e)%R).
    { unfold F2R. rewrite Pos2Z.inj_mul, mult_IZR, bpow_add.
      assert (H100 : (IZR 7036874417766400 * bpow (-46) = 100)%R).
      { unfold bpow. simpl. lra. }
      rewrite <- H100. ring. }
    rewrite <- Hx.
    apply round_located_error; try lia.
    + assert (Hd : 53 <= Zdigits2 (Zpos (m * 7036874417766400))).
      { destruct (Z.le_gt_cases 53 (Zdigits2 (Zpos (m * 7036874417766400)))) as [H|H];
          [exact H|exfalso].
        assert (Zpos (m * 7036874417766400) < 2 ^ 52) by (apply Zdigits2_small; lia).
        lia. }
      rewrite fexp_eq. lia.
    + split; [lra|]. rewrite F2R_succ. pose proof (bpow_gt_0 (e + -46)). lra.
    + reflexivity.
Qed.

Lemma new_location_exact (n k : Z) : new_location n k = loc_Exact -> k = 0.
Proof.
  unfold new_location, new_location_even, new_location_odd.
  destruct (Z.even n), (Z.eqb_spec k 0); try discriminate; auto.
Qed.

Lemma div_core_spec (m1 m2 : positive) (e1 e2 : Z) :
  let '(q, e', l) := SFdiv_core_binary Py.prec Py.emax (Zpos m1) e1 (Zpos m2) e2 in
  0 <= q
  /\ e' <= fexp Py.prec Py.emax (Zdigits2 q + e')
  /\ exists r s,
      0 <= s /\ e' + s = e1 - e2
      /\ Zpos m1 * 2 ^ s = q * Zpos m2 + r /\ 0 <= r < Zpos m2
      /\ (l = loc_Exact -> r = 0).
Proof.
  unfold SFdiv_core_binary.
  set (d1 := Zdigits2 (Zpos m1)). set (d2 := Zdigits2 (Zpos m2)).
  set (e' := Z.min (fexp Py.prec Py.emax (d1 + e1 - (d2 + e2))) (e1 - e2)).
  set (s := e1 - e2 - e').
  assert (Hs : 0 <= s) by (unfold s, e'; lia).
  set (m' := match s with Zpos _ => Z.shiftl (Zpos m1) s | 0 => Zpos m1 | Zneg _ => 0 end).
  assert (Hm' : m' = Zpos m1 * 2 ^ s).
  { unfold m'. destruct s as [|p|p] eqn:Es.
    - rewrite Z.pow_0_r, Z.mul_1_r. reflexivity.
    - apply Z.shiftl_mul_pow2. lia.
    - lia. }
  pose proof (Z_div_mod m' (Zpos m2) ltac:(lia)) as Hdm.
  destruct (Z.div_eucl m' (Zpos m2)) as [q r]. destruct Hdm as [Hdm Hr].
  assert (Hp : 0 < 2 ^ s) by (apply Z.pow_pos_nonneg; lia).
  assert (Hq : 0 <= q) by nia.
  split; [exact Hq|]. split.
  - (* the quotient has enough digits *)
    destruct (Zdigits2_bounds (Zpos m1)) as [Hlo1 _]; [lia|].
    destruct (Zdigits2_bounds (Zpos m2)) as [_ Hhi2]; [lia|].
    fold d1 in Hlo1. fold d2 in Hhi2.
    assert (Hd1 : 1 <= d1) by (unfold d1; simpl; lia).
    assert (Hd2 : 1 <= d2) by (unfold d2; simpl; lia).
    assert (Hdq : d1 + s - d2 <= Zdigits2 q).
    { pose proof (Zdigits2_nonneg q).
      destruct (Z.le_gt_cases (d1 + s - d2) 0) as [|Hpos]; [lia|].
      destruct (Z.le_gt_cases (d1 + s - d2) (Zdigits2 q)) as [|Hlt]; [assumption|exfalso].
      assert (Hqs : q < 2 ^ (d1 + s - d2 - 1)) by (apply Zdigits2_small; lia).
      assert (Hpow : 2 ^ (d1 - 1) * 2 ^ s = 2 ^ (d1 + s - d2 - 1) * 2 ^ d2).
      { rewrite <- !Z.pow_add_r by lia. f_equal. lia. }
      assert (Hp2 : 0 < 2 ^ d2) by (apply Z.pow_pos_nonneg; lia).
      assert (Hp3 : 0 < 2 ^ (d1 + s - d2 - 1)) by (apply Z.pow_pos_nonneg; lia).
      assert (q + 1 <= 2 ^ (d1 + s - d2 - 1)) by lia.
      assert ((q + 1) * Zpos m2 <= 2 ^ (d1 + s - d2 - 1) * Zpos m2)
        by (apply Z.mul_le_mono_nonneg_r; lia).
      assert (2 ^ (d1 + s - d2 - 1) * Zpos m2 < 2 ^ (d1 + s - d2 - 1) * 2 ^ d2)
        by (apply Z.mul_lt_mono_pos_l; lia).
      assert (2 ^ (d1 - 1) * 2 ^ s <= Zpos m1 * 2 ^ s)
        by (apply Z.mul_le_mono_nonneg_r; lia).
      lia. }
    unfold s in Hdq. unfold e' in *. rewrite !fexp_eq in *. lia.
  - exists r, s. repeat split; try lia.
    intros Hl. apply new_location_exact in Hl. exact Hl.
Qed.

Lemma div_error (x : Py.float) (my : positive) (ey : Z) :
  nonneg_finite x ->
  let y := S754_finite false my ey in
  ((x / y)%float = S754_infinity false /\ (bpow 971 <= value x / value y)%R)
  \/ (nonneg_finite (x / y)%float
      /\ (Rabs (value (x / y)%float - value x / value y)
          <= u * (value x / value y) + eta)%R).
Proof.
  intros Hx y. unfold y, Py.div.
  assert (Hy : (0 < F2R (Zpos my) ey)%R) by (apply F2R_pos; lia).
  destruct x as [[]|[]| |[] mx ex]; simpl in Hx; try contradiction; cbn [SFdiv xorb].
  - right. split; [exact I|]. cbn [value cond_Zopp]. unfold Rdiv.
    rewrite Rmult_0_l, Rminus_diag, Rabs_R0.
    pose proof eta_bounds. pose proof u_bounds. nra.
  - pose proof (div_core_spec mx my ex ey) as Hcore.
    destruct (SFdiv_core_binary Py.prec Py.emax (Zpos mx) ex (Zpos my) ey) as [[q e'] l].
    destruct Hcore as (Hq & Hpre & r & s & Hs & He' & Hdiv & Hr & Hl).
    cbn [value cond_Zopp].
    set (xy := (F2R (Zpos mx) ex / F2R (Zpos my) ey)%R).
    assert (Hp : 0 < 2 ^ s) by (apply Z.pow_pos_nonneg; lia).
    (* [xy] times the divisor, at the exponent of the quotient *)
    assert (Hxy : (xy * IZR (Zpos my) * bpow ey = IZR (Zpos mx * 2 ^ s) * bpow e' * bpow ey)%R).
    { unfold xy, F2R. rewrite mult_IZR, <- bpow_nonneg_exp by lia.
      replace ex with (s + e' + ey) by lia. rewrite !bpow_add.
      pose proof (bpow_gt_0 ey). pose proof (bpow_gt_0 e'). pose proof (bpow_gt_0 s).
      assert (0 < IZR (Zpos my))%R by (apply IZR_lt; lia).
      field. split; lra. }
    assert (Hmy : (0 < IZR (Zpos my) * bpow ey)%R) by exact Hy.
    assert (Hbe : (0 < bpow e')%R) by apply bpow_gt_0.
    assert (Hbey : (0 < bpow ey)%R) by apply bpow_gt_0.
    assert (Hmyp : (0 < IZR (Zpos my))%R) by (apply IZR_lt; lia).
    assert (Hxyq : (xy * IZR (Zpos my) = IZR (q * Zpos my + r) * bpow e')%R).
    { rewrite <- Hdiv. apply Rmult_eq_reg_r with (bpow ey); [|lra]. rewrite Hxy. ring. }
    rewrite plus_IZR, mult_IZR in Hxyq.
    assert (Hr0 : (0 <= IZR r)%R) by (apply IZR_le; lia).
    assert (Hr1 : (IZR r < IZR (Zpos my))%R) by (apply IZR_lt; lia).
    apply round_located_error; try assumption.
    + unfold F2R. rewrite plus_IZR. split.
      * apply Rmult_le_reg_r with (IZR (Zpos my)); [exact Hmyp|]. rewrite Hxyq. nra.
      * apply Rmult_le_reg_r with (IZR (Zpos my)); [exact Hmyp|]. rewrite Hxyq. nra.
    + intros Hexact. specialize (Hl Hexact). subst r. unfold F2R.
      apply Rmult_eq_reg_r with (IZR (Zpos my)); [|lra]. rewrite Hxyq. simpl. ring.
Qed.

(** *** Rounding to one decimal place *)

Lemma nearest_integer_error (m e : Z) :
  0 <= m ->
  0 <= Py.nearest_integer m e
  /\ (Rabs (IZR (Py.nearest_integer m e) - F2R m e) <= 1 / 2)%R.
Proof.
  intros Hm. unfold Py.nearest_integer. destruct e as [|p|p].
  - rewrite Z.pow_0_r, Z.mul_1_r. split; [exact Hm|].
    unfold F2R, bpow. simpl. rewrite Rmult_1_r, Rminus_diag, Rabs_R0. lra.
  - assert (Hp : 0 < 2 ^ Zpos p) by (apply Z.pow_pos_nonneg; lia).
    split; [nia|]. unfold F2R. rewrite mult_IZR, <- bpow_nonneg_exp by lia.
    rewrite Rminus_diag, Rabs_R0. lra.
  - set (d := 2 ^ Zpos p).
    assert (Hd : 0 < d) by (apply Z.pow_pos_nonneg; lia).
    pose proof (Z.div_mod m d ltac:(lia)) as Hdm.
    pose proof (Z.mod_pos_bound m d Hd) as Hr.
    assert (Hq : 0 <= m / d) by (apply Z.div_pos; lia).
    set (q := m / d) in *. set (r := m mod d) in *.
    assert (Hb : (bpow (Zneg p) * IZR d = 1)%R).
    { unfold d. rewrite <- bpow_nonneg_exp by lia. rewrite <- bpow_add.
      replace (Zneg p + Zpos p) with 0 by lia. reflexivity. }
    assert (Hval : F2R m (Zneg p) = (IZR q + IZR r * bpow (Zneg p))%R).
    { unfold F2R. rewrite Hdm at 1. rewrite plus_IZR, mult_IZR.
      replace ((IZR d * IZR q + IZR r) * bpow (Zneg p))%R
        with (IZR q * (bpow (Zneg p) * IZR d) + IZR r * bpow (Zneg p))%R by ring.
      rewrite Hb. ring. }
    assert (Hbp : (0 < bpow (Zneg p))%R) by apply bpow_gt_0.
    assert (HdR : (0 < IZR d)%R) by (apply IZR_lt; lia).
    assert (Hr0 : (0 <= IZR r)%R) by (apply IZR_le; lia).
    assert (HrR : (IZR r < IZR d)%R) by (apply IZR_lt; lia).
    (* the fraction [r / d] against one half *)
    assert (Hhalf : forall c, (2 * r ?= d) = c ->
              match c with
              | Lt => (IZR r * bpow (Zneg p) <= 1 / 2)%R
              | Eq => (IZR r * bpow (Zneg p) = 1 / 2)%R
              | Gt => (1 / 2 <= IZR r * bpow (Zneg p))%R
              end).
    { intros c Hc. destruct c.
      - apply Z.compare_eq in Hc. apply (f_equal IZR) in Hc. rewrite mult_IZR in Hc.
        apply Rmult_eq_reg_r with (IZR d); [|lra].
        rewrite Rmult_assoc, Hb. lra.
      - rewrite Z.compare_lt_iff in Hc. apply IZR_lt in Hc. rewrite mult_IZR in Hc.
        apply Rmult_le_reg_r with (IZR d); [lra|].
        rewrite Rmult_assoc, Hb. lra.
      - rewrite Z.compare_gt_iff in Hc. apply IZR_lt in Hc. rewrite mult_IZR in Hc.
        apply Rmult_le_reg_r with (IZR d); [lra|].
        rewrite Rmult_assoc, Hb. lra. }
    assert (Hfrac : (IZR r * bpow (Zneg p) < 1)%R).
    { apply Rmult_lt_reg_r with (IZR d); [lra|]. rewrite Rmult_assoc, Hb. lra. }
    assert (Hfrac0 : (0 <= IZR r * bpow (Zneg p))%R) by (apply Rmult_le_pos; lra).
    specialize (Hhalf _ eq_refl). rewrite Hval.
    destruct (2 * r ?= d).
    + destruct (Z.even q); (split; [lia|]); rewrite ?plus_IZR; apply Rabs_le; lra.
    + split; [lia|]. apply Rabs_le; lra.
    + split; [lia|]. rewrite plus_IZR. apply Rabs_le; lra.
Qed.

Lemma round_1_error (y : Py.float) :
  nonneg_finite y ->
  exists n,
    0 <= n /\ Py.round y 1 = Py.decimal false n 1
    /\ (Rabs (IZR n - 10 * value y) <= 1 / 2)%R.
Proof.
  intros Hy. destruct y as [[]|[]| |[] m e]; simpl in Hy; try contradiction.
  - exists 0. split; [lia|]. split; [reflexivity|]. simpl.
    rewrite Rmult_0_r, Rminus_diag, Rabs_R0. lra.
  - exists (Py.nearest_integer (Zpos (m * Py.pow10 1)) e).
    destruct (nearest_integer_error (Zpos (m * Py.pow10 1)) e) as [Hn Herr]; [lia|].
    split; [exact Hn|]. split; [reflexivity|].
    cbn [value cond_Zopp].
    replace (10 * F2R (Zpos m) e)%R with (F2R (Zpos (m * Py.pow10 1)) e); [exact Herr|].
    unfold F2R. change (Py.pow10 1) with 10%positive.
    rewrite Pos2Z.inj_mul, mult_IZR. ring.
Qed.

(** One component of the ratio: the quotient by the total, times 100,
    rounded to one decimal place, is within 0.51 tenths of the exact
    percentage. *)
Lemma percentage_error (a : Py.float) (mt : positive) (et : Z) :
  nonneg_finite a ->
  let t := S754_finite false mt et in
  (value a / value t <= 2)%R ->
  exists n,
    0 <= n
    /\ Py.round ((a / t) * #100)%float 1 = Py.decimal false n 1
    /\ (Rabs (IZR n - 1000 * (value a / value t)) <= 1 / 2 + 1 / 100)%R.
Proof.
  intros Ha t Hx2.
  assert (Ht : (0 < value t)%R) by (unfold t; cbn [value cond_Zopp]; apply F2R_pos; lia).
  pose proof (value_nonneg a Ha) as Ha0.
  set (x := (value a / value t)%R) in *.
  assert (Hx0 : (0 <= x)%R).
  { unfold x, Rdiv. apply Rmult_le_pos; [exact Ha0 | apply Rlt_le, Rinv_0_lt_compat, Ht]. }
  pose proof u_bounds as Hu. pose proof eta_bounds as Heta.
  assert (Hbig : (4 <= bpow 971)%R).
  { apply Rle_trans with (bpow 2); [unfold bpow; simpl; lra | apply bpow_le; lia]. }
  assert (Hbig2 : (1000 <= bpow 971)%R).
  { apply Rle_trans with (bpow 10); [unfold bpow; simpl; lra | apply bpow_le; lia]. }
  destruct (div_error a mt et Ha) as [[_ Hov]|[Hq Hqerr]].
  { exfalso. fold t in Hov. fold x in Hov. lra. }
  fold t in Hq, Hqerr. fold x in Hqerr.
  set (q := (a / t)%float) in *.
  pose proof (value_nonneg q Hq) as Hq0.
  apply Rabs_le_bounds in Hqerr.
  assert (Hux : (u * x <= 1 / 1000000 * 2)%R) by (apply Rmult_le_compat; lra).
  assert (Hq3 : (value q <= 3)%R) by lra.
  assert (Huq : (u * (100 * value q) <= 1 / 1000000 * 300)%R)
    by (apply Rmult_le_compat; lra).
  destruct (mul_100_error q Hq) as [[_ Hov]|[Hy Hyerr]].
  { exfalso. lra. }
  set (y := (q * #100)%float) in *.
  apply Rabs_le_bounds in Hyerr.
  destruct (round_1_error y Hy) as (n & Hn & Hround & Hnerr).
  exists n. split; [exact Hn|]. split; [exact Hround|].
  apply Rabs_le_bounds in Hnerr. apply Rabs_le. lra.
Qed.

(** ** NPK ratio *)

Lemma get_npk_ratio_unfold (r : SoilData.SoilReading) :
  let total := (SoilData.nitrogen r + SoilData.phosphorus r + SoilData.potassium r)%float in
  Py.call SoilData.get_npk_ratio r =
    if (total =? #0)%float
    then inr ((SoilData.Int 0, SoilData.Int 0, SoilData.Int 0), r)
    else inr ((SoilData.Float (Py.round ((SoilData.nitrogen r / total) * #100)%float 1),
               SoilData.Float (Py.round ((SoilData.phosphorus r / total) * #100)%float 1),
               SoilData.Float (Py.round ((SoilData.potassium r / total) * #100)%float 1)), r).
Proof.
  intros total. unfold Py.call, SoilData.get_npk_ratio, Py.truediv.
  run_method.
  fold total. destruct (total =? #0)%float; reflexivity.
Qed.

Lemma nonneg_nonneg_finite (x : Py.float) : Exact.nonneg x = true -> nonneg_finite x.
Proof.
  destruct x as [[]|[]| |[] m e]; simpl; try discriminate; intros H; try exact I.
  unfold bounded, canonical_mantissa in H.
  apply andb_prop in H. destruct H as [H _]. apply Z.eqb_eq in H.
  rewrite fexp_eq in H. lia.
Qed.

Lemma add_infinity (y : Py.float) :
  nonneg_finite y -> (S754_infinity false + y)%float = S754_infinity false.
Proof. destruct y as [[]|[]| |[] m e]; simpl; try contradiction; reflexivity. Qed.

(** The exact quotients by the rounded total add up to almost 1. *)
Lemma ratio_sum_bounds (a b c t1 t : R) :
  (0 <= a)%R -> (0 <= b)%R -> (0 <= c)%R -> (0 < t)%R ->
  (Rabs (t1 - (a + b)) <= u * (a + b))%R ->
  (Rabs (t - (t1 + c)) <= u * (t1 + c))%R ->
  (a / t <= 2 /\ b / t <= 2 /\ c / t <= 2
   /\ Rabs (1000 * (a / t) + 1000 * (b / t) + 1000 * (c / t) - 1000) <= 1 / 100)%R.
Proof.
  intros Ha Hb Hc Ht H1 H2.
  pose proof u_bounds as Hu.
  apply Rabs_le_bounds in H1. apply Rabs_le_bounds in H2.
  assert (Hu1 : (u * (a + b) <= 1 / 1000000 * (a + b))%R)
    by (apply Rmult_le_compat_r; lra).
  assert (Ht1 : (0 <= t1)%R) by lra.
  assert (Hu2 : (u * (t1 + c) <= 1 / 1000000 * (t1 + c))%R)
    by (apply Rmult_le_compat_r; lra).
  assert (Hu3 : (0 <= u * (a + b))%R) by (apply Rmult_le_pos; lra).
  assert (Hu4 : (0 <= u * (t1 + c))%R) by (apply Rmult_le_pos; lra).
  set (s := (a + b + c)%R).
  assert (Hlo : ((1 - 3 / 1000000) * s <= t)%R) by (unfold s; lra).
  assert (Hhi : (t <= (1 + 3 / 1000000) * s)%R) by (unfold s; lra).
  assert (Hti : (0 < / t)%R) by (apply Rinv_0_lt_compat, Ht).
  assert (Hdiv : forall z, (0 <= z)%R -> (z <= s)%R -> (z / t <= 2)%R).
  { intros z Hz Hzs. apply Rmult_le_reg_r with t; [exact Ht|].
    unfold Rdiv. rewrite Rmult_assoc, Rinv_l by lra. lra. }
  split; [apply Hdiv; unfold s; lra|]. split; [apply Hdiv; unfold s; lra|].
  split; [apply Hdiv; unfold s; lra|].
  replace (1000 * (a / t) + 1000 * (b / t) + 1000 * (c / t) - 1000)%R
    with (1000 * ((s - t) / t))%R by (unfold s; field; lra).
  assert (Hst : (- (1 / 100000) <= (s - t) / t <= 1 / 100000)%R).
  { split.
    - apply Rmult_le_reg_r with t; [exact Ht|].
      unfold Rdiv. rewrite Rmult_assoc, Rinv_l by lra. lra.
    - apply Rmult_le_reg_r with t; [exact Ht|].
      unfold Rdiv. rewrite Rmult_assoc, Rinv_l by lra. lra. }
  apply Rabs_le. lra.
Qed.

(** C7, as stated, fails: when the three nutrient values are so large
    that their sum overflows, the total is [+inf] (hence positive),
    every component of the ratio is 0.0, and their sum 0.0 is not
    within 0.1 of 100.0. *)
Lemma npk_ratio_overflow :
  (SoilData.nitrogen Samples.huge_soil + SoilData.phosphorus Samples.huge_soil
   + SoilData.potassium Samples.huge_soil >? #0)%float = true
  /\ Py.call SoilData.get_npk_ratio Samples.huge_soil
     = inr ((SoilData.Float (S754_zero false), SoilData.Float (S754_zero false),
             SoilData.Float (S754_zero false)), Samples.huge_soil)
  /\ (Py.abs (S754_zero false + S754_zero false + S754_zero false - #100)
      <=? Py.of_ratio false 1 10)%float = false.
Proof. vm_compute. repeat split; reflexivity. Qed.

Lemma npk_ratio_zero (r : SoilData.SoilReading) :
  (SoilData.nitrogen r =? #0)%float = true ->
  (SoilData.phosphorus r =? #0)%float = true ->
  (SoilData.potassium r =? #0)%float = true ->
  Py.call SoilData.get_npk_ratio r
  = inr ((SoilData.Int 0, SoilData.Int 0, SoilData.Int 0), r).
Proof.
  intros Hn Hp Hk. rewrite get_npk_ratio_unfold.
  destruct (SoilData.nitrogen r) as [[]|[]| |[] ? ?]; try discriminate Hn;
    destruct (SoilData.phosphorus r) as [[]|[]| |[] ? ?]; try discriminate Hp;
    destruct (SoilData.potassium r) as [[]|[]| |[] ? ?]; try discriminate Hk;
    reflexivity.
Qed.

Lemma npk_ratio_sum (r : SoilData.SoilReading) :
  let total := (SoilData.nitrogen r + SoilData.phosphorus r + SoilData.potassium r)%float in
  Exact.nonneg (SoilData.nitrogen r) = true ->
  Exact.nonneg (SoilData.phosphorus r) = true ->
  Exact.nonneg (SoilData.potassium r) = true ->
  Py.is_finite total = true ->
  (total >? #0)%float = true ->
  exists n p k : Z,
    Py.call SoilData.get_npk_ratio r
    = inr ((SoilData.Float (Py.decimal false n 1), SoilData.Float (Py.decimal false p 1),
            SoilData.Float (Py.decimal false k 1)), r)
    /\ 0 <= n /\ 0 <= p /\ 0 <= k
    /\ 999 <= n + p + k <= 1001.
Proof.
  intros total Hn Hp Hk Hfin Hpos.
  apply nonneg_nonneg_finite in Hn, Hp, Hk.
  rewrite get_npk_ratio_unfold. fold total.
  (* the total is finite, positive and close to the exact sum *)
  destruct (add_error _ _ Hn Hp) as [Hinf|[Ht1 Herr1]].
  { exfalso. unfold total in Hfin. rewrite Hinf, (add_infinity _ Hk) in Hfin. discriminate. }
  destruct (add_error _ _ Ht1 Hk) as [Hinf|[Ht Herr]].
  { exfalso. unfold total in Hfin. rewrite Hinf in Hfin. discriminate. }
  fold total in Ht, Herr.
  destruct total as [[]|[]| |[] mt et] eqn:Etotal; simpl in Ht; try contradiction;
    try discriminate Hpos.
  change ((S754_finite false mt et =? #0)%float) with false. cbv iota.
  assert (Htpos : (0 < value (S754_finite false mt et))%R).
  { cbn [value cond_Zopp]. apply F2R_pos. lia. }
  destruct (ratio_sum_bounds _ _ _ _ _ (value_nonneg _ Hn) (value_nonneg _ Hp)
              (value_nonneg _ Hk) Htpos Herr1 Herr) as (Hxn & Hxp & Hxk & Hsum).
  destruct (percentage_error _ mt et Hn Hxn) as (n & Hn0 & -> & Hnerr).
  destruct (percentage_error _ mt et Hp Hxp) as (p & Hp0 & -> & Hperr).
  destruct (percentage_error _ mt et Hk Hxk) as (k & Hk0 & -> & Hkerr).
  exists n, p, k. split; [reflexivity|]. repeat (split; [assumption|]).
  apply Rabs_le_bounds in Hnerr, Hperr, Hkerr, Hsum.
  assert (Hs : (998 < IZR (n + p + k) < 1002)%R) by (rewrite !plus_IZR; lra).
  destruct Hs as [Hs1 Hs2]. apply lt_IZR in Hs1, Hs2. lia.
Qed.

(** C7 (amended): when the nutrient values are all zero,
    [get_npk_ratio] returns [(0, 0, 0)], and it never raises, so it
    never divides by zero.  When they are finite and non-negative and
    their float sum is finite and positive, the three components are
    the doubles nearest to [n/10], [p/10] and [k/10] for integers with
    [999 <= n + p + k <= 1001]: the one-decimal percentages sum to
    100.0 within 0.1. *)
Theorem npk_ratio_spec :
  (forall r,
      (SoilData.nitrogen r =? #0)%float = true ->
      (SoilData.phosphorus r =? #0)%float = true ->
      (SoilData.potassium r =? #0)%float = true ->
      Py.call SoilData.get_npk_ratio r
      = inr ((SoilData.Int 0, SoilData.Int 0, SoilData.Int 0), r))
  /\ (forall r, exists ratio, Py.call SoilData.get_npk_ratio r = inr (ratio, r))
  /\ (forall r,
      Exact.nonneg (SoilData.nitrogen r) = true ->
      Exact.nonneg (SoilData.phosphorus r) = true ->
      Exact.nonneg (SoilData.potassium r) = true ->
      Py.is_finite
        (SoilData.nitrogen r + SoilData.phosphorus r + SoilData.potassium r)%float = true ->
      (SoilData.nitrogen r + SoilData.phosphorus r + SoilData.potassium r >? #0)%float = true ->
      exists n p k : Z,
        Py.call SoilData.get_npk_ratio r
        = inr ((SoilData.Float (Py.decimal false n 1),
                SoilData.Float (Py.decimal false p 1),
                SoilData.Float (Py.decimal false k 1)), r)
        /\ 0 <= n /\ 0 <= p /\ 0 <= k
        /\ 999 <= n + p + k <= 1001).
Proof.
  split; [exact npk_ratio_zero|]. split; [|exact npk_ratio_sum].
  intros r. rewrite get_npk_ratio_unfold.
  destruct (_ =? _)%float; eexists; reflexivity.
Qed.

Lemma npk_ratio_spec_witness :
  Py.call SoilData.get_npk_ratio Samples.barren_soil
    = inr ((SoilData.Int 0, SoilData.Int 0, SoilData.Int 0), Samples.barren_soil)
  /\ exists n p k : Z,
      Py.call SoilData.get_npk_ratio Samples.soil
      = inr ((SoilData.Float (Py.decimal false n 1),
              SoilData.Float (Py.decimal false p 1),
              SoilData.Float (Py.decimal false k 1)), Samples.soil)
      /\ 0 <= n /\ 0 <= p /\ 0 <= k
      /\ 999 <= n + p + k <= 1001.
Proof.
  destruct npk_ratio_spec as (Hzero & _ & Hsum). split.
  - apply (Hzero Samples.barren_soil); reflexivity.
  - apply (Hsum Samples.soil); reflexivity.
Defined.

(** Added in double arithmetic, the three components returned for the
    sample reading (33.3 each) give 99.89999999999999, which is more
    than the double 0.1 away from 100.0: the tolerance of C7 holds for
    the one-decimal values, not for their float sum. *)
Lemma npk_ratio_float_sum_off :
  Py.call SoilData.get_npk_ratio Samples.soil
  = inr ((SoilData.Float (Py.decimal false 333 1), SoilData.Float (Py.decimal false 333 1),
          SoilData.Float (Py.decimal false 333 1)), Samples.soil)
  /\ (Py.abs (Py.decimal false 333 1 + Py.decimal false 333 1 + Py.decimal false 333 1 - #100)
      <=? Py.of_ratio false 1 10)%float = false.
Proof. split; vm_compute; reflexivity. Qed.

(** NaN compares neither below nor above any bound, so every validator
    of a [Float] column lets it through. *)
Lemma nan_accepted :
  (forall key r,
      Py.call (SoilData.setattr key S754_nan) r = inr (tt, SoilData.store key S754_nan r))
  /\ (forall key r,
      Py.call (PlantData.setattr key S754_nan) r = inr (tt, PlantData.store key S754_nan r)).
Proof. split; intros key r; destruct key; reflexivity. Qed.

(** * Further properties *)

(** ** Soil score and deficiencies *)

Lemma total_penalty_range (config : Settings.Config) (r : SoilData.SoilReading) :
  0 <= Bands.total_penalty config r <= 100
  /\ (Bands.total_penalty config r = 0 <-> forall b, Bands.violates config r b = false)
  /\ (Bands.total_penalty config r = 100 <-> forall b, Bands.violates config r b = true).
Proof.
  unfold Bands.total_penalty, Bands.all, fold_right, Bands.penalty.
  destruct (Bands.violates config r Bands.b_ph) eqn:E1,
           (Bands.violates config r Bands.b_moisture) eqn:E2,
           (Bands.violates config r Bands.b_temperature) eqn:E3,
           (Bands.violates config r Bands.b_nitrogen) eqn:E4,
           (Bands.violates config r Bands.b_phosphorus) eqn:E5,
           (Bands.violates config r Bands.b_potassium) eqn:E6,
           (Bands.violates config r Bands.b_salinity) eqn:E7;
    (split; [lia|]); split; split;
    try (intros H; exfalso; lia);
    try (intros _; intros b; destruct b; assumption);
    intros H;
    try (rewrite (H Bands.b_ph) in E1; discriminate);
    try (rewrite (H Bands.b_moisture) in E2; discriminate);
    try (rewrite (H Bands.b_temperature) in E3; discriminate);
    try (rewrite (H Bands.b_nitrogen) in E4; discriminate);
    try (rewrite (H Bands.b_phosphorus) in E5; discriminate);
    try (rewrite (H Bands.b_potassium) in E6; discriminate);
    try (rewrite (H Bands.b_salinity) in E7; discriminate);
    try reflexivity.
Qed.

(** X1: The penalties add up to at most 100, so the floor [max(0, score)]
    never changes the score: it is 100 less the penalties, lies between
    0 and 100, is 100 exactly when no band is violated and 0 exactly
    when all seven are. *)
Theorem soil_score_exact (config : Settings.Config) (r : SoilData.SoilReading) :
  exists score,
    Py.call (SoilData.get_soil_quality_score config) r = inr (score, r)
    /\ score = 100 - Bands.total_penalty config r
    /\ 0 <= score <= 100
    /\ (score = 100 <-> forall b, Bands.violates config r b = false)
    /\ (score = 0 <-> forall b, Bands.violates config r b = true).
Proof.
  destruct (total_penalty_range config r) as (Hrange & Hnone & Hall).
  exists (100 - Bands.total_penalty config r).
  rewrite soil_score_total_penalty.
  split; [f_equal; f_equal; lia|]. split; [reflexivity|]. split; [lia|]. split.
  - rewrite <- Hnone. lia.
  - rewrite <- Hall. lia.
Qed.

(** X2: [is_nutrient_deficient] lists, in the order nitrogen, phosphorus,
    potassium and without repetition, exactly the nutrients below their
    minimum; each listed nutrient costs 15 points of soil score, so the
    score is at most [100 - 15 * len(deficiencies)], with equality
    exactly when pH, moisture, temperature and salinity are in band. *)
Theorem deficiencies_bound_score (config : Settings.Config) (r : SoilData.SoilReading) :
  exists deficiencies score,
    Py.call (SoilData.is_nutrient_deficient config) r = inr (deficiencies, r)
    /\ Py.call (SoilData.get_soil_quality_score config) r = inr (score, r)
    /\ deficiencies
       = ((if Bands.violates config r Bands.b_nitrogen then ["nitrogen"] else [])
          ++ (if Bands.violates config r Bands.b_phosphorus then ["phosphorus"] else [])
          ++ (if Bands.violates config r Bands.b_potassium then ["potassium"] else []))%list
    /\ NoDup deficiencies
    /\ score <= 100 - 15 * Z.of_nat (List.length deficiencies)
    /\ (score = 100 - 15 * Z.of_nat (List.length deficiencies)
        <-> Bands.violates config r Bands.b_ph = false
            /\ Bands.violates config r Bands.b_moisture = false
            /\ Bands.violates config r Bands.b_temperature = false
            /\ Bands.violates config r Bands.b_salinity = false).
Proof.
  do 2 eexists. rewrite soil_score_total_penalty.
  split; [reflexivity|]. split; [reflexivity|].
  unfold Bands.total_penalty, Bands.all, fold_right, Bands.penalty.
  change (SoilData.nitrogen r <? Settings.NITROGEN_MIN config)%float
    with (Bands.violates config r Bands.b_nitrogen).
  change (SoilData.phosphorus r <? Settings.PHOSPHORUS_MIN config)%float
    with (Bands.violates config r Bands.b_phosphorus).
  change (SoilData.potassium r <? Settings.POTASSIUM_MIN config)%float
    with (Bands.violates config r Bands.b_potassium).
  destruct (Bands.violates config r Bands.b_ph),
           (Bands.violates config r Bands.b_moisture),
           (Bands.violates config r Bands.b_temperature),
           (Bands.violates config r Bands.b_nitrogen),
           (Bands.violates config r Bands.b_phosphorus),
           (Bands.violates config r Bands.b_potassium),
           (Bands.violates config r Bands.b_salinity);
    (split; [reflexivity|]);
    (split; [repeat constructor; simpl; intuition discriminate|]);
    cbn [app List.length Z.of_nat]; (split; [lia|]);
    split; intros H; try (exfalso; lia); try (repeat split; reflexivity);
    try (destruct H as (? & ? & ? & ?); discriminate); try lia.
Qed.

(** ** NaN readings *)

Lemma lt_nan_r (x : Py.float) : Py.lt x S754_nan = false.
Proof. destruct x; reflexivity. Qed.

Lemma is_nan_eq (x : Py.float) : Py.is_nan x = true -> x = S754_nan.
Proof. destruct x; simpl; congruence. Qed.

(** X3: A band whose measured value is NaN is never violated: a soil
    reading whose seven scored values are all NaN gets the full score
    100 and an empty deficiency list, whatever the thresholds. *)
Theorem nan_soil_scores_100 (config : Settings.Config) (r : SoilData.SoilReading) :
  Py.is_nan (SoilData.ph_level r) = true ->
  Py.is_nan (SoilData.moisture_percent r) = true ->
  Py.is_nan (SoilData.temperature_celsius r) = true ->
  Py.is_nan (SoilData.nitrogen r) = true ->
  Py.is_nan (SoilData.phosphorus r) = true ->
  Py.is_nan (SoilData.potassium r) = true ->
  Py.is_nan (SoilData.salinity_level r) = true ->
  Py.call (SoilData.get_soil_quality_score config) r = inr (100, r)
  /\ Py.call (SoilData.is_nutrient_deficient config) r = inr ([], r).
Proof.
  intros Hph Hm Ht Hn Hp Hk Hs.
  apply is_nan_eq in Hph, Hm, Ht, Hn, Hp, Hk, Hs.
  unfold Py.call, SoilData.get_soil_quality_score, SoilData.is_nutrient_deficient.
  run_method. rewrite Hph, Hm, Ht, Hn, Hp, Hk, Hs.
  unfold Py.gt. change (SFltb ?x S754_nan) with (Py.lt x S754_nan).
  rewrite !lt_nan_r. split; reflexivity.
Qed.

Lemma nan_soil_scores_100_witness :
  Py.call (SoilData.get_soil_quality_score Settings.defaults) Samples.nan_soil
    = inr (100, Samples.nan_soil)
  /\ Py.call (SoilData.is_nutrient_deficient Settings.defaults) Samples.nan_soil
    = inr ([], Samples.nan_soil).
Proof. apply (nan_soil_scores_100 Settings.defaults Samples.nan_soil); reflexivity. Defined.

Lemma sub_nan_r (x : Py.float) : (x - S754_nan)%float = S754_nan.
Proof. destruct x; reflexivity. Qed.

Lemma mul_nan_l (y : Py.float) : (S754_nan * y)%float = S754_nan.
Proof. reflexivity. Qed.

Lemma sub_nan_l (y : Py.float) : (S754_nan - y)%float = S754_nan.
Proof. reflexivity. Qed.

Lemma add_nan_l (y : Py.float) : (S754_nan + y)%float = S754_nan.
Proof. reflexivity. Qed.

(** The clamp turns a NaN intermediate score into 100.0. *)
Lemma clamp_nan : Py.max (#0)%float (Py.min (#100)%float S754_nan) = (#100)%float.
Proof. reflexivity. Qed.

(** X4: a reading one of whose stress scores is NaN, which their
    validator accepts, gets the health score 100.0, whatever its
    symptoms, pests, chlorophyll index and growth rate. *)
Theorem nan_stress_scores_100 (r : PlantData.PlantReading) :
  Py.is_nan (PlantData.water_stress_level r)
  || Py.is_nan (PlantData.heat_stress_score r)
  || Py.is_nan (PlantData.drought_stress_score r) = true ->
  Py.call PlantData.calculate_health_score r = inr ((#100)%float, r).
Proof.
  intros H. unfold Py.call, PlantData.calculate_health_score. run_method.
  f_equal. f_equal.
  assert (Hbase :
    ((#100 - PlantData.water_stress_level r * #5 - PlantData.heat_stress_score r * #3
      - PlantData.drought_stress_score r * #3)%float = S754_nan)).
  { apply orb_true_iff in H. destruct H as [H|H]; [apply orb_true_iff in H; destruct H as [H|H]|];
      apply is_nan_eq in H; rewrite H; rewrite ?mul_nan_l, ?sub_nan_r, ?sub_nan_l; reflexivity. }
  rewrite Hbase.
  repeat match goal with |- context [if ?c then _ else _] => destruct c end;
    rewrite ?sub_nan_l, ?add_nan_l; apply clamp_nan.
Qed.

Lemma nan_stress_scores_100_witness :
  Py.call (PlantData.setattr PlantData.c_water_stress_level S754_nan) Samples.stressed_plant
    = inr (tt, Samples.nan_plant)
  /\ Py.call PlantData.calculate_health_score Samples.nan_plant
     = inr ((#100)%float, Samples.nan_plant).
Proof.
  split; [reflexivity|].
  apply (nan_stress_scores_100 Samples.nan_plant). reflexivity.
Defined.

(** ** Validity is kept by assignment *)

Lemma accepted_in_range (lo hi : Z) (v : Py.float) :
  Py.is_nan (#lo)%float = false -> Py.is_nan (#hi)%float = false ->
  Py.is_nan v = false ->
  (v <? #lo)%float || (v >? #hi)%float = false ->
  (v >=? #lo)%float && (v <=? #hi)%float = true.
Proof.
  intros Hlo Hhi Hv H. apply orb_false_iff in H. destruct H as [H1 H2].
  rewrite (lt_negb_ge v (#lo)%float Hv Hlo) in H1.
  change (v >? #hi)%float with (#hi <? v)%float in H2.
  rewrite (lt_negb_ge (#hi)%float v Hhi Hv) in H2.
  apply negb_false_iff in H1, H2. rewrite H1. exact H2.
Qed.

(** X5: A successful assignment of a number to a [Float] column, or of any
    integer to an [Integer] column, of a plant reading whose bounded
    fields are in range leaves them in range.  (NaN is excluded: it is
    accepted but lies in no range.) *)
Theorem plant_assignment_keeps_valid :
  (forall key v r r',
      Bounds.plant_valid r = true -> Py.is_nan v = false ->
      Py.call (PlantData.setattr key v) r = inr (tt, r') ->
      Bounds.plant_valid r' = true)
  /\ (forall key v r r',
      Bounds.plant_valid r = true ->
      Py.call (PlantData.setattr_int key v) r = inr (tt, r') ->
      Bounds.plant_valid r' = true).
Proof.
  split.
  - intros key v r r' Hvalid Hnan Hset.
    assert (Hr' : r' = PlantData.store key v r /\
                  Bounds.float_in_range (Bounds.plant key) v = true).
    { destruct (Bounds.plant key) as [[lo hi]|] eqn:Hb.
      - destruct (plant_setattr_bounded key lo hi Hb) as (subject & unit_suffix & Heq).
        rewrite Heq in Hset.
        destruct ((v <? #lo)%float || (v >? #hi)%float) eqn:E; [discriminate|].
        injection Hset as <-. split; [reflexivity|]. simpl.
        apply accepted_in_range; try assumption; destruct key; inversion Hb; reflexivity.
      - split; [|reflexivity]. destruct key; try discriminate Hb;
          unfold Py.call, PlantData.setattr in Hset; simpl in Hset; congruence. }
    destruct Hr' as [-> Hin].
    destruct r. unfold Bounds.plant_valid in *. cbn [forallb Bounds.plant_columns
      Bounds.plant_int_columns PlantData.read PlantData.read_int] in *.
    destruct key; cbn [PlantData.store PlantData.height_cm PlantData.stem_diameter_mm
      PlantData.leaf_chlorophyll_index PlantData.water_stress_level
      PlantData.heat_stress_score PlantData.drought_stress_score
      PlantData.growth_rate_cm_per_week PlantData.health_score PlantData.leaf_count
      PlantData.leaf_color_r PlantData.leaf_color_g PlantData.leaf_color_b] in *;
      rewrite ?andb_true_iff in *; rewrite ?Hin; intuition.
  - intros key v r r' Hvalid Hset.
    assert (Hr' : r' = PlantData.store_int key v r /\
                  Bounds.int_in_range (Bounds.plant_int key) v = true).
    { destruct (Bounds.plant_int key) as [[lo hi]|] eqn:Hb.
      - destruct (plant_setattr_int_bounded key lo hi Hb) as (subject & unit_suffix & Heq).
        rewrite Heq in Hset.
        destruct ((v <? lo) || (v >? hi)) eqn:E; [discriminate|].
        injection Hset as <-. split; [reflexivity|]. simpl.
        apply orb_false_iff in E. destruct E as [E1 E2].
        rewrite Z.gtb_ltb in E2. apply Z.ltb_ge in E1, E2.
        apply andb_true_iff; split; apply Z.leb_le; assumption.
      - split; [|reflexivity]. destruct key; try discriminate Hb;
          unfold Py.call, PlantData.setattr_int in Hset; simpl in Hset; congruence. }
    destruct Hr' as [-> Hin].
    destruct r. unfold Bounds.plant_valid in *. cbn [forallb Bounds.plant_columns
      Bounds.plant_int_columns PlantData.read PlantData.read_int] in *.
    destruct key; cbn [PlantData.store_int PlantData.height_cm PlantData.stem_diameter_mm
      PlantData.leaf_chlorophyll_index PlantData.water_stress_level
      PlantData.heat_stress_score PlantData.drought_stress_score
      PlantData.growth_rate_cm_per_week PlantData.health_score PlantData.leaf_count
      PlantData.leaf_color_r PlantData.leaf_color_g PlantData.leaf_color_b] in *;
      rewrite ?andb_true_iff in *; rewrite ?Hin; intuition.
Qed.

Lemma plant_assignment_keeps_valid_witness :
  Bounds.plant_valid (PlantData.store PlantData.c_height_cm (#120)%float Samples.stressed_plant)
    = true
  /\ Bounds.plant_valid (PlantData.store_int PlantData.c_leaf_color_g 200 Samples.stressed_plant)
    = true.
Proof.
  destruct plant_assignment_keeps_valid as [Hfloat Hint]. split.
  - apply (Hfloat PlantData.c_height_cm (#120)%float Samples.stressed_plant); reflexivity.
  - apply (Hint PlantData.c_leaf_color_g 200 Samples.stressed_plant); reflexivity.
Defined.

(** X6: a successful assignment of a number to a [Float] column of a
    soil reading whose pH, moisture and temperature are in range leaves
    them in range. *)
Theorem soil_assignment_keeps_valid
    (key : SoilData.column) (v : Py.float) (r r' : SoilData.SoilReading) :
  Bounds.soil_valid r = true -> Py.is_nan v = false ->
  Py.call (SoilData.setattr key v) r = inr (tt, r') ->
  Bounds.soil_valid r' = true.
Proof.
  intros Hvalid Hnan Hset.
  assert (Hr' : r' = SoilData.store key v r /\
                Bounds.float_in_range (Bounds.soil key) v = true).
  { destruct (Bounds.soil key) as [[lo hi]|] eqn:Hb.
    - destruct (soil_setattr_bounded key lo hi Hb) as (subject & unit_suffix & Heq).
      rewrite Heq in Hset.
      destruct ((v <? #lo)%float || (v >? #hi)%float) eqn:E; [discriminate|].
      injection Hset as <-. split; [reflexivity|]. simpl.
      apply accepted_in_range; try assumption; destruct key; inversion Hb; reflexivity.
    - split; [|reflexivity]. destruct key; try discriminate Hb;
        unfold Py.call, SoilData.setattr in Hset; simpl in Hset; congruence. }
  destruct Hr' as [-> Hin].
  destruct r. unfold Bounds.soil_valid in *.
  cbn [forallb Bounds.soil_columns SoilData.read] in *.
  destruct key; cbn [SoilData.store SoilData.nitrogen SoilData.phosphorus SoilData.potassium
    SoilData.ph_level SoilData.moisture_percent SoilData.temperature_celsius
    SoilData.electrical_conductivity SoilData.organic_matter_percent
    SoilData.salinity_level] in *;
    rewrite ?andb_true_iff in *; rewrite ?Hin; intuition.
Qed.

Lemma soil_assignment_keeps_valid_witness :
  Bounds.soil_valid (SoilData.store SoilData.c_ph_level (#14)%float Samples.soil) = true.
Proof.
  apply (soil_assignment_keeps_valid SoilData.c_ph_level (#14)%float Samples.soil);
    reflexivity.
Defined.

(** X7: NaN is accepted by the validator of every bounded [Float] column
    and stored, after which the reading is no longer within its
    bounds. *)
Theorem nan_breaks_validity :
  (forall key lo hi r,
      Bounds.soil key = Some (lo, hi) ->
      Py.call (SoilData.setattr key S754_nan) r = inr (tt, SoilData.store key S754_nan r)
      /\ Bounds.soil_valid (SoilData.store key S754_nan r) = false)
  /\ (forall key lo hi r,
      Bounds.plant key = Some (lo, hi) ->
      Py.call (PlantData.setattr key S754_nan) r = inr (tt, PlantData.store key S754_nan r)
      /\ Bounds.plant_valid (PlantData.store key S754_nan r) = false).
Proof.
  split; intros key lo hi r Hb.
  - split; [destruct key; reflexivity|].
    destruct r. unfold Bounds.soil_valid.
    cbn [forallb Bounds.soil_columns SoilData.read].
    destruct key; try discriminate Hb;
      cbn [SoilData.store SoilData.nitrogen SoilData.phosphorus SoilData.potassium
        SoilData.ph_level SoilData.moisture_percent SoilData.temperature_celsius
        SoilData.electrical_conductivity SoilData.organic_matter_percent
        SoilData.salinity_level Bounds.soil Bounds.float_in_range];
      change (S754_nan >=? _)%float with false; cbn [andb];
      rewrite ?andb_false_r; reflexivity.
  - split; [destruct key; reflexivity|].
    destruct r. unfold Bounds.plant_valid.
    cbn [forallb Bounds.plant_columns Bounds.plant_int_columns PlantData.read
      PlantData.read_int].
    destruct key; try discriminate Hb;
      cbn [PlantData.store PlantData.height_cm PlantData.stem_diameter_mm
        PlantData.leaf_chlorophyll_index PlantData.water_stress_level
        PlantData.heat_stress_score PlantData.drought_stress_score
        PlantData.growth_rate_cm_per_week PlantData.health_score PlantData.leaf_count
        PlantData.leaf_color_r PlantData.leaf_color_g PlantData.leaf_color_b
        Bounds.plant Bounds.float_in_range];
      change (S754_nan >=? _)%float with false; cbn [andb];
      rewrite ?andb_false_r; reflexivity.
Qed.

Lemma nan_breaks_validity_witness :
  Bounds.soil_valid Samples.soil = true
  /\ Bounds.soil_valid (SoilData.store SoilData.c_ph_level S754_nan Samples.soil) = false
  /\ Bounds.plant_valid Samples.stressed_plant = true
  /\ Bounds.plant_valid Samples.nan_plant = false.
Proof.
  destruct nan_breaks_validity as [Hsoil Hplant].
  split; [reflexivity|]. split.
  - apply (Hsoil SoilData.c_ph_level 0 14 Samples.soil). reflexivity.
  - split; [reflexivity|].
    apply (Hplant PlantData.c_water_stress_level 0 10 Samples.stressed_plant). reflexivity.
Defined.

(** ** Health score and [is_healthy] *)

Lemma SFcompare_le_trans (x y z : Py.float) :
  SFleb x y = true -> SFleb y z = true -> SFleb x z = true.
Proof.
  unfold SFleb.
  destruct x as [sx|sx| |sx mx ex], y as [sy|sy| |sy my ey], z as [sz|sz| |sz mz ez];
    cbn [SFcompare]; try discriminate; try reflexivity;
    try (destruct sx; discriminate); try (destruct sy; discriminate);
    try (destruct sz; discriminate);
    try (destruct sx; reflexivity); try (destruct sz; reflexivity);
    try (destruct sx, sy; (discriminate || reflexivity));
    try (destruct sy, sz; (discriminate || reflexivity));
    try (destruct sx, sz; (discriminate || reflexivity));
    try (destruct sx, sy, sz; (discriminate || reflexivity)).
  all: destruct sx, sy, sz; try discriminate; try reflexivity.
  all: change (Pos.compare_cont Eq) with Pos.compare;
    intros H1 H2;
    destruct (Z.compare_spec ex ey), (Z.compare_spec ey ez), (Z.compare_spec ex ez);
    try discriminate; try lia; try reflexivity;
    destruct (Pos.compare_spec mx my), (Pos.compare_spec my mz), (Pos.compare_spec mx mz);
    try discriminate; try lia; try reflexivity.
Qed.

(** X8: Lowering the threshold never turns a healthy reading unhealthy. *)
Theorem is_healthy_antitone (r : PlantData.PlantReading) (t t' : Py.float) :
  (t' <=? t)%float = true ->
  Py.call (PlantData.is_healthy t) r = inr (true, r) ->
  Py.call (PlantData.is_healthy t') r = inr (true, r).
Proof.
  intros Hle H. unfold Py.call, PlantData.is_healthy in *. run_method.
  assert (Ht : (PlantData.health_score r >=? t)%float = true).
  { cbn [runStateT bind ret get Monad_stateT MonadState_stateT Monad_either] in H.
    congruence. }
  unfold Py.ge, Py.le in *.
  rewrite (SFcompare_le_trans t' t (PlantData.health_score r) Hle Ht). reflexivity.
Qed.

Lemma is_healthy_antitone_witness :
  Py.call (PlantData.is_healthy (#50)%float) Samples.stressed_plant
  = inr (true, Samples.stressed_plant).
Proof.
  apply (is_healthy_antitone Samples.stressed_plant (#70)%float (#50)%float); reflexivity.
Defined.

Lemma le_not_lt (x y : Py.float) : Py.le x y = true -> Py.lt y x = false.
Proof.
  intros H. destruct (Py.lt y x) eqn:E; [|reflexivity].
  apply lt_not_ge in E. unfold Py.ge, Py.le in *. congruence.
Qed.

(** The score does not depend on the stored [health_score]. *)
Lemma calculate_health_score_ignores_stored (v : Py.float) (r : PlantData.PlantReading) :
  forall score,
    Py.call PlantData.calculate_health_score r = inr (score, r) ->
    Py.call PlantData.calculate_health_score (PlantData.store PlantData.c_health_score v r)
    = inr (score, PlantData.store PlantData.c_health_score v r).
Proof.
  intros score H. destruct r.
  unfold Py.call, PlantData.calculate_health_score in *.
  cbn [runStateT bind ret get Monad_stateT MonadState_stateT Monad_either] in *.
  cbn [PlantData.store PlantData.water_stress_level PlantData.heat_stress_score
    PlantData.drought_stress_score PlantData.disease_symptoms PlantData.pest_presence
    PlantData.nutrient_deficiency_signs PlantData.leaf_chlorophyll_index
    PlantData.growth_rate_cm_per_week] in *.
  congruence.
Qed.

Lemma calculate_health_score_in_range (r : PlantData.PlantReading) :
  exists score,
    Py.call PlantData.calculate_health_score r = inr (score, r)
    /\ (#0 <=? score)%float = true /\ (score <=? #100)%float = true.
Proof. eexists. split; [reflexivity | apply clamp_range]. Qed.

Lemma plant_store_read_health (v : Py.float) (r : PlantData.PlantReading) :
  PlantData.health_score (PlantData.store PlantData.c_health_score v r) = v.
Proof. destruct r; reflexivity. Qed.

(** X9: The computed score can always be written back: the validator of
    [health_score] never rejects it.  After [self.health_score =
    self.calculate_health_score()], [is_healthy(t)] reports whether the
    computed score reaches [t], and computing the score again returns
    the same score. *)
Theorem persisted_score (r : PlantData.PlantReading) (t : Py.float) :
  exists score,
    Py.call PlantData.calculate_health_score r = inr (score, r)
    /\ Py.call (s <- PlantData.calculate_health_score ;;
                PlantData.setattr PlantData.c_health_score s) r
       = inr (tt, PlantData.store PlantData.c_health_score score r)
    /\ Py.call (s <- PlantData.calculate_health_score ;;
                PlantData.setattr PlantData.c_health_score s ;;
                PlantData.is_healthy t) r
       = inr ((score >=? t)%float, PlantData.store PlantData.c_health_score score r)
    /\ Py.call (s <- PlantData.calculate_health_score ;;
                PlantData.setattr PlantData.c_health_score s ;;
                PlantData.calculate_health_score) r
       = inr (score, PlantData.store PlantData.c_health_score score r).
Proof.
  destruct (calculate_health_score_in_range r) as (score & Hscore & Hlo & Hhi).
  exists score. split; [exact Hscore|].
  assert (Hset : Py.call (PlantData.setattr PlantData.c_health_score score) r
                 = inr (tt, PlantData.store PlantData.c_health_score score r)).
  { destruct (plant_setattr_bounded PlantData.c_health_score 0 100 eq_refl)
      as (subject & unit_suffix & Heq).
    rewrite Heq. change (score >? #100)%float with (#100 <? score)%float.
    rewrite (le_not_lt _ _ Hlo), (le_not_lt _ _ Hhi). reflexivity. }
  split; [|split].
  - rewrite call_bind, Hscore. exact Hset.
  - rewrite call_bind, Hscore, call_bind, Hset.
    unfold Py.call, PlantData.is_healthy. run_method.
    rewrite plant_store_read_health. reflexivity.
  - rewrite call_bind, Hscore, call_bind, Hset.
    apply calculate_health_score_ignores_stored, Hscore.
Qed.

Lemma persisted_score_stressed :
  Py.call (s <- PlantData.calculate_health_score ;;
           PlantData.setattr PlantData.c_health_score s ;;
           PlantData.is_healthy PlantData.is_healthy_default_threshold) Samples.stressed_plant
  = inr (false, PlantData.store PlantData.c_health_score (#0)%float Samples.stressed_plant).
Proof. reflexivity. Qed.

(** ** Leaf colour *)

Lemma format_02x_channel (n : Z) :
  0 <= n <= 255 ->
  exists c1 c2,
    Py.format_02x n = String c1 (String c2 EmptyString)
    /\ Colour.parse_channel (String c1 (String c2 EmptyString)) = Some n.
Proof.
  intros Hn.
  set (check := fun n =>
    match Py.format_02x n with
    | String c1 (String c2 EmptyString) =>
        match Colour.parse_channel (String c1 (String c2 EmptyString)) with
        | Some m => m =? n
        | None => false
        end
    | _ => false
    end).
  assert (Hall : forallb check (map Z.of_nat (seq 0 256)) = true) by (vm_compute; reflexivity).
  rewrite forallb_forall in Hall.
  assert (Hin : In n (map Z.of_nat (seq 0 256))).
  { rewrite <- (Z2Nat.id n) by lia. apply in_map, in_seq. lia. }
  specialize (Hall n Hin). unfold check in Hall.
  destruct (Py.format_02x n) as [|c1 [|c2 [|]]]; try discriminate.
  exists c1, c2. split; [reflexivity|].
  destruct (Colour.parse_channel _) as [m|]; [|discriminate].
  apply Z.eqb_eq in Hall. congruence.
Qed.

(** The string [get_leaf_color_hex] builds from channels between 0
    and 255 has seven characters, starts with [#] and parses back. *)
Lemma colour_string_parses (r : PlantData.PlantReading) :
  0 <= PlantData.leaf_color_r r <= 255 ->
  0 <= PlantData.leaf_color_g r <= 255 ->
  0 <= PlantData.leaf_color_b r <= 255 ->
  exists s,
    Py.call PlantData.get_leaf_color_hex r = inr (s, r)
    /\ String.length s = 7%nat
    /\ String.get 0 s = Some "#"%char
    /\ Colour.parse s
       = Some (PlantData.leaf_color_r r, PlantData.leaf_color_g r, PlantData.leaf_color_b r).
Proof.
  intros Hr Hg Hb.
  destruct (format_02x_channel _ Hr) as (r1 & r2 & Er & Pr).
  destruct (format_02x_channel _ Hg) as (g1 & g2 & Eg & Pg).
  destruct (format_02x_channel _ Hb) as (b1 & b2 & Eb & Pb).
  eexists. unfold Py.call, PlantData.get_leaf_color_hex. run_method.
  rewrite Er, Eg, Eb. split; [reflexivity|]. cbn [append].
  split; [reflexivity|]. split; [reflexivity|].
  unfold Colour.parse. rewrite Pr, Pg, Pb. reflexivity.
Qed.

(** X10: For channels between 0 and 255, as the validator leaves them,
    [get_leaf_color_hex] returns [#] followed by six characters from
    which the three channels can be read back, so two readings with
    the same string have the same colour. *)
Theorem leaf_color_hex_round_trip (r1 r2 : PlantData.PlantReading) (s : string) :
  0 <= PlantData.leaf_color_r r1 <= 255 ->
  0 <= PlantData.leaf_color_g r1 <= 255 ->
  0 <= PlantData.leaf_color_b r1 <= 255 ->
  0 <= PlantData.leaf_color_r r2 <= 255 ->
  0 <= PlantData.leaf_color_g r2 <= 255 ->
  0 <= PlantData.leaf_color_b r2 <= 255 ->
  Py.call PlantData.get_leaf_color_hex r1 = inr (s, r1) ->
  Py.call PlantData.get_leaf_color_hex r2 = inr (s, r2) ->
  String.length s = 7%nat
  /\ String.get 0 s = Some "#"%char
  /\ Colour.parse s
     = Some (PlantData.leaf_color_r r1, PlantData.leaf_color_g r1, PlantData.leaf_color_b r1)
  /\ PlantData.leaf_color_r r1 = PlantData.leaf_color_r r2
  /\ PlantData.leaf_color_g r1 = PlantData.leaf_color_g r2
  /\ PlantData.leaf_color_b r1 = PlantData.leaf_color_b r2.
Proof.
  intros Hr1 Hg1 Hb1 Hr2 Hg2 Hb2 H1 H2.
  destruct (colour_string_parses r1 Hr1 Hg1 Hb1) as (s1 & E1 & Hlen & Hhash & P1).
  destruct (colour_string_parses r2 Hr2 Hg2 Hb2) as (s2 & E2 & _ & _ & P2).
  assert (s1 = s) by congruence. assert (s2 = s) by congruence. subst s1 s2.
  repeat (split; [assumption|]).
  rewrite P1 in P2. injection P2 as -> -> ->. repeat split.
Qed.

Lemma leaf_color_hex_round_trip_witness :
  String.length "#ff0080" = 7%nat
  /\ String.get 0 "#ff0080" = Some "#"%char
  /\ Colour.parse "#ff0080" = Some (255, 0, 128).
Proof.
  destruct (leaf_color_hex_round_trip Samples.magenta_plant Samples.magenta_plant "#ff0080")
    as (Hlen & Hhash & Hparse & _); try (simpl; lia); try reflexivity.
  repeat split; assumption.
Defined.

Example leaf_color_hex_magenta :
  Py.call PlantData.get_leaf_color_hex Samples.magenta_plant
  = inr ("#ff0080", Samples.magenta_plant).
Proof. reflexivity. Qed.

(** ** Instances and rows agree *)

(** On a canonical double the exact order against an integer that is
    itself a canonical double [M * 2^E] is the order [SFcompare]
    computes from the exponents and the mantissas. *)
Lemma compare_int_float_canonical (n : Z) (M : positive) (E : Z) (x : Py.float) :
  valid_binary Py.prec Py.emax x = true ->
  -1074 <= E <= 0 -> 2 ^ 52 <= Zpos M < 2 ^ 53 -> Zpos M = n * 2 ^ (- E) ->
  option_map CompOpp (Py.compare_int_float n x) = SFcompare x (S754_finite false M E).
Proof.
  intros Hvalid HE HM Hn.
  assert (Hnpos : 0 < n).
  { assert (0 < 2 ^ (- E)) by (apply Z.pow_pos_nonneg; lia). nia. }
  destruct x as [s|s| |s m e]; cbn [Py.compare_int_float SFcompare option_map].
  - destruct s; replace (n ?= 0) with Gt by (symmetry; apply Z.compare_gt_iff; lia);
      reflexivity.
  - destruct s; reflexivity.
  - reflexivity.
  - unfold valid_binary, bounded, canonical_mantissa in Hvalid.
    apply andb_prop in Hvalid. destruct Hvalid as [Hcanon _].
    apply Z.eqb_eq in Hcanon. rewrite fexp_eq in Hcanon.
    change (Zpos (digits2_pos m)) with (Zdigits2 (Zpos m)) in Hcanon.
    destruct (Zdigits2_bounds (Zpos m) ltac:(lia)) as [Hlo Hhi].
    set (d := Zdigits2 (Zpos m)) in *.
    destruct s; cbn [cond_Zopp Z.opp].
    + (* a negative double is below every positive integer *)
      assert (H1 : (n ?= Zneg m * 2 ^ e) = Gt).
      { apply Z.compare_gt_iff.
        assert (0 <= 2 ^ e) by (apply Z.pow_nonneg; lia). nia. }
      assert (H2 : (n * 2 ^ (- e) ?= Zneg m) = Gt).
      { apply Z.compare_gt_iff.
        assert (0 <= 2 ^ (- e)) by (apply Z.pow_nonneg; lia). nia. }
      rewrite H1, H2. destruct (0 <=? e); reflexivity.
    + destruct (Z.compare_spec e E) as [Heq|Hlt|Hgt].
      * (* same exponent: the mantissas decide *)
        subst e. rewrite Pos.compare_cont_spec. cbn [Pos.switch_Eq].
        destruct (0 <=? E) eqn:E0.
        -- apply Z.leb_le in E0. assert (E = 0) by lia. subst E.
           change (2 ^ (- 0)) with 1 in Hn. change (2 ^ 0) with 1.
           rewrite !Z.mul_1_r in *. rewrite <- Hn.
           change (Zpos M ?= Zpos m) with (M ?= m)%positive.
           rewrite (Pos.compare_antisym M m). destruct (M ?= m)%positive; reflexivity.
        -- rewrite <- Hn.
           change (Zpos M ?= Zpos m) with (M ?= m)%positive.
           rewrite (Pos.compare_antisym M m). destruct (M ?= m)%positive; reflexivity.
      * (* a smaller exponent: at most 53 digits, so below [M * 2^E] *)
        assert (Hd : d <= 53) by lia.
        assert (Hm : Zpos m < 2 ^ 53).
        { apply Z.lt_le_trans with (2 ^ d); [exact Hhi|].
          apply Z.pow_le_mono_r; lia. }
        assert (E0 : (0 <=? e) = false) by (apply Z.leb_gt; lia). rewrite E0.
        assert (Hcmp : (n * 2 ^ (- e) ?= Zpos m) = Gt).
        { apply Z.compare_gt_iff.
          replace (- e) with (- E + (E - e)) by lia.
          rewrite Z.pow_add_r by lia. rewrite Z.mul_assoc, <- Hn.
          assert (2 <= 2 ^ (E - e)).
          { change 2 with (2 ^ 1) at 1. apply Z.pow_le_mono_r; lia. }
          nia. }
        rewrite Hcmp. reflexivity.
      * (* a larger exponent: exactly 53 digits, so above [M * 2^E] *)
        assert (Hd : d = 53) by lia.
        assert (Hm : 2 ^ 52 <= Zpos m) by (rewrite Hd in Hlo; exact Hlo).
        assert (Hscale : 2 <= 2 ^ (e - E)).
        { change 2 with (2 ^ 1) at 1. apply Z.pow_le_mono_r; lia. }
        destruct (0 <=? e) eqn:E0.
        -- apply Z.leb_le in E0.
           assert (Hcmp : (n ?= Zpos m * 2 ^ e) = Lt).
           { apply Z.compare_lt_iff.
             assert (Hpos : 0 < 2 ^ (- E)) by (apply Z.pow_pos_nonneg; lia).
             apply Z.mul_lt_mono_pos_r with (2 ^ (- E)); [exact Hpos|].
             rewrite <- Hn, <- Z.mul_assoc, <- Z.pow_add_r by lia.
             replace (e + - E) with (e - E) by lia. nia. }
           rewrite Hcmp. reflexivity.
        -- apply Z.leb_gt in E0.
           assert (Hcmp : (n * 2 ^ (- e) ?= Zpos m) = Lt).
           { apply Z.compare_lt_iff.
             assert (Hpos : 0 < 2 ^ (e - E)) by (apply Z.pow_pos_nonneg; lia).
             apply Z.mul_lt_mono_pos_r with (2 ^ (e - E)); [exact Hpos|].
             rewrite <- Z.mul_assoc, <- Z.pow_add_r by lia.
             replace (- e + (e - E)) with (- E) by lia. rewrite <- Hn. nia. }
           rewrite Hcmp. reflexivity.
Qed.

(** The bounds the plant validators test against. *)
Lemma compare_int_float_bound (n : Z) (x : Py.float) :
  In n [10; 100; 255; 1000] ->
  valid_binary Py.prec Py.emax x = true ->
  option_map CompOpp (Py.compare_int_float n x) = SFcompare x (#n)%float.
Proof.
  intros Hn Hvalid. simpl in Hn.
  destruct Hn as [<-|[<-|[<-|[<-|[]]]]];
    match goal with
    | |- _ = SFcompare x ?y =>
        let y' := eval vm_compute in y in change y with y'
    end;
    apply compare_int_float_canonical; try exact Hvalid; try (vm_compute; intuition congruence);
    reflexivity.
Qed.

Lemma compare_int_float_zero (x : Py.float) :
  option_map CompOpp (Py.compare_int_float 0 x) = SFcompare x (#0)%float.
Proof.
  change (#0)%float with (S754_zero false).
  destruct x as [s|s| |s m e]; cbn [Py.compare_int_float SFcompare option_map];
    try reflexivity; try (destruct s; reflexivity).
  rewrite Z.mul_0_l.
  destruct (0 <=? e) eqn:E0.
  - apply Z.leb_le in E0.
    assert (Hpos : 0 < 2 ^ e) by (apply Z.pow_pos_nonneg; lia).
    destruct s; cbn [cond_Zopp Z.opp].
    + replace (0 ?= Zneg m * 2 ^ e) with Gt; [reflexivity|].
      symmetry. apply Z.compare_gt_iff. nia.
    + replace (0 ?= Zpos m * 2 ^ e) with Lt; [reflexivity|].
      symmetry. apply Z.compare_lt_iff. nia.
  - destruct s; reflexivity.
Qed.

(** On a canonical double the tests of the plant validators come out
    on an instance as they do on a row. *)
Lemma instance_tests_agree (lo hi : Z) (x : Py.float) :
  lo = 0 -> In hi [10; 100; 255; 1000] ->
  valid_binary Py.prec Py.emax x = true ->
  Py.lt_int (Py.VFloat x) lo = inr (x <? #lo)%float
  /\ Py.gt_int (Py.VFloat x) hi = inr (x >? #hi)%float.
Proof.
  intros -> Hhi Hvalid. cbn [Py.lt_int Py.gt_int]. split; f_equal.
  - unfold Py.lt, SFltb. rewrite <- compare_int_float_zero.
    destruct (Py.compare_int_float 0 x) as [[]|]; reflexivity.
  - unfold Py.gt, SFltb. rewrite (SFcompare_antisym x (#hi)%float).
    rewrite <- (compare_int_float_bound hi x Hhi Hvalid).
    destruct (Py.compare_int_float hi x) as [[]|]; reflexivity.
Qed.

(** Assigning a canonical double to a [Float] attribute of an instance
    is rejected with the error, or accepted with the value, with which
    the assignment to the column of a row is. *)
Lemma instance_setattr_agrees
    (key : PlantData.column) (x : Py.float)
    (self : Instance.PlantReading) (r : PlantData.PlantReading) :
  valid_binary Py.prec Py.emax x = true ->
  match Py.call (PlantData.setattr key x) r with
  | inl e => Py.call (Instance.setattr (PlantData.name key) (Py.VFloat x)) self = inl e
  | inr (_, r') =>
      r' = PlantData.store key x r
      /\ Py.call (Instance.setattr (PlantData.name key) (Py.VFloat x)) self
         = inr (tt, Instance.store (PlantData.name key) (Py.VFloat x) self)
  end.
Proof.
  intros Hvalid.
  destruct key; cbn [PlantData.name];
    unfold Py.call, PlantData.setattr, PlantData.validates, Instance.setattr,
      Instance.validates;
    cbn [String.eqb Ascii.eqb Bool.eqb orb];
    unfold PlantData.validate_height, PlantData.validate_stress_scores,
      PlantData.validate_health_score, Instance.validate_height,
      Instance.validate_stress_scores, Instance.validate_health_score,
      Instance.below_or_above;
    try (split; reflexivity);
    match goal with
    | |- context [Py.gt_int _ ?hi] =>
        destruct (instance_tests_agree 0 hi x eq_refl ltac:(simpl; auto) Hvalid) as [-> ->]
    end;
    unfold Py.lift; run_method;
    destruct (x <? #0)%float; cbn [orb]; try reflexivity;
    match goal with |- context [(x >? ?b)%float] => destruct (x >? b)%float end;
    try reflexivity; split; reflexivity.
Qed.

(** The same for an [int] assigned to an [Integer] attribute. *)
Lemma instance_setattr_int_agrees
    (key : PlantData.int_column) (n : Z)
    (self : Instance.PlantReading) (r : PlantData.PlantReading) :
  match Py.call (PlantData.setattr_int key n) r with
  | inl e => Py.call (Instance.setattr (PlantData.int_name key) (Py.VInt n)) self = inl e
  | inr (_, r') =>
      r' = PlantData.store_int key n r
      /\ Py.call (Instance.setattr (PlantData.int_name key) (Py.VInt n)) self
         = inr (tt, Instance.store (PlantData.int_name key) (Py.VInt n) self)
  end.
Proof.
  destruct key; cbn [PlantData.int_name];
    unfold Py.call, PlantData.setattr_int, PlantData.validates_int, Instance.setattr,
      Instance.validates;
    cbn [String.eqb Ascii.eqb Bool.eqb orb];
    unfold PlantData.validate_rgb, Instance.validate_rgb, Instance.below_or_above, Py.lift;
    cbn [Py.lt_int Py.gt_int]; run_method;
    try (split; reflexivity);
    destruct (n <? 0); cbn [orb]; try reflexivity;
    destruct (n >? 255); try reflexivity; split; reflexivity.
Qed.

(** On an instance that holds the colour and the score of a row, the
    two methods return what they return on the row. *)
Lemma instance_methods_agree
    (self : Instance.PlantReading) (r : PlantData.PlantReading) (threshold : Py.float) :
  self "leaf_color_r" = Py.VInt (PlantData.leaf_color_r r) ->
  self "leaf_color_g" = Py.VInt (PlantData.leaf_color_g r) ->
  self "leaf_color_b" = Py.VInt (PlantData.leaf_color_b r) ->
  self "health_score" = Py.VFloat (PlantData.health_score r) ->
  (forall s, Py.call PlantData.get_leaf_color_hex r = inr (s, r) ->
             Py.call Instance.get_leaf_color_hex self = inr (s, self))
  /\ (forall healthy, Py.call (PlantData.is_healthy threshold) r = inr (healthy, r) ->
                      Py.call (Instance.is_healthy threshold) self = inr (healthy, self)).
Proof.
  intros Hr Hg Hb Hh. split.
  - intros s H. unfold Py.call, PlantData.get_leaf_color_hex in H. run_method.
    injection H as <-.
    unfold Py.call, Instance.get_leaf_color_hex. run_method.
    rewrite Hr, Hg, Hb. reflexivity.
  - intros healthy H. unfold Py.call, PlantData.is_healthy in H. run_method.
    injection H as <-.
    unfold Py.call, Instance.is_healthy. run_method. rewrite Hh. reflexivity.
Qed.

(** ** Colours on an instance *)






(** ** Settings *)

Lemma split_nonempty (sep : ascii) (s : string) : Py.split sep s <> [].
Proof.
  destruct s as [|c rest]; simpl; [discriminate|].
  destruct (Ascii.eqb c sep); [discriminate|].
  destruct (Py.split sep rest); discriminate.
Qed.

(** [split] cuts at every separator and loses nothing: there is one
    more piece than there are separators (so never no piece at all),
    no piece contains the separator, and joining the pieces with the
    separator gives the string back. *)
Lemma split_join (sep : ascii) (s : string) :
  List.length (Py.split sep s) = S (Py.count sep s)
  /\ Forall (fun piece => Py.count sep piece = 0%nat) (Py.split sep s)
  /\ Py.join (String sep EmptyString) (Py.split sep s) = s.
Proof.
  induction s as [|c rest (IHlen & IHfree & IHjoin)]; cbn [Py.split Py.count].
  - repeat split. constructor; [reflexivity | constructor].
  - pose proof (split_nonempty sep rest) as Hne.
    destruct (Ascii.eqb c sep) eqn:E.
    + apply Ascii.eqb_eq in E. subst c. split; [simpl; lia|]. split.
      * constructor; [reflexivity | exact IHfree].
      * unfold Py.join in *. cbn [String.concat].
        destruct (Py.split sep rest) as [|piece pieces]; [congruence|].
        rewrite IHjoin. reflexivity.
    + destruct (Py.split sep rest) as [|piece pieces]; [congruence|].
      split; [simpl in *; lia|]. split.
      * inversion IHfree; subst. constructor; [|assumption].
        cbn [Py.count]. rewrite E. assumption.
      * unfold Py.join in *. cbn [String.concat] in *.
        destruct pieces; cbn [append]; rewrite <- IHjoin; reflexivity.
Qed.

(** X12: With [ALERT_RECIPIENTS] unset the list of recipients is [['']],
    one empty address, not the empty list; set or not, the list is
    never empty, and it has one entry more than the variable has
    commas. *)
Theorem alert_recipients_never_empty (env : Settings.environ) :
  Settings.ALERT_RECIPIENTS env <> []
  /\ (env "ALERT_RECIPIENTS" = None -> Settings.ALERT_RECIPIENTS env = [""])
  /\ (forall s, env "ALERT_RECIPIENTS" = Some s ->
      List.length (Settings.ALERT_RECIPIENTS env) = S (Py.count "," s)
      /\ Py.join "," (Settings.ALERT_RECIPIENTS env) = s).
Proof.
  unfold Settings.ALERT_RECIPIENTS, Settings.getenv.
  destruct (env "ALERT_RECIPIENTS") as [s|]; split; try apply split_nonempty; split;
    try discriminate; try reflexivity.
  intros s' [= <-]. destruct (split_join "," s) as (Hlen & _ & Hjoin). auto.
Qed.

Lemma alert_recipients_never_empty_witness :
  Settings.ALERT_RECIPIENTS (fun _ => None) = [""]
  /\ Settings.ALERT_RECIPIENTS
       (fun name => if String.eqb name "ALERT_RECIPIENTS" then Some "a@x.org,b@x.org" else None)
     = ["a@x.org"; "b@x.org"].
Proof.
  split.
  - apply (alert_recipients_never_empty (fun _ => None)). reflexivity.
  - reflexivity.
Defined.

Lemma float_setting_unset
    (float_of_str : string -> Py.exn + Py.float) (env : Settings.environ)
    (name : string) (default : Py.float) :
  env name = None -> Settings.float_setting float_of_str env name default = inr default.
Proof. intros H. unfold Settings.float_setting, Settings.getenv. rewrite H. reflexivity. Qed.

Lemma float_setting_success
    (float_of_str : string -> Py.exn + Py.float) (env : Settings.environ)
    (name : string) (default : Py.float) :
  (exists x, Settings.float_setting float_of_str env name default = inr x)
  <-> (forall s, env name = Some s -> exists x, float_of_str s = inr x).
Proof.
  unfold Settings.float_setting, Settings.getenv.
  destruct (env name) as [s|]; split.
  - intros H s' [= <-]. exact H.
  - intros H. apply (H s eq_refl).
  - intros _ s' [=].
  - intros _. eexists; reflexivity.
Qed.

Lemma int_setting_success
    (env : Settings.environ) (int_of_str : string -> Py.exn + Z) (name : string) (default : Z) :
  (exists n, Settings.int_setting env int_of_str name default = inr n)
  <-> (forall s, env name = Some s -> exists n, int_of_str s = inr n).
Proof.
  unfold Settings.int_setting, Settings.getenv.
  destruct (env name) as [s|]; split.
  - intros H s' [= <-]. exact H.
  - intros H. apply (H s eq_refl).
  - intros _ s' [=].
  - intros _. eexists; reflexivity.
Qed.

(** X13: With none of the threshold variables set, the threshold block
    evaluates to the defaults written in the class body, however
    strings would be read.  The class body as a whole then runs to its
    end exactly when each of the four variables it reads with [int]
    is, if set, accepted by [int]; a single one that is not makes the
    class body raise, and then there is no [Config] at all.  When it
    runs to its end, the thresholds of [Config] are the defaults. *)
Theorem thresholds_default
    (float_of_str : string -> Py.exn + Py.float) (int_of_str : string -> Py.exn + Z)
    (env : Settings.environ) :
  (forall name, In name Settings.threshold_names -> env name = None) ->
  Settings.thresholds float_of_str env = inr Settings.defaults
  /\ (forall config,
      Settings.class_body float_of_str env int_of_str = inr config ->
      Settings.limits config = Settings.defaults)
  /\ ((exists config, Settings.class_body float_of_str env int_of_str = inr config)
      <-> (forall name s,
              In name Settings.int_names -> env name = Some s ->
              exists n, int_of_str s = inr n)).
Proof.
  intros H.
  assert (Hblock : Settings.thresholds float_of_str env = inr Settings.defaults).
  { unfold Settings.thresholds.
    rewrite !float_setting_unset by (apply H; simpl; tauto).
    reflexivity. }
  split; [exact Hblock|].
  unfold Settings.class_body. rewrite Hblock. cbn [bind ret Monad_either].
  split; [|split].
  - intros config Hload.
    repeat match type of Hload with
    | context [Settings.int_setting env int_of_str ?n ?d] =>
        destruct (Settings.int_setting env int_of_str n d); [discriminate|]
    end.
    injection Hload as <-. reflexivity.
  - intros [config Hload] name s Hin Hset.
    repeat match type of Hload with
    | context [Settings.int_setting env int_of_str ?n ?d] =>
        let E := fresh "E" in let x := fresh "x" in let e := fresh "e" in
        destruct (Settings.int_setting env int_of_str n d) as [e|x] eqn:E;
        [discriminate|];
        pose proof (proj1 (int_setting_success env int_of_str n d) (ex_intro _ x E));
        clear E
    end.
    simpl in Hin.
    repeat (destruct Hin as [<-|Hin]; [eauto|]). contradiction.
  - intros Hint.
    repeat match goal with
    | |- context [Settings.int_setting env int_of_str ?n ?d] =>
        let x := fresh "x" in let E := fresh "E" in
        destruct (proj2 (int_setting_success env int_of_str n d)) as [x E];
        [intros s; apply Hint; simpl; tauto | rewrite E]
    end.
    eexists; reflexivity.
Qed.

Lemma thresholds_default_witness :
  Settings.thresholds (fun _ => inl (Py.ValueError "could not convert string to float"))
    (fun name => if String.eqb name "SENSOR_READ_INTERVAL" then Some "five" else None)
  = inr Settings.defaults
  /\ ~ (exists config,
         Settings.class_body (fun _ => inl (Py.ValueError "could not convert string to float"))
           (fun name => if String.eqb name "SENSOR_READ_INTERVAL" then Some "five" else None)
           (fun _ => inl (Py.ValueError "invalid literal for int() with base 10"))
         = inr config).
Proof.
  destruct (thresholds_default
              (fun _ => inl (Py.ValueError "could not convert string to float"))
              (fun _ => inl (Py.ValueError "invalid literal for int() with base 10"))
              (fun name => if String.eqb name "SENSOR_READ_INTERVAL" then Some "five" else None))
    as (Hblock & _ & Hclass).
  { intros name Hin. simpl in Hin.
    repeat (destruct Hin as [<-|Hin]; [reflexivity|]). contradiction. }
  split; [exact Hblock|].
  intros Hload.
  destruct (proj1 Hclass Hload "SENSOR_READ_INTERVAL" "five") as [n Hn];
    [simpl; auto | reflexivity | discriminate Hn].
Defined.

(** X14: The thresholds load exactly when every threshold variable that is
    set can be read as a float; one that cannot makes the load raise. *)
Theorem thresholds_load_iff
    (float_of_str : string -> Py.exn + Py.float) (env : Settings.environ) :
  (exists config, Settings.thresholds float_of_str env = inr config)
  <-> (forall name s,
          In name Settings.threshold_names -> env name = Some s ->
          exists x, float_of_str s = inr x).
Proof.
  split.
  - intros [config Hload] name s Hin Hset.
    unfold Settings.thresholds in Hload. cbn [bind ret Monad_either] in Hload.
    repeat match type of Hload with
    | context [Settings.float_setting float_of_str env ?n ?d] =>
        let E := fresh "E" in let x := fresh "x" in let e := fresh "e" in
        destruct (Settings.float_setting float_of_str env n d) as [e|x] eqn:E;
        [discriminate|];
        pose proof (proj1 (float_setting_success float_of_str env n d) (ex_intro _ x E));
        clear E
    end.
    simpl in Hin.
    repeat (destruct Hin as [<-|Hin]; [eauto|]). contradiction.
  - intros H. unfold Settings.thresholds. cbn [bind ret Monad_either].
    repeat match goal with
    | |- context [Settings.float_setting float_of_str env ?n ?d] =>
        let x := fresh "x" in let E := fresh "E" in
        destruct (proj2 (float_setting_success float_of_str env n d)) as [x E];
        [intros s; apply H; simpl; tauto | rewrite E]
    end.
    eexists; reflexivity.
Qed.

Lemma thresholds_load_iff_witness :
  exists config,
    Settings.thresholds (fun s => if String.eqb s "6.5" then inr (Py.dyadic 13 (-1))
                                  else inl (Py.ValueError "could not convert string to float"))
      (fun name => if String.eqb name "SOIL_PH_MIN" then Some "6.5" else None)
    = inr config.
Proof.
  apply thresholds_load_iff. intros name s Hin Hset.
  destruct (String.eqb name "SOIL_PH_MIN"); [|discriminate].
  injection Hset as <-. eexists; reflexivity.
Defined.

(** ** Dictionaries *)

Lemma optional_int_inj (a b : option Z) : Py.optional_int a = Py.optional_int b -> a = b.
Proof. destruct a, b; simpl; congruence. Qed.

Ltac split_dict_equation H :=
  repeat match goal with
  | H' : _ :: _ = _ :: _ |- _ => injection H' as ? H'
  | H' : (_, _) = (_, _) |- _ => injection H' as ?
  | H' : Py.VStr _ = Py.VStr _ |- _ => injection H' as ?
  | H' : Py.VFloat _ = Py.VFloat _ |- _ => injection H' as ?
  | H' : Py.VBool _ = Py.VBool _ |- _ => injection H' as ?
  | H' : Py.VInt _ = Py.VInt _ |- _ => injection H' as ?
  | H' : Py.VList _ = Py.VList _ |- _ => injection H' as H'
  | H' : Py.optional_int _ = Py.optional_int _ |- _ => apply optional_int_inj in H'
  end.

(** X15: [to_dict] drops no column: its keys are pairwise different, and
    two readings with the same dictionary have timestamps with the
    same [isoformat] and agree on every other column. *)
Theorem to_dict_faithful (isoformat : Z -> string) :
  (forall r1 r2 d,
      Py.call (SoilData.to_dict isoformat) r1 = inr (d, r1) ->
      Py.call (SoilData.to_dict isoformat) r2 = inr (d, r2) ->
      NoDup (map fst d) /\ List.length d = 15%nat
      /\ isoformat (SoilData.timestamp r1) = isoformat (SoilData.timestamp r2)
      /\ (SoilData.timestamp r1 = SoilData.timestamp r2 -> r1 = r2))
  /\ (forall r1 r2 d,
      Py.call (PlantData.to_dict isoformat) r1 = inr (d, r1) ->
      Py.call (PlantData.to_dict isoformat) r2 = inr (d, r2) ->
      NoDup (map fst d) /\ List.length d = 21%nat
      /\ isoformat (PlantData.timestamp r1) = isoformat (PlantData.timestamp r2)
      /\ (PlantData.timestamp r1 = PlantData.timestamp r2 -> r1 = r2)).
Proof.
  split; intros r1 r2 d H1 H2.
  - destruct r1, r2. unfold Py.call, SoilData.to_dict in H1, H2.
    cbn in H1, H2. injection H1 as <-. injection H2 as H2.
    split_dict_equation H2.
    split; [cbn [map fst]; repeat constructor; simpl; intuition discriminate|].
    split; [reflexivity|]. cbn [SoilData.timestamp].
    split; [congruence|]. intros ->. subst. reflexivity.
  - destruct r1, r2. unfold Py.call, PlantData.to_dict in H1, H2.
    cbn in H1, H2. injection H1 as <-. injection H2 as H2.
    split_dict_equation H2.
    split; [cbn [map fst]; repeat constructor; simpl; intuition discriminate|].
    split; [reflexivity|]. cbn [PlantData.timestamp].
    split; [congruence|]. intros ->. subst. reflexivity.
Qed.

Lemma to_dict_faithful_witness :
  (exists d,
      Py.call (SoilData.to_dict Bounds.decimal) Samples.soil = inr (d, Samples.soil)
      /\ NoDup (map fst d) /\ List.length d = 15%nat)
  /\ (exists d,
      Py.call (PlantData.to_dict Bounds.decimal) Samples.stressed_plant
      = inr (d, Samples.stressed_plant)
      /\ NoDup (map fst d) /\ List.length d = 21%nat).
Proof.
  destruct (to_dict_faithful Bounds.decimal) as [Hsoil Hplant]. split.
  - eexists. split; [reflexivity|].
    destruct (Hsoil Samples.soil Samples.soil _ eq_refl eq_refl) as (Hkeys & Hlen & _).
    split; [exact Hkeys | exact Hlen].
  - eexists. split; [reflexivity|].
    destruct (Hplant Samples.stressed_plant Samples.stressed_plant _ eq_refl eq_refl)
      as (Hkeys & Hlen & _).
    split; [exact Hkeys | exact Hlen].
Defined.

(** ** Accuracy of the NPK ratio *)

(** Each exact quotient by the rounded total is close to the exact
    share of the sum. *)
Lemma ratio_share_bounds (a b c t1 t x : R) :
  (0 <= a)%R -> (0 <= b)%R -> (0 <= c)%R -> (0 < t)%R ->
  (Rabs (t1 - (a + b)) <= u * (a + b))%R ->
  (Rabs (t - (t1 + c)) <= u * (t1 + c))%R ->
  (0 <= x <= a + b + c)%R ->
  (Rabs (1000 * (x / t) - 1000 * (x / (a + b + c))) <= 1 / 100)%R.
Proof.
  intros Ha Hb Hc Ht H1 H2 Hx.
  pose proof u_bounds as Hu.
  apply Rabs_le_bounds in H1. apply Rabs_le_bounds in H2.
  assert (Hu1 : (u * (a + b) <= 1 / 1000000 * (a + b))%R)
    by (apply Rmult_le_compat_r; lra).
  assert (Ht1 : (0 <= t1)%R) by lra.
  assert (Hu2 : (u * (t1 + c) <= 1 / 1000000 * (t1 + c))%R)
    by (apply Rmult_le_compat_r; lra).
  assert (Hu3 : (0 <= u * (a + b))%R) by (apply Rmult_le_pos; lra).
  assert (Hu4 : (0 <= u * (t1 + c))%R) by (apply Rmult_le_pos; lra).
  set (s := (a + b + c)%R) in *.
  assert (Hlo : ((1 - 3 / 1000000) * s <= t)%R) by (unfold s; lra).
  assert (Hhi : (t <= (1 + 3 / 1000000) * s)%R) by (unfold s; lra).
  assert (Hs : (0 < s)%R) by lra.
  assert (Hti : (0 < / t)%R) by (apply Rinv_0_lt_compat, Ht).
  assert (Hsi : (0 < / s)%R) by (apply Rinv_0_lt_compat, Hs).
  assert (Hat : (0 <= x / s <= 1)%R).
  { split; [unfold Rdiv; apply Rmult_le_pos; lra|].
    apply Rmult_le_reg_r with s; [exact Hs|].
    unfold Rdiv. rewrite Rmult_assoc, Rinv_l by lra. lra. }
  assert (Hst : (- (4 / 1000000) <= (s - t) / t <= 4 / 1000000)%R).
  { split.
    - apply Rmult_le_reg_r with t; [exact Ht|].
      unfold Rdiv. rewrite Rmult_assoc, Rinv_l by lra. lra.
    - apply Rmult_le_reg_r with t; [exact Ht|].
      unfold Rdiv. rewrite Rmult_assoc, Rinv_l by lra. lra. }
  replace (1000 * (x / t) - 1000 * (x / s))%R
    with (1000 * ((x / s) * ((s - t) / t)))%R by (field; lra).
  apply Rabs_le. nra.
Qed.

(** An integer number of tenths close to a share of at most 100 percent
    is at most 1000, and its distance to the percentage follows. *)
Lemma tenths_share (n : Z) (q x : R) :
  (Rabs (IZR n - 1000 * q) <= 1 / 2 + 1 / 100)%R ->
  (Rabs (1000 * q - 1000 * x) <= 1 / 100)%R ->
  (0 <= x <= 1)%R ->
  n <= 1000 /\ (Rabs (IZR n / 10 - 100 * x) <= 52 / 1000)%R.
Proof.
  intros H1 H2 Hx. apply Rabs_le_bounds in H1, H2. split.
  - assert (Hn : (IZR n < IZR 1001)%R) by lra.
    apply lt_IZR in Hn. lia.
  - apply Rabs_le. lra.
Qed.

Lemma share_range (x s : R) : (0 <= x <= s)%R -> (0 < s)%R -> (0 <= x / s <= 1)%R.
Proof.
  intros Hx Hs.
  assert (Hsi : (0 < / s)%R) by (apply Rinv_0_lt_compat, Hs).
  split; [unfold Rdiv; apply Rmult_le_pos; lra|].
  apply Rmult_le_reg_r with s; [exact Hs|].
  unfold Rdiv. rewrite Rmult_assoc, Rinv_l by lra. lra.
Qed.

(** The three rounded percentages of non-negative doubles with a
    finite positive float total. *)
Lemma shares_accurate (N P K : Py.float) :
  Exact.nonneg N = true -> Exact.nonneg P = true -> Exact.nonneg K = true ->
  Py.is_finite (N + P + K)%float = true ->
  (N + P + K >? #0)%float = true ->
  (N + P + K =? #0)%float = false
  /\ exists n p k : Z,
    Py.round ((N / (N + P + K)) * #100)%float 1 = Py.decimal false n 1
    /\ Py.round ((P / (N + P + K)) * #100)%float 1 = Py.decimal false p 1
    /\ Py.round ((K / (N + P + K)) * #100)%float 1 = Py.decimal false k 1
    /\ (0 <= n <= 1000 /\ 0 <= p <= 1000 /\ 0 <= k <= 1000)
    /\ (0 < value N + value P + value K)%R
    /\ (Rabs (IZR n / 10 - 100 * (value N / (value N + value P + value K))) <= 52 / 1000)%R
    /\ (Rabs (IZR p / 10 - 100 * (value P / (value N + value P + value K))) <= 52 / 1000)%R
    /\ (Rabs (IZR k / 10 - 100 * (value K / (value N + value P + value K))) <= 52 / 1000)%R.
Proof.
  intros Hn Hp Hk Hfin Hpos.
  apply nonneg_nonneg_finite in Hn, Hp, Hk.
  destruct (add_error _ _ Hn Hp) as [Hinf|[Ht1 Herr1]].
  { exfalso. rewrite Hinf, (add_infinity _ Hk) in Hfin. discriminate. }
  destruct (add_error _ _ Ht1 Hk) as [Hinf|[Ht Herr]].
  { exfalso. rewrite Hinf in Hfin. discriminate. }
  destruct (N + P + K)%float as [[]|[]| |[] mt et] eqn:Etotal; simpl in Ht; try contradiction;
    try discriminate Hpos.
  split; [reflexivity|].
  assert (Htpos : (0 < value (S754_finite false mt et))%R).
  { cbn [value cond_Zopp]. apply F2R_pos. lia. }
  pose proof (value_nonneg _ Hn) as Hvn. pose proof (value_nonneg _ Hp) as Hvp.
  pose proof (value_nonneg _ Hk) as Hvk.
  destruct (ratio_sum_bounds _ _ _ _ _ Hvn Hvp Hvk Htpos Herr1 Herr)
    as (Hxn & Hxp & Hxk & Hsum).
  assert (Hs : (0 < value N + value P + value K)%R).
  { pose proof u_bounds as Hu.
    apply Rabs_le_bounds in Herr1, Herr.
    assert ((u * (value N + value P) <= 1 / 1000000 * (value N + value P))%R)
      by (apply Rmult_le_compat_r; lra).
    assert ((0 <= value (N + P)%float)%R) by (apply value_nonneg, Ht1).
    assert ((u * (value (N + P)%float + value K)
             <= 1 / 1000000 * (value (N + P)%float + value K))%R)
      by (apply Rmult_le_compat_r; lra).
    lra. }
  pose proof (ratio_share_bounds _ _ _ _ _ (value N) Hvn Hvp Hvk Htpos Herr1 Herr) as Hsn.
  pose proof (ratio_share_bounds _ _ _ _ _ (value P) Hvn Hvp Hvk Htpos Herr1 Herr) as Hsp.
  pose proof (ratio_share_bounds _ _ _ _ _ (value K) Hvn Hvp Hvk Htpos Herr1 Herr) as Hsk.
  destruct (percentage_error _ mt et Hn Hxn) as (n & Hn0 & -> & Hnerr).
  destruct (percentage_error _ mt et Hp Hxp) as (p & Hp0 & -> & Hperr).
  destruct (percentage_error _ mt et Hk Hxk) as (k & Hk0 & -> & Hkerr).
  assert (Hrn : (0 <= value N <= value N + value P + value K)%R) by lra.
  assert (Hrp : (0 <= value P <= value N + value P + value K)%R) by lra.
  assert (Hrk : (0 <= value K <= value N + value P + value K)%R) by lra.
  destruct (tenths_share _ _ _ Hnerr (Hsn Hrn) (share_range _ _ Hrn Hs)) as [Hn1 Hna].
  destruct (tenths_share _ _ _ Hperr (Hsp Hrp) (share_range _ _ Hrp Hs)) as [Hp1 Hpa].
  destruct (tenths_share _ _ _ Hkerr (Hsk Hrk) (share_range _ _ Hrk Hs)) as [Hk1 Hka].
  exists n, p, k. do 3 (split; [reflexivity|]).
  split; [lia|]. split; [exact Hs|]. split; [exact Hna|]. split; [exact Hpa|exact Hka].
Qed.

(** X16: For finite non-negative nutrient values with a finite positive
    float total, every component of the ratio is a one-decimal
    percentage between 0.0 and 100.0 that differs from the exact
    percentage [100 * x / (N + P + K)] by at most 0.052. *)
Theorem npk_ratio_accuracy (r : SoilData.SoilReading) :
  let N := SoilData.nitrogen r in
  let P := SoilData.phosphorus r in
  let K := SoilData.potassium r in
  Exact.nonneg N = true -> Exact.nonneg P = true -> Exact.nonneg K = true ->
  Py.is_finite (N + P + K)%float = true ->
  (N + P + K >? #0)%float = true ->
  exists n p k : Z,
    Py.call SoilData.get_npk_ratio r
    = inr ((SoilData.Float (Py.decimal false n 1), SoilData.Float (Py.decimal false p 1),
            SoilData.Float (Py.decimal false k 1)), r)
    /\ (0 <= n <= 1000 /\ 0 <= p <= 1000 /\ 0 <= k <= 1000)
    /\ (0 < value N + value P + value K)%R
    /\ (Rabs (IZR n / 10 - 100 * (value N / (value N + value P + value K))) <= 52 / 1000)%R
    /\ (Rabs (IZR p / 10 - 100 * (value P / (value N + value P + value K))) <= 52 / 1000)%R
    /\ (Rabs (IZR k / 10 - 100 * (value K / (value N + value P + value K))) <= 52 / 1000)%R.
Proof.
  intros N P K Hn Hp Hk Hfin Hpos.
  destruct (shares_accurate N P K Hn Hp Hk Hfin Hpos)
    as (Hzero & n & p & k & En & Ep & Ek & Hrest).
  exists n, p, k. split; [|exact Hrest].
  rewrite get_npk_ratio_unfold. fold N P K. cbv zeta.
  rewrite Hzero, En, Ep, Ek. reflexivity.
Qed.

Lemma npk_ratio_accuracy_witness :
  exists n p k : Z,
    Py.call SoilData.get_npk_ratio Samples.soil
    = inr ((SoilData.Float (Py.decimal false n 1), SoilData.Float (Py.decimal false p 1),
            SoilData.Float (Py.decimal false k 1)), Samples.soil)
    /\ 0 <= n <= 1000 /\ 0 <= p <= 1000 /\ 0 <= k <= 1000.
Proof.
  destruct (npk_ratio_accuracy Samples.soil) as (n & p & k & Hcall & Hrange & _);
    try reflexivity.
  exists n, p, k. split; [exact Hcall | exact Hrange].
Defined.

(** X17: Equal positive nutrient values give a third each: the ratio is
    [(33.3, 33.3, 33.3)], whatever the common value. *)
Theorem npk_ratio_equal_shares (r : SoilData.SoilReading) (m : positive) (e : Z) :
  let x := S754_finite false m e in
  SoilData.nitrogen r = x -> SoilData.phosphorus r = x -> SoilData.potassium r = x ->
  valid_binary Py.prec Py.emax x = true ->
  Py.is_finite (x + x + x)%float = true ->
  Py.call SoilData.get_npk_ratio r
  = inr ((SoilData.Float (Py.decimal false 333 1), SoilData.Float (Py.decimal false 333 1),
          SoilData.Float (Py.decimal false 333 1)), r).
Proof.
  intros x HN HP HK Hvalid Hfin.
  assert (Hx : Exact.nonneg x = true) by exact Hvalid.
  assert (Hvx : (0 < value x)%R) by (unfold x; cbn [value cond_Zopp]; apply F2R_pos; lia).
  assert (Hpos : (x + x + x >? #0)%float = true).
  { pose proof (nonneg_nonneg_finite _ Hx) as Hx'.
    destruct (add_error _ _ Hx' Hx') as [Hinf|[Ht1 Herr1]].
    { exfalso. rewrite Hinf, (add_infinity _ Hx') in Hfin. discriminate. }
    destruct (add_error _ _ Ht1 Hx') as [Hinf|[Ht Herr]].
    { exfalso. rewrite Hinf in Hfin. discriminate. }
    pose proof u_bounds as Hu.
    apply Rabs_le_bounds in Herr1, Herr.
    assert ((u * (value x + value x) <= 1 / 1000000 * (value x + value x))%R)
      by (apply Rmult_le_compat_r; lra).
    assert ((0 <= value (x + x)%float)%R) by (apply value_nonneg, Ht1).
    assert ((u * (value (x + x)%float + value x)
             <= 1 / 1000000 * (value (x + x)%float + value x))%R)
      by (apply Rmult_le_compat_r; lra).
    assert (Hv : (0 < value (x + x + x)%float)%R) by lra.
    destruct (x + x + x)%float as [[]|[]| |[] mt et]; simpl in Ht; try contradiction;
      try reflexivity.
    simpl in Hv. lra. }
  destruct (shares_accurate x x x Hx Hx Hx Hfin Hpos)
    as (Hzero & n & _ & _ & En & _ & _ & _ & Hs & Hn & _ & _).
  rewrite get_npk_ratio_unfold, HN, HP, HK. cbv zeta.
  rewrite Hzero, En.
  replace (value x / (value x + value x + value x))%R with (1 / 3)%R in Hn
    by (field; lra).
  assert (Hthird : forall z : Z,
             (Rabs (IZR z / 10 - 100 * (1 / 3)) <= 52 / 1000)%R -> z = 333).
  { intros z Hz. apply Rabs_le_bounds in Hz.
    assert (H1 : (IZR 332 < IZR z)%R) by lra.
    assert (H2 : (IZR z < IZR 334)%R) by lra.
    apply lt_IZR in H1, H2. lia. }
  rewrite (Hthird n Hn). reflexivity.
Qed.

Lemma npk_ratio_equal_shares_witness :
  Py.call SoilData.get_npk_ratio Samples.soil
  = inr ((SoilData.Float (Py.decimal false 333 1), SoilData.Float (Py.decimal false 333 1),
          SoilData.Float (Py.decimal false 333 1)), Samples.soil).
Proof.
  apply (npk_ratio_equal_shares Samples.soil 5629499534213120 (-49)); reflexivity.
Defined.

(** A positive double divided by itself is exactly 1.0. *)
Lemma div_self (m : positive) (e : Z) :
  (S754_finite false m e / S754_finite false m e)%float = (#1)%float.
Proof.
  unfold Py.div, SFdiv. cbn [xorb].
  unfold SFdiv_core_binary.
  replace (Zdigits2 (Zpos m) + e - (Zdigits2 (Zpos m) + e)) with 0 by lia.
  replace (e - e) with 0 by lia.
  change (Z.min (fexp Py.prec Py.emax 0) 0) with (-53).
  change (0 - -53) with 53.
  cbv beta iota zeta.
  rewrite Z.shiftl_mul_pow2 by lia.
  assert (Hq : Zpos m * 2 ^ 53 / Zpos m = 2 ^ 53)
    by (rewrite Z.mul_comm; apply Z.div_mul; lia).
  assert (Hr : (Zpos m * 2 ^ 53) mod Zpos m = 0)
    by (rewrite Z.mul_comm; apply Z.mod_mul; lia).
  unfold Z.div in Hq. unfold Z.modulo in Hr.
  destruct (Z.div_eucl (Zpos m * 2 ^ 53) (Zpos m)) as [q r].
  rewrite Hq, Hr.
  assert (Hl : new_location (Zpos m) 0 = loc_Exact).
  { unfold new_location. destruct (Z.even (Zpos m)); reflexivity. }
  rewrite Hl.
  vm_compute. reflexivity.
Qed.

(** X18: When one nutrient is positive and the other two are 0.0, the
    ratio gives that nutrient exactly 100.0 and the others 0.0,
    whatever its value. *)
Theorem npk_ratio_single_nutrient (r : SoilData.SoilReading) (m : positive) (e : Z) :
  let x := S754_finite false m e in
  let zero := (#0)%float in
  let ratio a b c :=
    Py.call SoilData.get_npk_ratio r
    = inr ((SoilData.Float a, SoilData.Float b, SoilData.Float c), r) in
  (SoilData.nitrogen r = x -> SoilData.phosphorus r = zero -> SoilData.potassium r = zero ->
   ratio (#100)%float zero zero)
  /\ (SoilData.nitrogen r = zero -> SoilData.phosphorus r = x -> SoilData.potassium r = zero ->
      ratio zero (#100)%float zero)
  /\ (SoilData.nitrogen r = zero -> SoilData.phosphorus r = zero -> SoilData.potassium r = x ->
      ratio zero zero (#100)%float).
Proof.
  intros x zero ratio. unfold ratio.
  assert (Hfull : Py.round ((x / x) * #100)%float 1 = (#100)%float).
  { unfold x. rewrite div_self. vm_compute. reflexivity. }
  assert (Hnone : Py.round ((zero / x) * #100)%float 1 = zero) by reflexivity.
  repeat split; intros HN HP HK; rewrite get_npk_ratio_unfold, HN, HP, HK;
    change (zero + zero + x)%float with x; change (zero + x + zero)%float with x;
    change (x + zero + zero)%float with x;
    change (x =? #0)%float with false; cbv iota;
    rewrite Hfull, Hnone; reflexivity.
Qed.

Lemma npk_ratio_single_nutrient_witness :
  Py.call SoilData.get_npk_ratio Samples.nitrogen_only_soil
  = inr ((SoilData.Float (#100)%float, SoilData.Float (#0)%float, SoilData.Float (#0)%float),
         Samples.nitrogen_only_soil).
Proof.
  apply (proj1 (npk_ratio_single_nutrient Samples.nitrogen_only_soil 5629499534213120 (-49)));
    reflexivity.
Defined.

(** ** Stress indicators and exact scores *)

Lemma in_labels (s : string) (l : list string) (b : bool) :
  existsb (String.eqb s) l = b -> (In s l <-> b = true).
Proof.
  intros <-. rewrite existsb_exists. split.
  - intros H. exists s. split; [exact H | apply String.eqb_refl].
  - intros (x & Hx & He). apply String.eqb_eq in He. subst. exact Hx.
Qed.

Ltac distinct_labels :=
  repeat (constructor;
          [let H := fresh in
           intros H; simpl in H; repeat (destruct H as [H|H]; [discriminate H|]); exact H|]);
  constructor.

(** The list built by the seven appends of [get_stress_indicators],
    for any outcome of its seven tests. *)
Lemma indicators_of_tests (water heat drought disease pest deficiency chlorophyll : bool) :
  let indicators : list string := [] in
  let indicators :=
    if water then (indicators ++ ["High water stress"])%list else indicators in
  let indicators :=
    if heat then (indicators ++ ["Heat stress"])%list else indicators in
  let indicators :=
    if drought then (indicators ++ ["Drought stress"])%list else indicators in
  let indicators :=
    if disease then (indicators ++ ["Disease symptoms present"])%list else indicators in
  let indicators :=
    if pest then (indicators ++ ["Pest presence detected"])%list else indicators in
  let indicators :=
    if deficiency then (indicators ++ ["Nutrient deficiency signs"])%list else indicators in
  let indicators :=
    if chlorophyll then (indicators ++ ["Low chlorophyll levels"])%list else indicators in
  NoDup indicators
  /\ (List.length indicators <= 7)%nat
  /\ (In "High water stress" indicators <-> water = true)
  /\ (In "Heat stress" indicators <-> heat = true)
  /\ (In "Drought stress" indicators <-> drought = true)
  /\ (In "Disease symptoms present" indicators <-> disease = true)
  /\ (In "Pest presence detected" indicators <-> pest = true)
  /\ (In "Nutrient deficiency signs" indicators <-> deficiency = true)
  /\ (In "Low chlorophyll levels" indicators <-> chlorophyll = true)
  /\ (indicators = []
      <-> water = false /\ heat = false /\ drought = false /\ disease = false
          /\ pest = false /\ deficiency = false /\ chlorophyll = false).
Proof.
  destruct water, heat, drought, disease, pest, deficiency, chlorophyll;
    cbn [app];
    (split; [distinct_labels|]);
    (split; [simpl; lia|]);
    do 7 (split; [apply in_labels; reflexivity|]);
    (split; [intros H; try discriminate H; repeat split
            |intros (? & ? & ? & ? & ? & ? & ?); try discriminate; reflexivity]).
Qed.

Lemma truthy_nonempty (s : string) : Py.truthy s = true <-> s <> "".
Proof. destruct s; simpl; split; intros H; congruence. Qed.

Lemma falsy_empty (s : string) : Py.truthy s = false <-> s = "".
Proof. destruct s; simpl; split; intros H; congruence. Qed.

(** X19: [get_stress_indicators] returns at most seven labels without
    repetition; each label is present exactly when its condition
    holds, so the list is empty exactly when none does. *)
Theorem stress_indicators_spec (r : PlantData.PlantReading) :
  exists indicators,
    Py.call PlantData.get_stress_indicators r = inr (indicators, r)
    /\ NoDup indicators
    /\ (List.length indicators <= 7)%nat
    /\ (In "High water stress" indicators
        <-> (PlantData.water_stress_level r >? #5)%float = true)
    /\ (In "Heat stress" indicators
        <-> (PlantData.heat_stress_score r >? #5)%float = true)
    /\ (In "Drought stress" indicators
        <-> (PlantData.drought_stress_score r >? #5)%float = true)
    /\ (In "Disease symptoms present" indicators <-> PlantData.disease_symptoms r <> "")
    /\ (In "Pest presence detected" indicators <-> PlantData.pest_presence r = true)
    /\ (In "Nutrient deficiency signs" indicators
        <-> PlantData.nutrient_deficiency_signs r <> "")
    /\ (In "Low chlorophyll levels" indicators
        <-> (PlantData.leaf_chlorophyll_index r <? #20)%float = true)
    /\ (indicators = []
        <-> (PlantData.water_stress_level r >? #5)%float = false
            /\ (PlantData.heat_stress_score r >? #5)%float = false
            /\ (PlantData.drought_stress_score r >? #5)%float = false
            /\ PlantData.disease_symptoms r = ""
            /\ PlantData.pest_presence r = false
            /\ PlantData.nutrient_deficiency_signs r = ""
            /\ (PlantData.leaf_chlorophyll_index r <? #20)%float = false).
Proof.
  eexists. split; [reflexivity|].
  pose proof (indicators_of_tests
                (PlantData.water_stress_level r >? #5)%float
                (PlantData.heat_stress_score r >? #5)%float
                (PlantData.drought_stress_score r >? #5)%float
                (Py.truthy (PlantData.disease_symptoms r))
                (PlantData.pest_presence r)
                (Py.truthy (PlantData.nutrient_deficiency_signs r))
                (PlantData.leaf_chlorophyll_index r <? #20)%float)
    as (Hnodup & Hlen & Hwater & Hheat & Hdrought & Hdisease & Hpest & Hdef & Hchl & Hnil).
  split; [exact Hnodup|]. split; [exact Hlen|].
  split; [exact Hwater|]. split; [exact Hheat|]. split; [exact Hdrought|].
  split; [exact (iff_trans Hdisease (truthy_nonempty _))|].
  split; [exact Hpest|].
  split; [exact (iff_trans Hdef (truthy_nonempty _))|].
  split; [exact Hchl|].
  apply (iff_trans Hnil).
  split; intros (H1 & H2 & H3 & H4 & H5 & H6 & H7); repeat (split; [assumption|]).
  - split; [apply falsy_empty, H4|]. split; [exact H5|].
    split; [apply falsy_empty, H6 | exact H7].
  - split; [apply falsy_empty, H4|]. split; [exact H5|].
    split; [apply falsy_empty, H6 | exact H7].
Qed.

Lemma same_eq (x y : Py.float) : Points.same x y = true -> x = y.
Proof.
  destruct x as [s|s| |s m e], y as [s'|s'| |s' m' e']; simpl; try discriminate;
    try reflexivity.
  - intros H. apply Bool.eqb_prop in H. congruence.
  - intros H. apply Bool.eqb_prop in H. congruence.
  - intros H. apply andb_prop in H. destruct H as [H He].
    apply andb_prop in H. destruct H as [Hs Hm].
    apply Bool.eqb_prop in Hs. apply Pos.eqb_eq in Hm. apply Z.eqb_eq in He. congruence.
Qed.

Lemma in_range (lo : Z) (n : nat) (z : Z) :
  lo <= z < lo + Z.of_nat n -> In z (Points.range lo n).
Proof.
  intros H. unfold Points.range.
  replace z with (lo + Z.of_nat (Z.to_nat (z - lo))) by lia.
  apply (in_map (fun i => lo + Z.of_nat i)), in_seq. lia.
Qed.

(** A check on a whole range holds at each of its members. *)
Lemma range_check (lo : Z) (n : nat) (p : Z -> bool) :
  forallb p (Points.range lo n) = true ->
  forall z, lo <= z < lo + Z.of_nat n -> p z = true.
Proof.
  intros H z Hz. rewrite forallb_forall in H. exact (H z (in_range lo n z Hz)).
Qed.

(** A check on all triples of stress levels holds at each of them. *)
Lemma levels_check (p : Z -> Z -> Z -> bool) :
  forallb (fun w => forallb (fun h => forallb (p w h) (Points.range 0 11)) (Points.range 0 11))
    (Points.range 0 11) = true ->
  forall w h d, 0 <= w <= 10 -> 0 <= h <= 10 -> 0 <= d <= 10 -> p w h d = true.
Proof.
  intros H w h d Hw Hh Hd.
  assert (Hw' : 0 <= w < 0 + Z.of_nat 11) by lia.
  assert (Hh' : 0 <= h < 0 + Z.of_nat 11) by lia.
  assert (Hd' : 0 <= d < 0 + Z.of_nat 11) by lia.
  pose proof (range_check 0 11 _ H w Hw') as H1. cbv beta in H1.
  pose proof (range_check 0 11 _ H1 h Hh') as H2. cbv beta in H2.
  exact (range_check 0 11 _ H2 d Hd').
Qed.

(** The three stress deductions are exact on integer levels. *)
Lemma stress_points_exact (w h d : Z) :
  0 <= w <= 10 -> 0 <= h <= 10 -> 0 <= d <= 10 ->
  (#100 - #w * #5 - #h * #3 - #d * #3)%float = (# (100 - w * 5 - h * 3 - d * 3))%float.
Proof.
  intros Hw Hh Hd. apply same_eq.
  revert w h d Hw Hh Hd. apply levels_check. vm_compute. reflexivity.
Qed.

(** The symptom, chlorophyll and growth adjustments and the final
    clamp are exact on every integer the stress deductions can leave. *)
Lemma adjustments_exact (v : Z)
  (disease pest deficiency above_40 below_20 below_half above_2 : bool) :
  -10 <= v <= 100 ->
  let base_score := (# v)%float in
  let base_score := if disease then (base_score - #20)%float else base_score in
  let base_score := if pest then (base_score - #15)%float else base_score in
  let base_score := if deficiency then (base_score - #15)%float else base_score in
  let base_score :=
    if above_40 then (base_score + #5)%float
    else if below_20 then (base_score - #10)%float
    else base_score in
  let base_score :=
    if below_half then (base_score - #10)%float
    else if above_2 then (base_score + #5)%float
    else base_score in
  Py.max (#0)%float (Py.min (#100)%float base_score)
  = (# (Z.max 0 (Z.min 100 (v - Points.symptoms disease pest deficiency
                            + Points.chlorophyll above_40 below_20
                            + Points.growth below_half above_2))))%float.
Proof.
  intros Hv. cbv zeta. apply same_eq.
  assert (Hv' : -10 <= v < -10 + Z.of_nat 111) by lia. clear Hv.
  revert v Hv'. apply range_check.
  destruct disease, pest, deficiency, above_40, below_20, below_half, above_2;
    vm_compute; reflexivity.
Qed.

(** X20: On integer stress levels within the validated range the float
    computation of [calculate_health_score] is exact: it returns the
    integer score
    [max(0, min(100, 100 - 5w - 3h - 3d - symptoms + chlorophyll + growth))]
    as a float. *)
Theorem health_score_exact_on_integers (r : PlantData.PlantReading) (w h d : Z) :
  0 <= w <= 10 -> 0 <= h <= 10 -> 0 <= d <= 10 ->
  PlantData.water_stress_level r = (# w)%float ->
  PlantData.heat_stress_score r = (# h)%float ->
  PlantData.drought_stress_score r = (# d)%float ->
  Py.call PlantData.calculate_health_score r = inr ((# (Points.score w h d r))%float, r).
Proof.
  intros Hw Hh Hd Ew Eh Ed.
  unfold Py.call, PlantData.calculate_health_score. run_method.
  rewrite Ew, Eh, Ed, (stress_points_exact w h d Hw Hh Hd).
  unfold Points.score.
  assert (Hv : -10 <= 100 - w * 5 - h * 3 - d * 3 <= 100) by lia.
  exact (f_equal (fun score => inr (score, r)) (adjustments_exact _ _ _ _ _ _ _ _ Hv)).
Qed.

Lemma health_score_exact_on_integers_witness :
  Py.call PlantData.calculate_health_score Samples.stressed_plant
  = inr ((# (Points.score 10 10 10 Samples.stressed_plant))%float, Samples.stressed_plant).
Proof.
  apply (health_score_exact_on_integers Samples.stressed_plant 10 10 10);
    try lia; reflexivity.
Defined.
